(** * Detonation-property scripts: a shallow embedding

    The repository holds three Python scripts (DetProperties.py,
    demo_CJstate.py, ZNDDetPostShock.py).  Each is one flat procedure that
    builds a fuel/air composition, calls Cantera and the Shock and
    Detonation Toolbox, derives a few scalars by plain arithmetic, prints
    them and (for two of the scripts) plots result arrays.

    Numbers are modelled as the interpreter has them: Python [int] as [Z],
    Python [float] and numpy [float64] as IEEE-754 binary64 ([PrimFloat]),
    numpy [int64] as [Z] with its wrap-around.  Arithmetic on floats is the
    binary64 operation, division included: a zero divisor gives an
    infinity or a NaN, as it does for the numpy scalars the solvers
    return.  The external libraries are a record of state-passing
    functions ([Library]); a call may raise, and a script is a computation
    in a writer/error monad whose log is the sequence of library calls,
    console lines and plotting calls it makes. *)

From Stdlib Require Import ZArith List String Ascii Floats Uint63 QArith Qabs Lia Bool.
From Stdlib Require Import DecimalString.
From stdpp Require Import base list.
Import ListNotations.

#[local] Set Warnings "-inexact-float".

Local Open Scope string_scope.
Local Open Scope Z_scope.

(** ** Python numbers *)

Module Py.

(** An [int] or a [float], as a value handed to a library or to [print]. *)
Inductive number :=
| Int (z : Z)
| Float (x : float).

(** [float(z)] for an integer of magnitude below 2^63. *)
Definition of_int (z : Z) : float :=
  if z <? 0 then PrimFloat.opp (PrimFloat.of_uint63 (Uint63.of_Z (- z)))
  else PrimFloat.of_uint63 (Uint63.of_Z z).

(** numpy [int64] arithmetic wraps modulo 2^64 into [-2^63, 2^63). *)
Definition int64_wrap (z : Z) : Z :=
  if (-9223372036854775808 <=? z) && (z <? 9223372036854775808) then z
  else (z + 9223372036854775808) mod 18446744073709551616
       - 9223372036854775808.

(** [x > y] on floats; false when either side is NaN. *)
Definition gt (x y : float) : bool := PrimFloat.ltb y x.

(** The rational a finite binary64 value stands for exactly. *)
Definition SF2Q (s : spec_float) : option Q :=
  match s with
  | S754_zero _ => Some 0%Q
  | S754_finite sg m e =>
      Some ((if sg then - inject_Z (Z.pos m) else inject_Z (Z.pos m))
            * Qpower 2 e)%Q
  | S754_infinity _ | S754_nan => None
  end.

Definition to_Q (x : float) : option Q := SF2Q (Prim2SF x).

(** [|a - b| <= eps] on exact values; false when one is not finite. *)
Definition Qclose (eps : Q) (a b : option Q) : bool :=
  match a, b with
  | Some a, Some b => Qle_bool (Qabs (a - b)) eps
  | _, _ => false
  end.

(** [str(z)] for an [int]. *)
Definition str (z : Z) : string :=
  DecimalString.NilZero.string_of_int (Z.to_int z).

(** The line feed of a ['\n'] escape. *)
Definition nl : string := String (ascii_of_nat 10) EmptyString.

End Py.

Import Py.

(** ** numpy arrays, as lists *)

Module Np.

Fixpoint arange_from (start : Z) (len : nat) : list Z :=
    match len with
    | O => []
    | S len' => start :: arange_from (start + 1) len'
    end.

(** [np.arange(n)]: the [int64] values 0, 1, ..., n-1. *)
Definition arange (n : Z) : list Z := arange_from 0 (Z.to_nat n).

(** [np.linspace(start, stop, num)] for float endpoints and [num > 1]:
    [i * step + start] with [step = (stop - start) / (num - 1)], the last
    entry overwritten with [stop]. *)
Definition linspace (start stop : float) (num : Z) : list float :=
  let step := ((stop - start) / of_int (num - 1))%float in
  let y := map (fun i => (of_int i * step + start)%float) (arange num) in
  if 1 <? num then <[Z.to_nat (num - 1) := stop]> y else y.

(** [np.zeros_like(a)] for a one-dimensional float array. *)
Definition zeros_like (a : list float) : list float :=
  repeat 0%float (length a).

(** [np.stack((a, b, c))]: a fresh two-dimensional array of three rows. *)
Definition stack3 (a b c : list float) : list (list float) := [a; b; c].

End Np.

(** ** The composition mapping *)

(** The dict [{'C3H8': .., 'O2': .., 'N2': ..}], keys in insertion order. *)
Definition composition := list (string * float).

(** Lines 64-66 and 70 of DetProperties.py, 51-53 and 57 of demo_CJstate.py
    ([total = 100]) and 14-17 of ZNDDetPostShock.py ([total = 1]). *)
Definition make_q (total : Z) (propane_comp : float) : composition :=
  let HC_comp := propane_comp in
  let O_comp := ((of_int total - HC_comp) * 0.21)%float in
  let N2_comp := ((of_int total - HC_comp) * 0.79)%float in
  [("C3H8", HC_comp); ("O2", O_comp); ("N2", N2_comp)].

(** [q[key]]. *)
Fixpoint q_get (q : composition) (key : string) : option float :=
  match q with
  | [] => None
  | (k, v) :: q' => if String.eqb k key then Some v else q_get q' key
  end.

(** The components added left to right in binary64, as
    [q['C3H8'] + q['O2'] + q['N2']] evaluates. *)
Definition q_sum (q : composition) : float :=
  fold_left (fun acc kv => (acc + snd kv)%float) q 0%float.

(** The exact sum of the components. *)
Definition q_sum_exact (q : composition) : option Q :=
  fold_left (fun acc kv =>
               match acc, to_Q (snd kv) with
               | Some a, Some v => Some (a + v)%Q
               | _, _ => None
               end) q (Some 0%Q).

(** ** Exceptions and results *)

Inductive exn :=
| LibraryError (msg : string)   (* raised inside Cantera or SDToolbox *)
| OSError (msg : string)        (* raised when a file cannot be written *)
| IndexError                    (* an index outside an array *).

Inductive result (A : Type) :=
| Ok (a : A)
| Raise (e : exn).
Arguments Ok {A} a.
Arguments Raise {A} e.

(** ** The external libraries

    Cantera, the Shock and Detonation Toolbox, the two power functions
    and matplotlib are not part of the repository.  A gas object is
    mutable; a function that may change the object it is given returns
    its new state.  Of matplotlib, the calls that draw on the figure in
    memory are logged as events; [plt.savefig] touches the file system
    and may raise. *)

Record Types := {
  gas : Type;           (* [ct.Solution] objects *)
  reactor : Type;       (* [ct.IdealGasConstPressureReactor] objects *)
  reactor_net : Type;   (* [ct.ReactorNet] objects *)
  plot_data : Type      (* the fit data [CJspeed] returns *)
}.

Record Library (Ty : Types) := {
  (* cantera *)
  one_atm : float;
  Solution : string -> result (gas Ty);
  set_TPX : gas Ty -> number -> number -> composition -> result (gas Ty);
  density : gas Ty -> float;
  pressure : gas Ty -> float;
  temperature : gas Ty -> float;
  entropy_mass : gas Ty -> float;
  IdealGasConstPressureReactor : gas Ty -> result (reactor Ty);
  ReactorNet : list (reactor Ty) -> result (reactor_net Ty);
  (* [sim.advance(t)] integrates the network and the reactor it refers to *)
  advance :
    reactor_net Ty -> reactor Ty -> float
    -> result (reactor_net Ty * reactor Ty);
  (* [r.thermo.state.T[0]]: the first entry of the state vector of the
     reactor's gas, which is its temperature *)
  state_T0 : reactor Ty -> float;
  (* sdtoolbox.thermo *)
  soundspeed_eq : gas Ty -> result (float * gas Ty);
  soundspeed_fr : gas Ty -> result (float * gas Ty);
  (* sdtoolbox.postshock; [CJspeed_full] is [CJspeed(.., fullOutput=True)] *)
  CJspeed_full :
    number -> number -> composition -> string
    -> result (float * float * plot_data Ty);
  CJspeed : number -> number -> composition -> string -> result float;
  PostShock_eq :
    float -> number -> number -> composition -> string -> result (gas Ty);
  PostShock_fr :
    float -> number -> number -> composition -> string -> result (gas Ty);
  (* [x ** n] on a float and [np.power(x, y)] *)
  float_pow : float -> Z -> float;
  np_power : float -> float -> float;
  (* matplotlib: what [plt.savefig] does with a file name in the given
     directory; it raises when the directory does not exist.  No script
     creates or removes a directory, so the answer for one directory is
     the same throughout a run. *)
  savefig_in : string -> result unit
}.

Arguments one_atm {Ty} l.
Arguments Solution {Ty} l.
Arguments set_TPX {Ty} l.
Arguments density {Ty} l.
Arguments pressure {Ty} l.
Arguments temperature {Ty} l.
Arguments entropy_mass {Ty} l.
Arguments IdealGasConstPressureReactor {Ty} l.
Arguments ReactorNet {Ty} l.
Arguments advance {Ty} l.
Arguments state_T0 {Ty} l.
Arguments soundspeed_eq {Ty} l.
Arguments soundspeed_fr {Ty} l.
Arguments CJspeed_full {Ty} l.
Arguments CJspeed {Ty} l.
Arguments PostShock_eq {Ty} l.
Arguments PostShock_fr {Ty} l.
Arguments float_pow {Ty} l.
Arguments np_power {Ty} l.
Arguments savefig_in {Ty} l.

(** ** What a script does: its log *)

Section Script.

Variable Ty : Types.

(** A library call, with the scalar arguments it was given. *)
Inductive call :=
| Call_Solution (mech : string)
| Call_set_TPX (T P : number) (q : composition)
| Call_soundspeed_eq
| Call_soundspeed_fr
| Call_CJspeed (P T : number) (q : composition) (mech : string)
    (fullOutput : bool)
| Call_PostShock_eq (U : float) (P T : number) (q : composition)
    (mech : string)
| Call_PostShock_fr (U : float) (P T : number) (q : composition)
    (mech : string)
| Call_Reactor
| Call_ReactorNet
| Call_advance (t : float)
| Call_savefig (figname : string).

(** A value substituted into a console line. *)
Inductive value :=
| VNum (n : number)
| VDict (q : composition)
| VPlotData (d : plot_data Ty).

(** A library call is logged with the exception it raised, if any;
    [Savefig] records a file that [plt.savefig] has written.
    A console line is kept as its template and the values [%] or the
    f-string substitutes into it; the rendering of digits is Python's. *)
Inductive event :=
| Called (c : call) (raised : option exn)
| Print (template : string) (args : list value)
| Plot (x y : list float) (style label : string)
| Legend
| Xlabel (s : string)
| Ylabel (s : string)
| Title (s : string)
| Savefig (figname : string)
| Show.

(** A script run: the log so far and a value or the exception raised. *)
Definition M (A : Type) : Type := list event * result A.

Definition ret {A} (a : A) : M A := ([], Ok a).

Definition bind {A B} (m : M A) (k : A -> M B) : M B :=
    match m with
    | (log, Ok a) => let '(log', r) := k a in ((log ++ log')%list, r)
    | (log, Raise e) => (log, Raise e)
    end.

Definition emit (ev : event) : M unit := ([ev], Ok tt).

(** A library call: logged, then its result or its exception. *)
Definition lib {A} (c : call) (r : result A) : M A :=
  ([Called c (match r with Ok _ => None | Raise e => Some e end)], r).

(** An operation of the script itself that may raise. *)
Definition lift {A} (r : result A) : M A := ([], r).

Definition print (template : string) (args : list value) : M unit :=
    emit (Print template args).

End Script.

Arguments ret {Ty A} a.
Arguments bind {Ty A B} m k.
Arguments emit {Ty} ev.
Arguments lib {Ty A} c r.
Arguments lift {Ty A} r.
Arguments print {Ty} template args.
Arguments Called {Ty} c raised.
Arguments Print {Ty} template args.
Arguments Plot {Ty} x y style label.
Arguments Legend {Ty}.
Arguments Xlabel {Ty} s.
Arguments Ylabel {Ty} s.
Arguments Title {Ty} s.
Arguments Savefig {Ty} figname.
Arguments Show {Ty}.
Arguments VNum {Ty} n.
Arguments VDict {Ty} q.
Arguments VPlotData {Ty} d.

Notation "'let*' x := m 'in' k" := (bind m (fun x => k))
  (at level 10, x pattern, m at level 100, k at level 200).
Notation "m ;; k" := (bind m (fun _ => k))
  (at level 100, k at level 200, right associativity).

Definition VFloat {Ty} (x : float) : value Ty := VNum (Float x).
Definition VInt {Ty} (z : Z) : value Ty := VNum (Int z).

(** ** Writing a figure *)

Fixpoint has_slash (path : string) : bool :=
  match path with
  | EmptyString => false
  | String c rest => Ascii.eqb c "/" || has_slash rest
  end.

(** The directory of a relative path: what precedes its last ['/'], empty
    when there is none. *)
Fixpoint directory (path : string) : string :=
  match path with
  | EmptyString => EmptyString
  | String c rest =>
      if has_slash rest then String c (directory rest) else EmptyString
  end.

(** [plt.savefig(figname)]: a library call that may raise; when it
    returns the file is written. *)
Definition savefig {Ty} (L : Library Ty) (figname : string) : M Ty unit :=
  lib (Call_savefig figname) (savefig_in L (directory figname)) ;;
  emit (Savefig figname).

(** ** Indexing *)

(** [a[i]] on a one-dimensional array. *)
Definition getitem {A} (a : list A) (i : nat) : result A :=
  match a !! i with
  | Some x => Ok x
  | None => Raise IndexError
  end.

(** [a[i, j] = v] on a two-dimensional array. *)
Definition setitem2 (a : list (list float)) (i j : nat) (v : float)
  : result (list (list float)) :=
  match a !! i with
  | Some row =>
      if (j <? length row)%nat then Ok (<[i := <[j := v]> row]> a)
      else Raise IndexError
  | None => Raise IndexError
  end.

(** [for i, x in enumerate(xs): st = body(st, i, x)], first index [i]. *)
Fixpoint for_enumerate {Ty St A} (body : St -> nat -> A -> M Ty St)
  (st : St) (i : nat) (xs : list A) : M Ty St :=
  match xs with
  | [] => ret st
  | x :: xs' => let* st' := body st i x in for_enumerate body st' (S i) xs'
  end.

(** ** DetProperties.py *)

Module DetProperties.

Definition inittemp : list Z := [300; 300; 600].
Definition initpress : list Z := [100; 500; 100].
Definition compositions : list float := Np.linspace 2.2 9.2 30.
Definition mech : string := "gri30.cti".

(** The seven arrays of lines 41-52. *)
Record arrays := {
  detionation_speed : list (list float);
  detonation_speed : list (list float);
  detonation_mach : list (list float);
  product_temp : list (list float);
  product_press : list (list float);
  product_specificheat : list (list float);
  calc_detspeed : list (list float)
}.

(** The local variables of one pass through the loop body, lines 64-92. *)
Record locals (Ty : Types) := {
  P1 : Z;
  T1 : Z;
  q : composition;
  rho_1 : float;
  csound : float;
  cj_speed : float;
  R2 : float;
  cj_plot_data : plot_data Ty;
  state : gas Ty;
  ae : float;
  af : float;
  rho_2 : float;
  gammae : float;
  gammaf : float;
  w2 : float;
  u2 : float;
  D : float;
  Dcalc : float;
  mach : float
}.
Arguments P1 {Ty} l.
Arguments T1 {Ty} l.
Arguments q {Ty} l.
Arguments rho_1 {Ty} l.
Arguments csound {Ty} l.
Arguments cj_speed {Ty} l.
Arguments R2 {Ty} l.
Arguments cj_plot_data {Ty} l.
Arguments state {Ty} l.
Arguments ae {Ty} l.
Arguments af {Ty} l.
Arguments rho_2 {Ty} l.
Arguments gammae {Ty} l.
Arguments gammaf {Ty} l.
Arguments w2 {Ty} l.
Arguments u2 {Ty} l.
Arguments D {Ty} l.
Arguments Dcalc {Ty} l.
Arguments mach {Ty} l.

(** Line 91. *)
Definition Dcalc_expr {Ty : Types} (L : Library Ty) : float :=
  ((1.29 + 1) / 1.29 * np_power L (1.29 * 8314 * 2700 / 28) 0.5)%float.

(** Lines 64-92: composition, initial state, the solver calls and the
    derived quantities. *)
Definition compute {Ty : Types} (L : Library Ty) (IC : nat) (propane_comp : float)
  : M Ty (locals Ty) :=
  let q := make_q 100 propane_comp in
  let* p := lift (getitem initpress IC) in
  let P1 := int64_wrap (p * 1000) in
  let* T1 := lift (getitem inittemp IC) in
  let* gas_initial := lib (Call_Solution mech) (Solution L mech) in
  let* gas_initial :=
    lib (Call_set_TPX (Int T1) (Int P1) q)
        (set_TPX L gas_initial (Int T1) (Int P1) q) in
  let rho_1 := density L gas_initial in
  let* (csound, gas_initial) :=
    lib Call_soundspeed_eq (soundspeed_eq L gas_initial) in
  let* (cj_speed, R2, plot_data) :=
    lib (Call_CJspeed (Int P1) (Int T1) q mech true)
        (CJspeed_full L (Int P1) (Int T1) q mech) in
  let* gas :=
    lib (Call_PostShock_eq cj_speed (Int P1) (Int T1) q mech)
        (PostShock_eq L cj_speed (Int P1) (Int T1) q mech) in
  let* (ae, gas) := lib Call_soundspeed_eq (soundspeed_eq L gas) in
  let* (af, gas) := lib Call_soundspeed_fr (soundspeed_fr L gas) in
  let rho_2 := density L gas in
  let gammae := (float_pow L ae 2 * rho_2 / pressure L gas)%float in
  let gammaf := (float_pow L af 2 * rho_2 / pressure L gas)%float in
  let w2 := (cj_speed * rho_1 / rho_2)%float in
  let u2 := (cj_speed - w2)%float in
  let D := cj_speed in
  let Dcalc := Dcalc_expr L in
  let mach := (D / csound)%float in
  ret {| P1 := P1; T1 := T1; q := q; rho_1 := rho_1; csound := csound;
         cj_speed := cj_speed; R2 := R2; cj_plot_data := plot_data;
         state := gas; ae := ae; af := af; rho_2 := rho_2;
         gammae := gammae; gammaf := gammaf; w2 := w2; u2 := u2;
         D := D; Dcalc := Dcalc; mach := mach |}.

(** Lines 93-112. *)
Definition report {Ty : Types} (L : Library Ty) (v : locals Ty) : M Ty unit :=
  print (nl ++ "CJ computation for " ++ mech ++ " with composition:") [] ;;
  print "{}" [VDict (q v)] ;;
  print "Initial conditions: P1 = %.3e Pa & T1 = %.2f K"
    [VInt (P1 v); VInt (T1 v)] ;;
  print "CJ Speed   %.1f m/s" [VFloat (cj_speed v)] ;;
  print "CJ State" [] ;;
  print "   Pressure   %.3e Pa" [VFloat (pressure L (state v))] ;;
  print "   Temperature  %.1f K" [VFloat (temperature L (state v))] ;;
  print "   Density  %.3f kg/m3" [VFloat (density L (state v))] ;;
  print "   Entropy  %.3e J/K" [VFloat (entropy_mass L (state v))] ;;
  print "   w2 (wave frame) %.1f m/s" [VFloat (w2 v)] ;;
  print "   u2 (lab frame) %.1f m/s" [VFloat (u2 v)] ;;
  print "   c2 frozen %.1f m/s" [VFloat (af v)] ;;
  print "   c2 equilbrium %.1f m/s" [VFloat (ae v)] ;;
  print "   gamma2 frozen %.3f " [VFloat (gammaf v)] ;;
  print "   gamma2 equilbrium %.3f " [VFloat (gammae v)] ;;
  print "   Speed of sound %.3f " [VFloat (csound v)] ;;
  print "   Det Speed %.3f " [VFloat (D v)] ;;
  print "   Calc 2700K Det Speed %.3f " [VFloat (Dcalc v)] ;;
  print "   Mach Number %.3f " [VFloat (mach v)] ;;
  print "   Density 1:{}, Density 2:{}" [VFloat (rho_1 v); VFloat (rho_2 v)].

(** Lines 114-118. *)
Definition store {Ty : Types} (L : Library Ty) (st : arrays) (IC idx : nat)
  (v : locals Ty)
  : M Ty arrays :=
  let* a1 := lift (setitem2 (product_temp st) IC idx
                     (temperature L (state v))) in
  let* a2 := lift (setitem2 (detonation_speed st) IC idx (D v)) in
  let* a3 := lift (setitem2 (product_press st) IC idx
                     (pressure L (state v))) in
  let* a4 := lift (setitem2 (detonation_mach st) IC idx (mach v)) in
  let* a5 := lift (setitem2 (product_specificheat st) IC idx (gammaf v)) in
  ret {| detionation_speed := detionation_speed st;
         detonation_speed := a2;
         detonation_mach := a4;
         product_temp := a1;
         product_press := a3;
         product_specificheat := a5;
         calc_detspeed := calc_detspeed st |}.

(** The body of the inner loop, lines 56-118. *)
Definition iteration {Ty : Types} (L : Library Ty) (IC : nat) (st : arrays) (idx : nat)
  (propane_comp : float) : M Ty arrays :=
  let* v := compute L IC propane_comp in
  report L v ;;
  store L st IC idx v.

(** Lines 54-118, over a composition grid. *)
Definition sweep {Ty : Types} (L : Library Ty) (grid : list float) (st : arrays)
  : M Ty arrays :=
  for_enumerate
    (fun st IC (_ : Z) => for_enumerate (iteration L IC) st 0%nat grid)
    st 0%nat inittemp.

(** Lines 41-52. *)
Definition allocate (grid : list float) : arrays :=
  let property_array := Np.zeros_like grid in
  {| detionation_speed :=
       Np.stack3 property_array property_array property_array;
     detonation_speed :=
       Np.stack3 property_array property_array property_array;
     detonation_mach :=
       Np.stack3 property_array property_array property_array;
     product_temp := Np.stack3 property_array property_array property_array;
     product_press := Np.stack3 property_array property_array property_array;
     product_specificheat :=
       Np.stack3 property_array property_array property_array;
     calc_detspeed :=
       Np.stack3 property_array property_array property_array |}.

(** The three [plt.plot] calls that open each figure block; [f] is the
    elementwise operation applied to the row ([/ 101325] for pressure). *)
Definition plot_rows {Ty : Types} (grid : list float)
  (a : list (list float)) (f : float -> float) : M Ty unit :=
  let* r0 := lift (getitem a 0%nat) in
  emit (Plot grid (map f r0) "r-" "T$_0$=300 K, P$_0$=100 kPa") ;;
  let* r1 := lift (getitem a 1%nat) in
  emit (Plot grid (map f r1) "g-" "T$_0$=300 K, P$_0$=500 kPa") ;;
  let* r2 := lift (getitem a 2%nat) in
  emit (Plot grid (map f r2) "b-" "T$_0$=600 K, P$_0$=100 kPa").

(** The rest of a figure block: legend, labels, title, file, window. *)
Definition finish {Ty : Types} (L : Library Ty)
  (ylabel title figname : string) : M Ty unit :=
  emit Legend ;;
  emit (Xlabel "C$_3$H$_8$ Initial Composition (%)") ;;
  emit (Ylabel ylabel) ;;
  emit (Title title) ;;
  savefig L figname ;;
  emit Show.

(** Lines 120-173. *)
Definition plots {Ty : Types} (L : Library Ty) (grid : list float)
  (st : arrays) : M Ty unit :=
  plot_rows grid (detonation_speed st) (fun x => x) ;;
  finish L "Detonation Speed (m/s)" "C3H8-Air Detonation Speed"
    "Figures/DetSpeed.png" ;;
  plot_rows grid (product_temp st) (fun x => x) ;;
  finish L "Product Temperature (K)" "C3H8-Air Detonation Product T"
    "Figures/DetTemp.png" ;;
  plot_rows grid (product_press st) (fun x => (x / 101325)%float) ;;
  finish L "Product Pressure (atm)" "C3H8-Air Detonation Product P"
    "Figures/DetPress.png" ;;
  plot_rows grid (detonation_mach st) (fun x => x) ;;
  finish L "Detonation Mach Number (unitless)"
    "C3H8-Air Detonation Mach Number" "Figures/DetMach.png" ;;
  plot_rows grid (product_specificheat st) (fun x => x) ;;
  finish L "Specific Heat Ratio (unitless)"
    "C3H8-Air Specific Heat Ratio ($\gamma$)" "Figures/DetSpecHeat.png".

(** The script from line 40 on, for the grid of line 39; the value is
    the arrays as the plotting calls saw them. *)
Definition script {Ty : Types} (L : Library Ty) (grid : list float) : M Ty arrays :=
  let* st := sweep L grid (allocate grid) in
  plots L grid st ;;
  ret st.

Definition main {Ty : Types} (L : Library Ty) : M Ty arrays := script L compositions.

End DetProperties.

(** ** demo_CJstate.py *)

Module DemoCJstate.

Definition inittemp : Z := 300.
Definition initpress : Z := 100.
Definition compositions : list float := Np.linspace 2.2 9.2 12.
Definition mech : string := "gri30.cti".

(** [a[i] = v] on a one-dimensional array. *)
Definition setitem (a : list float) (i : nat) (v : float)
  : result (list float) :=
  if (i <? length a)%nat then Ok (<[i := v]> a) else Raise IndexError.

(** The local variables of one pass through the loop body, lines 51-76. *)
Record locals (Ty : Types) := {
  P1 : Z;
  T1 : Z;
  q : composition;
  rho_1 : float;
  cj_speed : float;
  state : gas Ty;
  ae : float;
  af : float;
  rho_2 : float;
  gammae : float;
  gammaf : float;
  w2 : float;
  u2 : float
}.
Arguments P1 {Ty} l.
Arguments T1 {Ty} l.
Arguments q {Ty} l.
Arguments rho_1 {Ty} l.
Arguments cj_speed {Ty} l.
Arguments state {Ty} l.
Arguments ae {Ty} l.
Arguments af {Ty} l.
Arguments rho_2 {Ty} l.
Arguments gammae {Ty} l.
Arguments gammaf {Ty} l.
Arguments w2 {Ty} l.
Arguments u2 {Ty} l.

(** Lines 51-76; the speed is stored at line 67, between the two solver
    calls. *)
Definition compute {Ty : Types} (L : Library Ty) (detonation_speed : list float)
  (idx : nat) (propane_comp : float) : M Ty (list float * locals Ty) :=
  let q := make_q 100 propane_comp in
  let P1 := initpress * 1000 in
  let T1 := inittemp in
  let* gas_initial := lib (Call_Solution mech) (Solution L mech) in
  let* gas_initial :=
    lib (Call_set_TPX (Int T1) (Int P1) q)
        (set_TPX L gas_initial (Int T1) (Int P1) q) in
  let rho_1 := density L gas_initial in
  let* (cj_speed, R2, plot_data) :=
    lib (Call_CJspeed (Int P1) (Int T1) q mech true)
        (CJspeed_full L (Int P1) (Int T1) q mech) in
  print "[{}, {}, {}]" [VFloat cj_speed; VFloat R2; VPlotData plot_data] ;;
  let* detonation_speed := lift (setitem detonation_speed idx cj_speed) in
  let* gas :=
    lib (Call_PostShock_eq cj_speed (Int P1) (Int T1) q mech)
        (PostShock_eq L cj_speed (Int P1) (Int T1) q mech) in
  let* (ae, gas) := lib Call_soundspeed_eq (soundspeed_eq L gas) in
  let* (af, gas) := lib Call_soundspeed_fr (soundspeed_fr L gas) in
  let rho_2 := density L gas in
  let gammae := (float_pow L ae 2 * rho_2 / pressure L gas)%float in
  let gammaf := (float_pow L af 2 * rho_2 / pressure L gas)%float in
  let w2 := (cj_speed * rho_1 / rho_2)%float in
  let u2 := (cj_speed - w2)%float in
  ret (detonation_speed,
       {| P1 := P1; T1 := T1; q := q; rho_1 := rho_1;
          cj_speed := cj_speed; state := gas; ae := ae; af := af;
          rho_2 := rho_2; gammae := gammae; gammaf := gammaf;
          w2 := w2; u2 := u2 |}).

(** Lines 77-91. *)
Definition report {Ty : Types} (L : Library Ty) (v : locals Ty) : M Ty unit :=
  print (nl ++ "CJ computation for " ++ mech ++ " with composition:") [] ;;
  print "{}" [VDict (q v)] ;;
  print "Initial conditions: P1 = %.3e Pa & T1 = %.2f K"
    [VInt (P1 v); VInt (T1 v)] ;;
  print "CJ Speed   %.1f m/s" [VFloat (cj_speed v)] ;;
  print "CJ State" [] ;;
  print "   Pressure   %.3e Pa" [VFloat (pressure L (state v))] ;;
  print "   Temperature  %.1f K" [VFloat (temperature L (state v))] ;;
  print "   Density  %.3f kg/m3" [VFloat (density L (state v))] ;;
  print "   Entropy  %.3e J/K" [VFloat (entropy_mass L (state v))] ;;
  print "   w2 (wave frame) %.1f m/s" [VFloat (w2 v)] ;;
  print "   u2 (lab frame) %.1f m/s" [VFloat (u2 v)] ;;
  print "   c2 frozen %.1f m/s" [VFloat (af v)] ;;
  print "   c2 equilbrium %.1f m/s" [VFloat (ae v)] ;;
  print "   gamma2 frozen %.3f " [VFloat (gammaf v)] ;;
  print "   gamma2 equilbrium %.3f " [VFloat (gammae v)].

(** The loop body, lines 43-91. *)
Definition iteration {Ty : Types} (L : Library Ty) (detonation_speed : list float)
  (idx : nat) (propane_comp : float) : M Ty (list float) :=
  let* (detonation_speed, v) :=
    compute L detonation_speed idx propane_comp in
  report L v ;;
  ret detonation_speed.

(** Line 98. *)
Definition figname : string :=
  "Figures/DetSpeedT" ++ str inittemp ++ "KP" ++ str initpress ++ "kPa.png".

(** Lines 93-100. *)
Definition plots {Ty : Types} (L : Library Ty)
  (grid detonation_speed : list float) : M Ty unit :=
  emit (Plot grid detonation_speed "k--" "Detonation Speed") ;;
  emit Legend ;;
  emit (Xlabel "$C_3H_8$ Initial Composition (%)") ;;
  emit (Ylabel "Detonation Speed (m/s)") ;;
  emit (Title ("$C_3H_8$ Detonation Speed with T$_0$=" ++ str inittemp
               ++ " K, P$_0$=" ++ str initpress ++ " kPa")) ;;
  savefig L figname ;;
  emit Show.

(** The script from line 40 on, for the grid of line 39. *)
Definition script {Ty : Types} (L : Library Ty) (grid : list float) : M Ty (list float) :=
  let detonation_speed := Np.zeros_like grid in
  let* detonation_speed :=
    for_enumerate (iteration L) detonation_speed 0%nat grid in
  plots L grid detonation_speed ;;
  ret detonation_speed.

Definition main {Ty : Types} (L : Library Ty) : M Ty (list float) := script L compositions.

End DemoCJstate.

(** ** ZNDDetPostShock.py *)

Module ZND.

Definition inittemp : Z := 300.
Definition initpress : Z := 1.
Definition HC_comp : float := 0.092.
Definition q : composition := make_q 1 HC_comp.
Definition mech : string := "gri30.cti".
Definition n_steps : Z := 300000.

(** Line 49. *)
Definition dt : float := (0.25 / of_int n_steps)%float.

(** Line 52: [(np.arange(n_steps) + 1) * dt]. *)
Definition timesteps : list float :=
  map (fun k => (of_int k * dt)%float)
      (map (fun k => int64_wrap (k + 1)) (Np.arange n_steps)).

(** [initpress * ct.one_atm]. *)
Definition P1 {Ty : Types} (L : Library Ty) : float := (of_int initpress * one_atm L)%float.

(** What the loop of lines 53-61 needs from lines 21-45: the network, its
    reactor and the saved post-shock temperature. *)
Record shocked (Ty : Types) := {
  sim1 : reactor_net Ty;
  r1 : reactor Ty;
  shockedtemp : float
}.
Arguments sim1 {Ty} s.
Arguments r1 {Ty} s.
Arguments shockedtemp {Ty} s.

(** Lines 21-45. *)
Definition setup {Ty : Types} (L : Library Ty) : M Ty (shocked Ty) :=
  print (nl ++ "CJ computation for " ++ mech ++ " with composition:") [] ;;
  print "{}" [VDict q] ;;
  print "Initial conditions: P1 = %.3e atm & T1 = %.2f K"
    [VInt initpress; VInt inittemp] ;;
  let* preshockgas := lib (Call_Solution mech) (Solution L mech) in
  let* preshockgas :=
    lib (Call_set_TPX (Int inittemp) (Float (P1 L)) q)
        (set_TPX L preshockgas (Int inittemp) (Float (P1 L)) q) in
  let* cj_speed :=
    lib (Call_CJspeed (Float (P1 L)) (Int inittemp) q mech false)
        (CJspeed L (Float (P1 L)) (Int inittemp) q mech) in
  let* postshockgas :=
    lib (Call_PostShock_fr cj_speed (Float (P1 L)) (Int inittemp) q mech)
        (PostShock_fr L cj_speed (Float (P1 L)) (Int inittemp) q mech) in
  let shockedpress := (pressure L postshockgas / 101325)%float in
  let shockedtemp := temperature L postshockgas in
  print "    PostShock Pressure: {} atm"
    [VFloat (pressure L postshockgas / 101325)%float] ;;
  print "    PostShock Temperature: {} K"
    [VFloat (temperature L postshockgas)] ;;
  let* r1 := lib Call_Reactor (IdealGasConstPressureReactor L postshockgas) in
  let* sim1 := lib Call_ReactorNet (ReactorNet L [r1]) in
  ret {| sim1 := sim1; r1 := r1; shockedtemp := shockedtemp |}.

(** Lines 53-61: the scan with its early exit.  The value is the network
    and reactor as the loop left them and [det_time]. *)
Fixpoint scan {Ty : Types} (L : Library Ty) (shockedtemp : float)
  (sim1 : reactor_net Ty) (r1 : reactor Ty) (det_time : number)
  (ts : list float) : M Ty (reactor_net Ty * reactor Ty * number) :=
  match ts with
  | [] => ret (sim1, r1, det_time)
  | t_i :: ts' =>
      let* (sim1, r1) := lib (Call_advance t_i) (advance L sim1 r1 t_i) in
      let det_time := Float t_i in
      if gt (state_T0 L r1) (shockedtemp + 150)%float
      then ret (sim1, r1, det_time)
      else scan L shockedtemp sim1 r1 det_time ts'
  end.

(** The script from line 21 on, for a given sequence of time steps; the
    value is [det_time]. *)
Definition script {Ty : Types} (L : Library Ty) (ts : list float) : M Ty number :=
  let* s := setup L in
  let det_time := Int 0 in
  let* (_, _, det_time) :=
    scan L (shockedtemp s) (sim1 s) (r1 s) det_time ts in
  print "    PostShock Autoignition Delay: {} s" [VNum det_time] ;;
  ret det_time.

Definition main {Ty : Types} (L : Library Ty) : M Ty number := script L timesteps.

End ZND.

(** ** A stand-in library

    A small library to run the scripts against: a gas is its temperature,
    pressure and density, the solvers return fixed states with CJ speed
    [cj] and burnt-gas density [rho2], and every [advance] heats the
    reactor by [heating] kelvin.  [bad_mech] makes
    [Solution] raise, [bad_step] makes [advance] raise from the time given
    on, and with [no_figures] the directory Figures does not exist. *)

Module Stub.

Record state := { gT : float; gP : float; grho : float }.

Definition types : Types :=
    {| gas := state; reactor := float; reactor_net := unit;
       plot_data := unit |}.

Definition as_float (n : number) : float :=
    match n with Int z => of_int z | Float x => x end.

Definition heat (heating : float) (bad_step : option float)
    (net : unit) (r : float) (t : float) : result (unit * float) :=
    match bad_step with
    | Some t0 =>
        if PrimFloat.leb t0 t then Raise (LibraryError "CVODE failed")
        else Ok (net, (r + heating)%float)
    | None => Ok (net, (r + heating)%float)
    end.

Definition make (cj rho2 : float) (no_figures : bool) (heating : float)
  (bad_mech : bool) (bad_step : option float) : Library types :=
  Build_Library types
    (* one_atm *) 101325%float
    (* Solution *)
    (fun mech =>
       if bad_mech then Raise (LibraryError "no such mechanism")
       else Ok {| gT := 300; gP := 101325; grho := 1.2 |})
    (* set_TPX *)
    (fun g T P q => Ok {| gT := as_float T; gP := as_float P; grho := 1.2 |})
    (* density, pressure, temperature, entropy_mass *)
    grho gP gT (fun _ => 9000%float)
    (* IdealGasConstPressureReactor, ReactorNet, advance, state_T0 *)
    (fun g => Ok (gT g)) (fun _ => Ok tt) (heat heating bad_step)
    (fun r => r)
    (* soundspeed_eq, soundspeed_fr *)
    (fun g => Ok (1000%float, g)) (fun g => Ok (1050%float, g))
    (* CJspeed with and without fullOutput *)
    (fun P T q mech => Ok (cj, 0.99%float, tt))
    (fun P T q mech => Ok cj)
    (* PostShock_eq, PostShock_fr *)
    (fun U P T q mech => Ok {| gT := 2800; gP := 1800000; grho := rho2 |})
    (fun U P T q mech => Ok {| gT := 1500; gP := 4000000; grho := 6.5 |})
    (* float_pow, np_power *)
    (fun x n => (x * x)%float) (fun x y => PrimFloat.sqrt x)
    (* savefig_in *)
    (fun dir =>
       if no_figures && String.eqb dir "Figures"
       then Raise (OSError "No such file or directory")
       else Ok tt).

(** CJ speed 1800 m/s, burnt-gas density 2.1 kg/m3. *)
Definition library : float -> bool -> option float -> Library types :=
  make 1800 2.1 false.

(** The same where the directory Figures is missing. *)
Definition no_figures : float -> bool -> option float -> Library types :=
  make 1800 2.1 true.


End Stub.

(** ** Reading a log *)

Local Open Scope list_scope.

Section Log.

Context {Ty : Types}.
Implicit Type log : list (event Ty).

(** The library calls of a log, in order. *)
Definition calls log : list call :=
  flat_map (fun ev => match ev with Called c _ => [c] | _ => [] end) log.

(** The exceptions library calls raised. *)
Definition raised log : list exn :=
  flat_map (fun ev => match ev with Called _ (Some e) => [e] | _ => [] end)
    log.

(** The files written. *)
Definition files log : list string :=
  flat_map (fun ev => match ev with Savefig f => [f] | _ => [] end) log.

(** The curves handed to [plt.plot]: abscissae, ordinates, style, label. *)
Definition plotted log : list (list float * list float * string * string) :=
  flat_map (fun ev => match ev with
                      | Plot x y s l => [(x, y, s, l)]
                      | _ => []
                      end) log.

(** The values substituted into the console lines of one template. *)
Definition printed (template : string) log : list (list (value Ty)) :=
  flat_map (fun ev => match ev with
                      | Print t args =>
                          if String.eqb t template then [args] else []
                      | _ => []
                      end) log.

(** The times [advance] was called with. *)
Definition advance_times log : list float :=
  flat_map (fun ev => match ev with
                      | Called (Call_advance t) _ => [t]
                      | _ => []
                      end) log.

(** An event that touches nothing outside the process but the console
    and a figure window: a library computation, a console line, a call
    that draws on or shows the current figure. *)
Definition writes_no_file (ev : event Ty) : bool :=
  match ev with
  | Savefig _ => false
  | _ => true
  end.

(** A call into Cantera or the toolbox, not [plt.savefig]. *)
Definition solver_call (c : call) : Prop :=
  match c with
  | Call_savefig _ => False
  | _ => True
  end.

(** A log of solver calls and console lines only. *)
Definition call_or_print (ev : event Ty) : Prop :=
  match ev with
  | Called c _ => solver_call c
  | Print _ _ => True
  | _ => False
  end.

Definition computes_and_prints log : Prop := Forall call_or_print log.

(** A log of solver calls only. *)
Definition is_call (ev : event Ty) : Prop :=
match ev with
| Called c _ => solver_call c
| _ => False
end.

Definition only_calls log : Prop := Forall is_call log.

(** [figname] names a PNG file in the directory [Figures]. *)
Definition png_under_Figures (figname : string) : bool :=
    String.prefix "Figures/" figname
    && String.eqb (substring (String.length figname - 4)%nat 4 figname) ".png".

(** A run that handles no exception: a library call that raises is the
    last thing the script does, and the script ends with that exception;
    a script that ends with an exception ends so at a library call. *)
Definition unhandled {A} (m : M Ty A) : Prop :=
  (forall log1 c e log2,
      fst m = log1 ++ Called c (Some e) :: log2 ->
      log2 = [] /\ snd m = Raise e)
  /\ (forall e, snd m = Raise e ->
                exists log1 c, fst m = log1 ++ [Called c (Some e)]).

(** The compositional form of [unhandled]. *)
Definition clean {A} (m : M Ty A) : Prop :=
  match snd m with
  | Ok _ => raised (fst m) = []
  | Raise e =>
      exists log1 c, fst m = log1 ++ [Called c (Some e)] /\ raised log1 = []
  end.

(** What the CJ-speed solver answers to a call. *)
Definition cj_returns (L : Library Ty) (P T : number) (q : composition)
  (mech : string) (fullOutput : bool) (U : float) : Prop :=
  if fullOutput
  then exists R2 d, CJspeed_full L P T q mech = Ok (U, R2, d)
  else CJspeed L P T q mech = Ok U.

(** A post-shock call comes right after the CJ-speed call with the same
    state arguments, and is given the speed that call returned. *)
Definition post_shock_ok (L : Library Ty) (prev : option call) (c : call)
  : Prop :=
  match c with
  | Call_PostShock_eq U P T q mech | Call_PostShock_fr U P T q mech =>
      match prev with
      | Some (Call_CJspeed P' T' q' mech' full) =>
          P' = P /\ T' = T /\ q' = q /\ mech' = mech
          /\ cj_returns L P T q mech full U
      | _ => False
      end
  | _ => True
  end.

Fixpoint paired (L : Library Ty) (prev : option call) (cs : list call)
    : Prop :=
    match cs with
    | [] => True
    | c :: cs' => post_shock_ok L prev c /\ paired L (Some c) cs'
    end.

(** The same, whatever call came before the log. *)
Definition paired_log (L : Library Ty) log : Prop :=
  forall prev, paired L prev (calls log).



End Log.

(** ** Vocabulary for the composition *)

(** [79 * O2 - 21 * N2] on exact values: zero when O2 : N2 is 21 : 79. *)
Definition q_ratio_defect (q : composition) : option Q :=
  match q_get q "O2", q_get q "N2" with
  | Some o, Some n =>
      match to_Q o, to_Q n with
      | Some o, Some n => Some (79 * o - 21 * n)%Q
      | _, _ => None
      end
  | _, _ => None
  end.

(** The exact quotient O2 / N2 of the two components. *)
Definition q_ratio (q : composition) : option Q :=
  match q_get q "O2", q_get q "N2" with
  | Some o, Some n =>
      match to_Q o, to_Q n with
      | Some o, Some n => if Qeq_bool n 0 then None else Some (o / n)%Q
      | _, _ => None
      end
  | _, _ => None
  end.

(** The components of [make_q total h] add up to [total] up to a relative
    error of 2^-52: [|sum - total| <= total * 2^-52], for the exact sum
    of the three values and for their sum in binary64. *)
Definition q_sum_close (total : Z) (h : float) : bool :=
  Qclose (inject_Z total * Qpower 2 (-52))%Q
    (q_sum_exact (make_q total h)) (Some (inject_Z total))
  && Qclose (inject_Z total * Qpower 2 (-52))%Q
       (to_Q (q_sum (make_q total h))) (Some (inject_Z total)).

(** O2 : N2 is 21 : 79 up to a relative error of 2^-51:
    [|O2 / N2 - 21/79| <= 21/79 * 2^-51] on exact values. *)
Definition q_ratio_close (total : Z) (h : float) : bool :=
  Qclose ((21 # 79) * Qpower 2 (-51))%Q
    (q_ratio (make_q total h)) (Some (21 # 79)%Q).

(** The same with 2^-52, which is too tight for some compositions. *)
Definition q_ratio_within_2_52 (total : Z) (h : float) : bool :=
  Qclose ((21 # 79) * Qpower 2 (-52))%Q
    (q_ratio (make_q total h)) (Some (21 # 79)%Q).

Definition q_balanced (total : Z) (h : float) : bool :=
  q_sum_close total h && q_ratio_close total h.

(** The components add up to [total] exactly, as numbers. *)
Definition q_sums_exactly (total : Z) (q : composition) : bool :=
  match q_sum_exact q with
  | Some s => Qeq_bool s (inject_Z total)
  | None => false
  end.

(** The components add up to [total] in binary64 arithmetic. *)
Definition q_sums_in_binary64 (total : Z) (q : composition) : bool :=
  PrimFloat.eqb (q_sum q) (of_int total).

(** O2 : N2 is exactly 21 : 79. *)
Definition q_ratio_exact (q : composition) : bool :=
  match q_ratio_defect q with
  | Some d => Qeq_bool d 0
  | None => false
  end.

(** ** Vocabulary for the derived quantities *)




(** ** Vocabulary for the result arrays of DetProperties.py *)

Module DetSpec.

Import DetProperties.

(** [a[i, j]], when in range. *)
Definition get2 (a : list (list float)) (i j : nat) : option float :=
  match a !! i with
  | Some row => row !! j
  | None => None
  end.

(** A two-dimensional array of three rows and [n] columns. *)
Definition rect (n : nat) (a : list (list float)) : Prop :=
  length a = 3%nat /\ Forall (fun row => length row = n) a.

Inductive array_name :=
  | detionation_speed_
  | detonation_speed_
  | detonation_mach_
  | product_temp_
  | product_press_
  | product_specificheat_
  | calc_detspeed_.

Definition select (name : array_name) (st : arrays) : list (list float) :=
    match name with
    | detionation_speed_ => detionation_speed st
    | detonation_speed_ => detonation_speed st
    | detonation_mach_ => detonation_mach st
    | product_temp_ => product_temp st
    | product_press_ => product_press st
    | product_specificheat_ => product_specificheat st
    | calc_detspeed_ => calc_detspeed st
    end.

(** The scalar of a loop pass an array is named after. *)
Definition quantity {Ty} (L : Library Ty) (name : array_name)
  (v : locals Ty) : float :=
  match name with
  | detionation_speed_ => D v
  | detonation_speed_ => D v
  | detonation_mach_ => mach v
  | product_temp_ => temperature L (state v)
  | product_press_ => pressure L (state v)
  | product_specificheat_ => gammaf v
  | calc_detspeed_ => Dcalc v
  end.

(** All seven arrays are three rows of [n] columns. *)
Definition shape (n : nat) (st : arrays) : Prop :=
  forall name, rect n (select name st).

(** The arrays the loop body assigns to. *)
Definition assigned (name : array_name) : bool :=
  match name with
  | detionation_speed_ | calc_detspeed_ => false
  | _ => true
  end.

(** Entry [[IC, idx]] of the array holds the scalar derived for the
    [IC]-th initial state and the [idx]-th composition of the grid. *)
Definition filled {Ty} (L : Library Ty) (grid : list float)
  (name : array_name) (st : arrays) : Prop :=
  forall IC idx h,
    (IC < 3)%nat -> grid !! idx = Some h ->
    exists log v,
      compute L IC h = (log, Ok v)
      /\ get2 (select name st) IC idx = Some (quantity L name v).

(** The state of the arrays when the sweep is about to run the pass for
    row [IC] and column [k]: the cells of the passes made so far hold
    their scalars, the arrays never assigned to are as allocated. *)
Definition swept {Ty} (L : Library Ty) (grid : list float) (IC k : nat)
  (st : arrays) : Prop :=
  shape (length grid) st
  /\ (forall name, assigned name = false ->
                   select name st = select name (allocate grid))
  /\ (forall name IC' idx' h,
         assigned name = true ->
         (IC' < IC \/ (IC' = IC /\ idx' < k))%nat ->
         (IC' < 3)%nat -> grid !! idx' = Some h ->
         exists log v,
           compute L IC' h = (log, Ok v)
           /\ get2 (select name st) IC' idx' = Some (quantity L name v)).

(** The console line of line 110. *)
Definition dcalc_template : string := "   Calc 2700K Det Speed %.3f ".

(** Every such line of a log is given the value of line 91. *)
Definition dcalc_lines {Ty} (L : Library Ty) (log : list (event Ty)) : Prop :=
  Forall (fun args => args = [VFloat (Dcalc_expr L)])
    (printed dcalc_template log).

(** The five files of lines 127-171. *)
Definition fignames : list string :=
    ["Figures/DetSpeed.png"; "Figures/DetTemp.png"; "Figures/DetPress.png";
     "Figures/DetMach.png"; "Figures/DetSpecHeat.png"]%string.

(** The state arguments of the CJ-speed calls among a sequence of calls. *)
Definition cj_arguments (cs : list call)
  : list (number * number * composition) :=
  flat_map (fun c => match c with
                     | Call_CJspeed P T q _ _ => [(P, T, q)]
                     | _ => []
                     end) cs.

(** The state arguments of the pass for row [IC] and composition [h]. *)
Definition pass_arguments (IC : nat) (h : float)
  : list (number * number * composition) :=
  match initpress !! IC, inittemp !! IC with
  | Some p, Some T => [(Int (int64_wrap (p * 1000)), Int T, make_q 100 h)]
  | _, _ => []
  end.

(** The passes in loop order: the three initial states in turn, and for
    each of them the compositions of the grid in turn. *)
Definition in_loop_order (grid : list float)
  : list (number * number * composition) :=
  map (fun h => (Int 100000, Int 300, make_q 100 h)) grid
  ++ map (fun h => (Int 500000, Int 300, make_q 100 h)) grid
  ++ map (fun h => (Int 100000, Int 600, make_q 100 h)) grid.

(** Every row of the array is handed to a [plt.plot] call, as it is or
    divided by 101325. *)
Definition consumed {Ty} (name : array_name) (st : arrays)
  (log : list (event Ty)) : Prop :=
  forall i row,
    select name st !! i = Some row ->
    exists x y s l,
      In (x, y, s, l) (plotted log)
      /\ (y = row \/ y = map (fun v => (v / 101325)%float) row).

(** The fifteen curves of lines 120-166. *)
Definition curves (grid : list float) (st : arrays)
  : list (list float * list float * string * string) :=
  flat_map
    (fun a : list (list float) =>
       [(grid, a !!! 0%nat, "r-", "T$_0$=300 K, P$_0$=100 kPa");
        (grid, a !!! 1%nat, "g-", "T$_0$=300 K, P$_0$=500 kPa");
        (grid, a !!! 2%nat, "b-", "T$_0$=600 K, P$_0$=100 kPa")]%string)
    [detonation_speed st; product_temp st;
     map (map (fun v => (v / 101325)%float)) (product_press st);
     detonation_mach st; product_specificheat st].

End DetSpec.

(** ** Vocabulary for the ignition scan of ZNDDetPostShock.py *)

Module ZNDSpec.

Import ZND.

Section Trajectory.

Context {Ty : Types} (L : Library Ty).

    (** The reactor after each time step of an integration that is never
        cut short, up to the first step at which [advance] raises. *)
Fixpoint trajectory (sim1 : reactor_net Ty) (r1 : reactor Ty)
      (ts : list float) : list (float * reactor Ty) :=
      match ts with
      | [] => []
      | t :: ts' =>
          match advance L sim1 r1 t with
          | Ok (sim1', r1') => (t, r1') :: trajectory sim1' r1' ts'
          | Raise _ => []
          end
      end.

    (** The reactor temperature exceeds the post-shock temperature plus
        150 K. *)
Definition ignited (shockedtemp : float) (p : float * reactor Ty) : bool :=
      gt (state_T0 L (snd p)) (shockedtemp + 150)%float.

    (** The first time step at which it does. *)
Definition first_crossing (s : shocked Ty) (ts : list float)
      : option float :=
      option_map fst
        (find (ignited (shockedtemp s)) (trajectory (sim1 s) (r1 s) ts)).

    (** Every step integrates and none reaches the threshold. *)
Definition never_crosses (s : shocked Ty) (ts : list float) : bool :=
      let traj := trajectory (sim1 s) (r1 s) ts in
      Nat.eqb (length traj) (length ts)
      && forallb (fun p => negb (ignited (shockedtemp s) p)) traj.

    (** The same two notions for the script itself, once lines 21-45 have
        run without raising. *)
Definition ignition_time : option float :=
      match snd (setup L) with
      | Ok s => first_crossing s timesteps
      | Raise _ => None
      end.

Definition no_ignition : bool :=
      match snd (setup L) with
      | Ok s => never_crosses s timesteps
      | Raise _ => false
      end.

End Trajectory.

(** The [i]-th time step, [i * dt]. *)
Definition step_time (i : Z) : float := (of_int i * dt)%float.

(** The last console line. *)
Definition delay_template : string := "    PostShock Autoignition Delay: {} s".

(** The log of integrating to each of the time steps [ts] without an
    exception. *)
Definition advanced {Ty : Types} (ts : list float) : list (event Ty) :=
  map (fun t => Called (Call_advance t) None) ts.

(** [0 < det_time <= 0.25] for a float; false for the initial [0]. *)
Definition in_window (det_time : number) : bool :=
    match det_time with
    | Float x => PrimFloat.ltb 0 x && PrimFloat.leb x 0.25
    | Int _ => false
    end.

End ZNDSpec.

(** ** Vocabulary for the rest of the scripts *)

Module Further.

(** *** demo_CJstate.py: the array of line 40 *)

(** Entry [idx] of [detonation_speed] is the speed the CJ-speed solver
    returned for the [idx]-th composition at 100000 Pa and 300 K. *)
Definition demo_filled {Ty} (L : Library Ty) (grid ds : list float) : Prop :=
  length ds = length grid
  /\ forall idx h,
      grid !! idx = Some h ->
      exists c R2 d,
        CJspeed_full L (Int 100000) (Int 300) (make_q 100 h) "gri30.cti"
        = Ok (c, R2, d)
        /\ ds !! idx = Some c.

(** After [i] passes the first [i] entries hold the CJ speeds of the
    first [i] compositions. *)
Definition demo_filled_upto {Ty} (L : Library Ty) (grid : list float)
  (i : nat) (ds : list float) : Prop :=
  length ds = length grid
  /\ forall idx h,
      (idx < i)%nat -> grid !! idx = Some h ->
      exists c R2 d,
        CJspeed_full L (Int 100000) (Int 300) (make_q 100 h) "gri30.cti"
        = Ok (c, R2, d)
        /\ ds !! idx = Some c.

(** *** DetProperties.py: console lines and legends *)

(** The console line that reports the scalar an array is filled with
    (lines 98, 99, 106, 109, 110, 111). *)
Definition report_template (name : DetSpec.array_name) : string :=
  match name with
  | DetSpec.detionation_speed_ => "   Det Speed %.3f "
  | DetSpec.detonation_speed_ => "   Det Speed %.3f "
  | DetSpec.detonation_mach_ => "   Mach Number %.3f "
  | DetSpec.product_temp_ => "   Temperature  %.1f K"
  | DetSpec.product_press_ => "   Pressure   %.3e Pa"
  | DetSpec.product_specificheat_ => "   gamma2 frozen %.3f "
  | DetSpec.calc_detspeed_ => "   Calc 2700K Det Speed %.3f "
  end.

(** The value a pass reports for the scalar of an array: none when its
    solver calls raise. *)
Definition reported {Ty} (L : Library Ty) (name : DetSpec.array_name)
  (IC : nat) (h : float) : list (list (value Ty)) :=
  match snd (DetProperties.compute L IC h) with
  | Ok v => [[VFloat (DetSpec.quantity L name v)]]
  | Raise _ => []
  end.

(** The legend that names an initial temperature in K and an initial
    pressure in kPa. *)
Definition legend (T p : Z) : string :=
  "T$_0$=" ++ str T ++ " K, P$_0$=" ++ str p ++ " kPa".

(** The legend for the initial state of row [IC]. *)
Definition row_legend (IC : nat) : string :=
  match DetProperties.inittemp !! IC, DetProperties.initpress !! IC with
  | Some T, Some p => legend T p
  | _, _ => ""
  end.

(** *** The states handed to the solvers *)

(** A call an equilibrium script may make: on the mechanism gri30.cti and
    on one of the given states; sound speeds are taken of whatever gas the
    script holds; the frozen post-shock solver and the reactor calls are
    not among them. *)
Definition call_on_states (states : list (number * number * composition))
  (c : call) : Prop :=
  match c with
  | Call_Solution mech => mech = "gri30.cti"
  | Call_set_TPX T P q => In (P, T, q) states
  | Call_CJspeed P T q mech fullOutput =>
      In (P, T, q) states /\ mech = "gri30.cti" /\ fullOutput = true
  | Call_PostShock_eq U P T q mech =>
      In (P, T, q) states /\ mech = "gri30.cti"
  | Call_soundspeed_eq | Call_soundspeed_fr => True
  | Call_savefig figname => png_under_Figures figname = true
  | Call_PostShock_fr _ _ _ _ _ | Call_Reactor | Call_ReactorNet
  | Call_advance _ => False
  end.

(** The states of demo_CJstate.py: 100000 Pa, 300 K, each composition. *)
Definition demo_states (grid : list float)
  : list (number * number * composition) :=
  map (fun h => (Int 100000, Int 300, make_q 100 h)) grid.

(** Every library call of the log is such a call. *)
Definition calls_on {Ty} (states : list (number * number * composition))
  (log : list (event Ty)) : Prop :=
  Forall (call_on_states states) (calls log).

(** *** Drawing *)

(** An event of a plotting part: neither a solver call nor a console
    line. *)
Definition draws {Ty} (ev : event Ty) : bool :=
  match ev with
  | Called (Call_savefig _) _ => true
  | Called _ _ | Print _ _ => false
  | _ => true
  end.

(** What a plotting part ends with: [show], or a [savefig] that raised. *)
Definition plot_end {Ty} (ev : event Ty) : Prop :=
  match ev with
  | Show | Called (Call_savefig _) _ => True
  | _ => False
  end.

(** The run ended with an exception a solver call raised. *)
Definition ends_at_solver {Ty} (log : list (event Ty)) : Prop :=
  exists log1 c e, log = log1 ++ [Called c (Some e)] /\ solver_call c.

(** The number of figure windows shown. *)
Definition windows {Ty} (log : list (event Ty)) : nat :=
  length (List.filter (fun ev => match ev with Show => true | _ => false end)
            log).

(** Every file written is followed at once by [show], and [show] comes
    only right after a file was written; [after_savefig] tells whether
    the event before the log was a file written by [savefig]. *)
Fixpoint saved_then_shown {Ty} (after_savefig : bool)
  (log : list (event Ty)) : bool :=
  match log with
  | [] => negb after_savefig
  | Show :: rest => after_savefig && saved_then_shown false rest
  | Savefig _ :: rest => negb after_savefig && saved_then_shown true rest
  | _ :: rest => negb after_savefig && saved_then_shown false rest
  end.

(** *** ZNDDetPostShock.py *)

(** Each time is strictly less than the next. *)
Fixpoint increasing (ts : list float) : bool :=
  match ts with
  | t1 :: ((t2 :: _) as rest) => PrimFloat.ltb t1 t2 && increasing rest
  | _ => true
  end.

(** The library calls of the script in program order, for the time steps
    [ts]: lines 25, 26, 29, 32, 42, 44 and the [advance] of line 55; what
    follows the call of [CJspeed] needs the speed it returned. *)
Definition znd_calls {Ty} (L : Library Ty) (ts : list float) : list call :=
  [Call_Solution ZND.mech;
   Call_set_TPX (Int ZND.inittemp) (Float (ZND.P1 L)) ZND.q;
   Call_CJspeed (Float (ZND.P1 L)) (Int ZND.inittemp) ZND.q ZND.mech false]
  ++ match CJspeed L (Float (ZND.P1 L)) (Int ZND.inittemp) ZND.q ZND.mech with
     | Ok cj_speed =>
         [Call_PostShock_fr cj_speed (Float (ZND.P1 L)) (Int ZND.inittemp)
            ZND.q ZND.mech;
          Call_Reactor; Call_ReactorNet]
         ++ map Call_advance ts
     | Raise _ => []
     end.

(** The console lines of lines 36 and 37. *)
Definition pressure_template : string := "    PostShock Pressure: {} atm".
Definition temperature_template : string :=
  "    PostShock Temperature: {} K".

Section Failure.

Context {Ty : Types} (L : Library Ty).

(** The first time step at which [advance] raises, and the exception. *)
Fixpoint first_raise (sim1 : reactor_net Ty) (r1 : reactor Ty)
  (ts : list float) : option (float * exn) :=
  match ts with
  | [] => None
  | t :: ts' =>
      match advance L sim1 r1 t with
      | Ok (sim1', r1') => first_raise sim1' r1' ts'
      | Raise e => Some (t, e)
      end
  end.

(** The integration of the script raises at a time step before the
    reactor temperature has crossed the threshold. *)
Definition integration_fails : option (float * exn) :=
  match snd (ZND.setup L) with
  | Ok s =>
      if forallb (fun p => negb (ZNDSpec.ignited L (ZND.shockedtemp s) p))
           (ZNDSpec.trajectory L (ZND.sim1 s) (ZND.r1 s) ZND.timesteps)
      then first_raise (ZND.sim1 s) (ZND.r1 s) ZND.timesteps
      else None
  | Raise _ => None
  end.

End Failure.

End Further.

(** * Properties *)

(** ** The monad and the loops *)

Section MonadFacts.

Context {Ty : Types}.
Implicit Type log : list (event Ty).

Lemma fst_bind {A B} (m : M Ty A) (k : A -> M Ty B) :
    fst (bind m k)
    = match snd m with
      | Ok a => fst m ++ fst (k a)
      | Raise _ => fst m
      end.
Proof.
    destruct m as [l [a|e]]; simpl; [|reflexivity].
    destruct (k a); reflexivity.
Qed.

Lemma snd_bind {A B} (m : M Ty A) (k : A -> M Ty B) :
    snd (bind m k)
    = match snd m with
      | Ok a => snd (k a)
      | Raise e => Raise e
      end.
Proof.
    destruct m as [l [a|e]]; simpl; [|reflexivity].
    destruct (k a); reflexivity.
Qed.

Lemma bind_Ok_inv {A B} (m : M Ty A) (k : A -> M Ty B) log b :
    bind m k = (log, Ok b) ->
    exists l1 a l2, m = (l1, Ok a) /\ k a = (l2, Ok b) /\ log = l1 ++ l2.
Proof.
    destruct m as [l [a|e]]; simpl; [|discriminate].
    destruct (k a) as [l2 r] eqn:Hk. intros [= <- ->].
    exists l, a, l2. auto.
Qed.

Lemma bind_Ok {A B} (m : M Ty A) (k : A -> M Ty B) l1 a l2 b :
    m = (l1, Ok a) -> k a = (l2, Ok b) -> bind m k = (l1 ++ l2, Ok b).
Proof. intros -> Hk. simpl. rewrite Hk. reflexivity. Qed.

Lemma surjective_run {A} (m : M Ty A) : m = (fst m, snd m).
Proof. destruct m; reflexivity. Qed.

(** A property of logs that holds of the empty log and of a
    concatenation holds of every run assembled from runs having it. *)
Section LogProperty.

Variable P : list (event Ty) -> Prop.
Hypothesis P_nil : P [].
Hypothesis P_app : forall l1 l2, P l1 -> P l2 -> P (l1 ++ l2).

Lemma holds_bind {A B} (m : M Ty A) (k : A -> M Ty B) :
      P (fst m) -> (forall a, P (fst (k a))) -> P (fst (bind m k)).
Proof.
      intros Hm Hk. rewrite fst_bind. destruct (snd m); auto.
Qed.

Lemma holds_ret {A} (a : A) : P (fst (@ret Ty A a)).
Proof. exact P_nil. Qed.

Lemma holds_lift {A} (r : result A) : P (fst (@lift Ty A r)).
Proof. exact P_nil. Qed.

Lemma holds_for_enumerate {St A} (body : St -> nat -> A -> M Ty St) :
      (forall st i x, P (fst (body st i x))) ->
      forall xs st i, P (fst (for_enumerate body st i xs)).
Proof.
      intros Hbody xs. induction xs as [|x xs IH]; intros st i; simpl.
      - exact P_nil.
      - apply holds_bind; auto.
Qed.

End LogProperty.

(** A loop that ends normally went through every pass; an invariant
    kept by each pass that ends normally holds at the end. *)
Lemma for_enumerate_invariant {St A} (body : St -> nat -> A -> M Ty St)
  (I : nat -> St -> Prop) (xs : list A) :
  forall i st log st',
    (forall k x s l s',
        xs !! k = Some x -> I (i + k)%nat s ->
        body s (i + k)%nat x = (l, Ok s') -> I (S (i + k)) s') ->
    I i st ->
    for_enumerate body st i xs = (log, Ok st') ->
    I (i + length xs)%nat st'.
Proof.
  induction xs as [|x xs IH]; intros i st log st' Hstep Hi Hrun; simpl in *.
  - injection Hrun as <- <-. rewrite Nat.add_0_r. exact Hi.
  - apply bind_Ok_inv in Hrun as (l1 & s1 & l2 & Hb & Hrest & ->).
    replace (i + S (length xs))%nat with (S i + length xs)%nat by lia.
    eapply IH; [| |exact Hrest].
    + intros k y s l s' Hk HI Hbody.
      replace (S i + k)%nat with (i + S k)%nat in * by lia.
      eapply Hstep; eauto.
    + specialize (Hstep 0%nat x st l1 s1 eq_refl).
      rewrite Nat.add_0_r in Hstep. auto.
Qed.

Lemma flat_map_app_event {B} (f : event Ty -> list B) l1 l2 :
    flat_map f (l1 ++ l2) = flat_map f l1 ++ flat_map f l2.
Proof. apply flat_map_app. Qed.

Lemma calls_app log1 log2 : calls (log1 ++ log2) = calls log1 ++ calls log2.
Proof. apply flat_map_app. Qed.

Lemma raised_app log1 log2 :
    raised (log1 ++ log2) = raised log1 ++ raised log2.
Proof. apply flat_map_app. Qed.

Lemma files_app log1 log2 : files (log1 ++ log2) = files log1 ++ files log2.
Proof. apply flat_map_app. Qed.

Lemma plotted_app log1 log2 :
    plotted (log1 ++ log2) = plotted log1 ++ plotted log2.
Proof. apply flat_map_app. Qed.

Lemma printed_app t log1 log2 :
    printed t (log1 ++ log2) = printed t log1 ++ printed t log2.
Proof. apply flat_map_app. Qed.

Lemma advance_times_app log1 log2 :
    advance_times (log1 ++ log2) = advance_times log1 ++ advance_times log2.
Proof. apply flat_map_app. Qed.

End MonadFacts.

(** ** Exceptions are not handled *)

Section Clean.

Context {Ty : Types}.
Implicit Type log : list (event Ty).

Lemma clean_ret {A} (a : A) : clean (@ret Ty A a).
Proof. reflexivity. Qed.

Lemma clean_emit (ev : event Ty) :
    (forall c e, ev <> Called c (Some e)) -> clean (emit ev).
Proof.
    intros Hev. unfold clean; simpl. destruct ev as [c [e|]| | | | | | | |]; auto.
    exfalso. eapply Hev; reflexivity.
Qed.

Lemma clean_print t (args : list (value Ty)) : clean (print t args).
Proof. apply clean_emit. discriminate. Qed.

Lemma clean_lib {A} c (r : result A) : clean (@lib Ty A c r).
Proof.
    unfold clean; destruct r as [a|e]; simpl; auto.
    exists [], c. auto.
Qed.

Lemma clean_lift_Ok {A} (a : A) : clean (@lift Ty A (Ok a)).
Proof. reflexivity. Qed.

Lemma clean_bind {A B} (m : M Ty A) (k : A -> M Ty B) :
    clean m -> (forall a, snd m = Ok a -> clean (k a)) -> clean (bind m k).
Proof.
    unfold clean. intros Hm Hk. rewrite fst_bind, snd_bind.
    destruct (snd m) as [a|e]; [|exact Hm].
    specialize (Hk a eq_refl). destruct (snd (k a)) as [b|e].
    - rewrite raised_app, Hm, Hk. reflexivity.
    - destruct Hk as (l & c & -> & Hl). exists (fst m ++ l), c.
      rewrite raised_app, Hm, Hl, <- app_assoc. auto.
Qed.

Lemma clean_for_enumerate {St A} (body : St -> nat -> A -> M Ty St)
    (I : nat -> St -> Prop) (xs : list A) :
    forall i st,
      (forall k x s,
          xs !! k = Some x -> I (i + k)%nat s ->
          clean (body s (i + k)%nat x)
          /\ forall s', snd (body s (i + k)%nat x) = Ok s' -> I (S (i + k)) s') ->
      I i st ->
      clean (for_enumerate body st i xs)
      /\ forall st', snd (for_enumerate body st i xs) = Ok st' ->
                     I (i + length xs)%nat st'.
Proof.
    induction xs as [|x xs IH]; intros i st Hstep Hi; simpl.
    - split; [reflexivity|]. intros st' [= <-]. rewrite Nat.add_0_r. exact Hi.
    - destruct (Hstep 0%nat x st eq_refl) as [Hc Hnext].
      { rewrite Nat.add_0_r. exact Hi. }
      rewrite Nat.add_0_r in Hc, Hnext.
      assert (Hrest : forall s1, snd (body st i x) = Ok s1 ->
                clean (for_enumerate body s1 (S i) xs)
                /\ forall st', snd (for_enumerate body s1 (S i) xs) = Ok st' ->
                               I (S i + length xs)%nat st').
      { intros s1 Hs1. apply IH; [|auto].
        intros k y s Hk HI.
        replace (S i + k)%nat with (i + S k)%nat in * by lia.
        apply Hstep; auto. }
      split.
      + apply clean_bind; [exact Hc|]. intros s1 Hs1. apply Hrest, Hs1.
      + intros st'. rewrite snd_bind. destruct (snd (body st i x)) as [s1|e] eqn:Hb;
          [|discriminate].
        intros Hst'. replace (i + S (length xs))%nat with (S i + length xs)%nat by lia.
        apply (Hrest s1 eq_refl), Hst'.
Qed.

Lemma raised_Called_in log1 c e log2 :
    raised (log1 ++ Called c (Some e) :: log2) <> [].
Proof.
    rewrite raised_app. simpl. destruct (raised log1); discriminate.
Qed.

Lemma clean_unhandled {A} (m : M Ty A) : clean m -> unhandled m.
Proof.
    unfold clean, unhandled. intros Hm. split.
    - intros log1 c e log2 Hlog. rewrite Hlog in Hm.
      destruct (snd m) as [a|e'].
      + exfalso. eapply raised_Called_in, Hm.
      + destruct Hm as (l & c' & Heq & Hl).
        destruct log2 as [|x log2 _] using rev_ind.
        * apply app_inj_tail in Heq as [_ Heq]. injection Heq as _ ->. auto.
        * exfalso. rewrite app_comm_cons, app_assoc in Heq.
          apply app_inj_tail in Heq as [<- _].
          eapply raised_Called_in, Hl.
    - intros e He. rewrite He in Hm. destruct Hm as (l & c & Heq & _). eauto.
Qed.

End Clean.

(** ** Logs made of library calls and console lines only *)

Section Quiet.

Context {Ty : Types}.
Implicit Type log : list (event Ty).

Lemma computes_and_prints_nil : computes_and_prints (@nil (event Ty)).
Proof. constructor. Qed.

Lemma computes_and_prints_app log1 log2 :
    computes_and_prints log1 -> computes_and_prints log2 ->
    computes_and_prints (log1 ++ log2).
Proof. intros H1 H2. apply Forall_app; auto. Qed.

Lemma computes_and_prints_files log :
    computes_and_prints log -> files log = [].
Proof.
    induction 1 as [|ev log Hev _ IH]; [reflexivity|].
    destruct ev; simpl in *; try contradiction; exact IH.
Qed.

Lemma computes_and_prints_plotted log :
    computes_and_prints log -> plotted log = [].
Proof.
    induction 1 as [|ev log Hev _ IH]; [reflexivity|].
    destruct ev; simpl in *; try contradiction; exact IH.
Qed.

Lemma computes_and_prints_lib {A} c (r : result A) :
    solver_call c -> computes_and_prints (fst (@lib Ty A c r)).
Proof. intros Hc. repeat constructor. exact Hc. Qed.

Lemma computes_and_prints_print t (args : list (value Ty)) :
    computes_and_prints (fst (print t args)).
Proof. repeat constructor. Qed.

End Quiet.

(** Splits a goal [P (fst m)] along the binds of [m], for a property [P]
    of logs with the closure proofs [Hnil] and [Happ]. *)
Ltac along_binds P Hnil Happ :=
  repeat first
    [ apply (holds_ret P Hnil)
    | apply (holds_lift P Hnil)
    | apply (holds_bind P Happ);
      [ | let a := fresh "a" in
          intros a;
          repeat match goal with
                 | x : (_ * _)%type |- _ => destruct x
                 end; cbv beta iota ] ].

(** ** The arrays of DetProperties.py *)

Section Arrays.

Import DetProperties DetSpec.

Lemma get2_insert (a : list (list float)) (row : list float) i j v i' j' :
    a !! i = Some row -> (j < length row)%nat ->
    get2 (<[i := <[j := v]> row]> a) i' j'
    = if decide (i' = i /\ j' = j) then Some v else get2 a i' j'.
Proof.
    intros Hrow Hj. unfold get2.
    assert (Hi : (i < length a)%nat) by (eapply lookup_lt_Some; eauto).
    destruct (decide (i' = i)) as [->|Hne].
    - rewrite list_lookup_insert_eq by exact Hi. rewrite Hrow.
      destruct (decide (j' = j)) as [->|Hnej].
      + rewrite list_lookup_insert_eq by exact Hj.
        destruct (decide _) as [_|[]]; auto.
      + rewrite list_lookup_insert_ne by auto.
        destruct (decide _) as [[_ ?]|_]; [contradiction|reflexivity].
    - rewrite list_lookup_insert_ne by auto.
      destruct (decide _) as [[? _]|_]; [contradiction|reflexivity].
Qed.

Lemma rect_lookup n a i :
    rect n a -> (i < 3)%nat -> exists row, a !! i = Some row /\ length row = n.
Proof.
    intros [Hlen Hrows] Hi.
    destruct (lookup_lt_is_Some_2 a i) as [row Hrow]; [lia|].
    exists row. split; [exact Hrow|].
    eapply (proj1 (Forall_lookup _ _) Hrows); eauto.
Qed.

Lemma rect_insert n a i row :
    rect n a -> length row = n -> rect n (<[i := row]> a).
Proof.
    intros [Hlen Hrows] Hrow. split.
    - rewrite length_insert. exact Hlen.
    - apply Forall_insert; auto.
Qed.

Lemma setitem2_rect n a i j v :
    rect n a -> (i < 3)%nat -> (j < n)%nat ->
    exists a',
      setitem2 a i j v = Ok a' /\ rect n a'
      /\ forall i' j', get2 a' i' j'
                       = if decide (i' = i /\ j' = j) then Some v
                         else get2 a i' j'.
Proof.
    intros Ha Hi Hj. destruct (rect_lookup n a i Ha Hi) as (row & Hrow & Hlen).
    unfold setitem2. rewrite Hrow.
    destruct (Nat.ltb_spec j (length row)) as [Hlt|Hge]; [|lia].
    eexists. split; [reflexivity|]. split.
    - apply rect_insert; [exact Ha|]. rewrite length_insert. exact Hlen.
    - intros i' j'. apply get2_insert; auto.
Qed.

Lemma rect_stack3 (grid : list float) :
    rect (length grid)
      (Np.stack3 (Np.zeros_like grid) (Np.zeros_like grid) (Np.zeros_like grid)).
Proof.
    split; [reflexivity|].
    unfold Np.stack3, Np.zeros_like. repeat constructor; apply repeat_length.
Qed.

Lemma shape_allocate grid : shape (length grid) (allocate grid).
Proof. intros []; apply rect_stack3. Qed.

Lemma store_Ok {Ty} (L : Library Ty) n st IC idx (v : locals Ty) :
    shape n st -> (IC < 3)%nat -> (idx < n)%nat ->
    exists st',
      store L st IC idx v = ([], Ok st')
      /\ shape n st'
      /\ (forall name, assigned name = false ->
                       select name st' = select name st)
      /\ (forall name i j,
             assigned name = true ->
             get2 (select name st') i j
             = if decide (i = IC /\ j = idx) then Some (quantity L name v)
               else get2 (select name st) i j).
Proof.
    intros Hst HIC Hidx. unfold store.
    destruct (setitem2_rect n (product_temp st) IC idx (temperature L (state v))
                (Hst product_temp_) HIC Hidx) as (a1 & -> & Hr1 & Hg1).
    destruct (setitem2_rect n (detonation_speed st) IC idx (D v)
                (Hst detonation_speed_) HIC Hidx) as (a2 & -> & Hr2 & Hg2).
    destruct (setitem2_rect n (product_press st) IC idx (pressure L (state v))
                (Hst product_press_) HIC Hidx) as (a3 & -> & Hr3 & Hg3).
    destruct (setitem2_rect n (detonation_mach st) IC idx (mach v)
                (Hst detonation_mach_) HIC Hidx) as (a4 & -> & Hr4 & Hg4).
    destruct (setitem2_rect n (product_specificheat st) IC idx (gammaf v)
                (Hst product_specificheat_) HIC Hidx) as (a5 & -> & Hr5 & Hg5).
    eexists. split; [reflexivity|]. split; [|split].
    - intros []; simpl; auto; apply (Hst detionation_speed_) || apply (Hst calc_detspeed_).
    - intros []; simpl; intros; auto; discriminate.
    - intros [] i j; simpl; intros; auto; discriminate.
Qed.

End Arrays.

(** Solves [clean m] for straight-line code without script-raised
    exceptions. *)
Ltac clean_steps :=
  repeat first
    [ apply clean_ret
    | apply clean_print
    | apply clean_lib
    | apply clean_lift_Ok
    | apply clean_emit; discriminate
    | apply clean_bind;
      [ | let a := fresh "a" in
          intros a _;
          repeat match goal with
                 | x : (_ * _)%type |- _ => destruct x
                 end; cbv beta iota ] ].

(** Solves [computes_and_prints (fst m)] for straight-line code. *)
Ltac quiet_steps :=
  match goal with
  | |- @computes_and_prints ?T _ =>
      along_binds (@computes_and_prints T)
        (@computes_and_prints_nil T) (@computes_and_prints_app T)
  end;
  try (apply computes_and_prints_lib; exact I);
  try apply computes_and_prints_print.

(** ** One pass of the loop of DetProperties.py *)

Section DetPropertiesPass.

Import DetProperties DetSpec.

Context {Ty : Types} (L : Library Ty).

Lemma inittemp_lookup IC : (IC < 3)%nat -> exists T, inittemp !! IC = Some T.
Proof. intros H. destruct IC as [|[|[|]]]; simpl; eauto; lia. Qed.

Lemma initpress_lookup IC : (IC < 3)%nat -> exists p, initpress !! IC = Some p.
Proof. intros H. destruct IC as [|[|[|]]]; simpl; eauto; lia. Qed.

Lemma compute_clean IC h : (IC < 3)%nat -> clean (compute L IC h).
Proof.
  intros HIC. unfold compute, getitem.
  destruct (initpress_lookup IC HIC) as [p ->].
  destruct (inittemp_lookup IC HIC) as [T ->].
  clean_steps.
Qed.

Lemma compute_quiet IC h : computes_and_prints (fst (compute L IC h)).
Proof. unfold compute. quiet_steps. Qed.

Lemma report_run (v : locals Ty) :
  snd (report L v) = Ok tt /\ clean (report L v)
  /\ computes_and_prints (fst (report L v)).
Proof.
  split; [reflexivity|]. split.
  - unfold report. clean_steps.
  - unfold report. quiet_steps.
Qed.

Lemma iteration_quiet IC st idx h :
  computes_and_prints (fst (iteration L IC st idx h)).
Proof.
  unfold iteration. quiet_steps.
Qed.

Lemma iteration_clean n IC st idx h :
  shape n st -> (IC < 3)%nat -> (idx < n)%nat ->
  clean (iteration L IC st idx h).
Proof.
  intros Hst HIC Hidx. unfold iteration.
  apply clean_bind; [apply compute_clean, HIC|]. intros v _.
  apply clean_bind; [apply report_run|]. intros _ _.
  destruct (store_Ok L n st IC idx v Hst HIC Hidx) as (st' & -> & _).
  reflexivity.
Qed.

(** A pass that ends normally has computed its locals and stored them. *)
Lemma iteration_Ok n IC st idx h log st' :
  shape n st -> (IC < 3)%nat -> (idx < n)%nat ->
  iteration L IC st idx h = (log, Ok st') ->
  exists l1 v,
    compute L IC h = (l1, Ok v)
    /\ log = l1 ++ fst (report L v)
    /\ store L st IC idx v = ([], Ok st').
Proof.
  intros Hst HIC Hidx Hrun. unfold iteration in Hrun.
  apply bind_Ok_inv in Hrun as (l1 & v & l2 & Hc & Hrest & ->).
  apply bind_Ok_inv in Hrest as (l3 & [] & l4 & Hr & Hs & ->).
  destruct (store_Ok L n st IC idx v Hst HIC Hidx) as (st1 & Hst1 & _).
  rewrite Hst1 in Hs. injection Hs as <- <-.
  exists l1, v. rewrite app_nil_r.
  replace l3 with (fst (report L v)) by (rewrite Hr; reflexivity). auto.
Qed.

End DetPropertiesPass.

(** ** The sweep of DetProperties.py *)

Section DetPropertiesSweep.

Import DetProperties DetSpec.

Context {Ty : Types} (L : Library Ty).

Lemma swept_start grid : swept L grid 0 0 (allocate grid).
Proof.
  split; [apply shape_allocate|]. split; [reflexivity|].
  intros name IC' idx' h _ [H|[_ H]]; lia.
Qed.

Lemma swept_step grid IC k st x l st' :
  swept L grid IC k st -> (IC < 3)%nat -> grid !! k = Some x ->
  iteration L IC st k x = (l, Ok st') ->
  swept L grid IC (S k) st'.
Proof.
  intros (Hshape & Hkeep & Hcells) HIC Hx Hrun.
  assert (Hk : (k < length grid)%nat) by (eapply lookup_lt_Some; eauto).
  destruct (iteration_Ok L _ IC st k x l st' Hshape HIC Hk Hrun)
    as (l1 & v & Hc & _ & Hstore).
  destruct (store_Ok L _ st IC k v Hshape HIC Hk)
    as (st1 & Hst1 & Hshape1 & Hkeep1 & Hget1).
  rewrite Hst1 in Hstore. injection Hstore as <-.
  split; [exact Hshape1|]. split.
  - intros name Hname. rewrite Hkeep1 by exact Hname. auto.
  - intros name IC' idx' h Hname Hdone HIC' Hh.
    rewrite Hget1 by exact Hname.
    destruct (decide (IC' = IC /\ idx' = k)) as [[-> ->]|Hne].
    + rewrite Hx in Hh. injection Hh as <-. eauto.
    + apply Hcells; auto. destruct Hdone as [?|[-> ?]]; [auto|].
      right. split; [reflexivity|].
      destruct (decide (idx' = k)) as [->|?]; [tauto|lia].
Qed.

Lemma swept_row grid IC st :
  swept L grid IC (length grid) st -> swept L grid (S IC) 0 st.
Proof.
  intros (Hshape & Hkeep & Hcells). split; [exact Hshape|].
  split; [exact Hkeep|].
  intros name IC' idx' h Hname Hdone HIC' Hh.
  assert (Hidx : (idx' < length grid)%nat) by (eapply lookup_lt_Some; eauto).
  apply Hcells; auto. destruct Hdone as [?|[_ ?]]; lia.
Qed.

Lemma inner_loop_swept grid IC st log st' :
  swept L grid IC 0 st -> (IC < 3)%nat ->
  for_enumerate (iteration L IC) st 0%nat grid = (log, Ok st') ->
  swept L grid (S IC) 0 st'.
Proof.
  intros Hst HIC Hrun. apply swept_row.
  apply (for_enumerate_invariant (iteration L IC)
           (fun k s => swept L grid IC k s) grid 0%nat st log st');
    [|exact Hst|exact Hrun].
  intros k x s l s' Hx Hs Hbody. simpl in *. eapply swept_step; eauto.
Qed.

Lemma sweep_swept grid log st :
  sweep L grid (allocate grid) = (log, Ok st) -> swept L grid 3 0 st.
Proof.
  intros Hrun.
  apply (for_enumerate_invariant
           (fun s IC (_ : Z) => for_enumerate (iteration L IC) s 0%nat grid)
           (fun IC s => swept L grid IC 0 s) inittemp 0%nat
           (allocate grid) log st); [|apply swept_start|exact Hrun].
  intros k x s l s' Hx Hs Hbody. simpl in *.
  assert (Hk : (k < 3)%nat) by (apply lookup_lt_Some in Hx; exact Hx).
  eapply inner_loop_swept; eauto.
Qed.

Lemma inner_loop_clean n grid IC st :
  n = length grid -> shape n st -> (IC < 3)%nat ->
  clean (for_enumerate (iteration L IC) st 0%nat grid)
  /\ forall st', snd (for_enumerate (iteration L IC) st 0%nat grid) = Ok st' ->
                 shape n st'.
Proof.
  intros -> Hst HIC.
  destruct (clean_for_enumerate (iteration L IC)
              (fun _ s => shape (length grid) s) grid 0%nat st) as [Hc Hs];
    [|exact Hst|split; [exact Hc|exact Hs]].
  intros k x s Hx Hshape. simpl.
  assert (Hk : (k < length grid)%nat) by (eapply lookup_lt_Some; eauto).
  split; [eapply iteration_clean; eauto|].
  intros s' Hs'.
  destruct (iteration_Ok L _ IC s k x (fst (iteration L IC s k x)) s'
              Hshape HIC Hk) as (_ & v & _ & _ & Hstore).
  { rewrite <- Hs'. apply surjective_run. }
  destruct (store_Ok L _ s IC k v Hshape HIC Hk) as (s1 & Hs1 & Hshape1 & _).
  rewrite Hs1 in Hstore. injection Hstore as <-. exact Hshape1.
Qed.

Lemma sweep_clean grid st :
  shape (length grid) st ->
  clean (sweep L grid st)
  /\ forall st', snd (sweep L grid st) = Ok st' -> shape (length grid) st'.
Proof.
  intros Hst. unfold sweep.
  destruct (clean_for_enumerate
              (fun s IC (_ : Z) => for_enumerate (iteration L IC) s 0%nat grid)
              (fun _ s => shape (length grid) s) inittemp 0%nat st)
    as [Hc Hs]; [|exact Hst|split; [exact Hc|exact Hs]].
  intros k x s Hx Hshape. simpl.
  assert (Hk : (k < 3)%nat) by (apply lookup_lt_Some in Hx; exact Hx).
  apply (inner_loop_clean (length grid)); auto.
Qed.

Lemma sweep_quiet grid st : computes_and_prints (fst (sweep L grid st)).
Proof.
  unfold sweep.
  apply (holds_for_enumerate (@computes_and_prints Ty)
           (@computes_and_prints_nil Ty) (@computes_and_prints_app Ty)).
  intros s IC _.
  apply (holds_for_enumerate (@computes_and_prints Ty)
           (@computes_and_prints_nil Ty) (@computes_and_prints_app Ty)).
  intros s' idx h. apply iteration_quiet.
Qed.

Lemma rect_rows n a :
  rect n a -> exists r0 r1 r2, a = [r0; r1; r2].
Proof.
  intros [Hlen _]. destruct a as [|r0 [|r1 [|r2 [|]]]]; try discriminate.
  eauto.
Qed.

(** With all arrays in shape, the plotting part runs through when the
    directory Figures is there, and ends at the first [savefig]
    otherwise. *)
Lemma plots_Ok n grid st :
  shape n st ->
  savefig_in L "Figures" = Ok tt ->
  exists log,
    plots L grid st = (log, Ok tt)
    /\ plotted log = curves grid st
    /\ files log = fignames
    /\ raised log = [] /\ calls log = map Call_savefig fignames.
Proof.
  intros Hst Hdir.
  destruct (rect_rows n _ (Hst detonation_speed_)) as (a0 & a1 & a2 & Ha).
  destruct (rect_rows n _ (Hst product_temp_)) as (b0 & b1 & b2 & Hb).
  destruct (rect_rows n _ (Hst product_press_)) as (c0 & c1 & c2 & Hc).
  destruct (rect_rows n _ (Hst detonation_mach_)) as (d0 & d1 & d2 & Hd).
  destruct (rect_rows n _ (Hst product_specificheat_)) as (e0 & e1 & e2 & He).
  simpl in Ha, Hb, Hc, Hd, He.
  unfold plots, curves, finish, savefig. rewrite Ha, Hb, Hc, Hd, He.
  cbn [directory has_slash Ascii.eqb Bool.eqb orb]. rewrite Hdir.
  eexists. split; [reflexivity|]. simpl. rewrite !map_id.
  repeat split; reflexivity.
Qed.

Lemma plots_Raise n grid st e :
  shape n st ->
  savefig_in L "Figures" = Raise e ->
  exists log,
    plots L grid st
    = (log ++ [Called (Call_savefig "Figures/DetSpeed.png") (Some e)],
       Raise e)
    /\ files log = [] /\ raised log = [] /\ calls log = []
    /\ (forall tmpl, printed tmpl log = [])
    /\ log <> [].
Proof.
  intros Hst Hdir.
  destruct (rect_rows n _ (Hst detonation_speed_)) as (a0 & a1 & a2 & Ha).
  unfold plots, finish, savefig. simpl in Ha. rewrite Ha.
  cbn [directory has_slash Ascii.eqb Bool.eqb orb]. rewrite Hdir.
  simpl.
  match goal with
  | |- exists log, (?l, _) = _ /\ _ => exists (removelast l)
  end.
  simpl. split; [reflexivity|].
  repeat split; try reflexivity. discriminate.
Qed.

(** [plt.savefig] returns [None]. *)
Lemma savefig_cases :
  savefig_in L "Figures" = Ok tt \/ exists e, savefig_in L "Figures" = Raise e.
Proof. destruct (savefig_in L "Figures") as [[]|e]; eauto. Qed.

End DetPropertiesSweep.

(** ** DetProperties.py as a whole *)

Section DetPropertiesScript.

Import DetProperties DetSpec.

Context {Ty : Types} (L : Library Ty).

(** A run that ends normally is a sweep that ended normally followed by
    the plotting part. *)
Lemma script_Ok grid st :
  snd (script L grid) = Ok st ->
  exists log1 log2,
    sweep L grid (allocate grid) = (log1, Ok st)
    /\ plots L grid st = (log2, Ok tt)
    /\ fst (script L grid) = log1 ++ log2
    /\ swept L grid 3 0 st
    /\ plotted (fst (script L grid)) = curves grid st
    /\ files (fst (script L grid)) = fignames
    /\ calls log2 = map Call_savefig fignames.
Proof.
  intros Hrun.
  assert (Hfull : script L grid = (fst (script L grid), Ok st))
    by (rewrite <- Hrun; apply surjective_run).
  unfold script in Hfull at 1.
  apply bind_Ok_inv in Hfull as (log1 & st1 & l2 & Hsweep & Hrest & Hlog).
  apply bind_Ok_inv in Hrest as (log2 & [] & l3 & Hplots & Hret & ->).
  injection Hret as <- <-. rewrite app_nil_r in Hlog.
  pose proof (sweep_swept L grid log1 st1 Hsweep) as Hswept.
  destruct (savefig_cases L) as [Hdir|[e Hdir]].
  2: { destruct (plots_Raise L (length grid) grid st1 e (proj1 Hswept) Hdir)
         as (log2' & Hplots' & _).
       rewrite Hplots in Hplots'. discriminate. }
  destruct (plots_Ok L (length grid) grid st1 (proj1 Hswept) Hdir)
    as (log2' & Hplots' & Hcurves & Hfiles & _ & Hcalls).
  rewrite Hplots in Hplots'. injection Hplots' as <-.
  exists log1, log2. repeat split; auto; try apply Hswept.
  - rewrite Hlog, plotted_app, Hcurves.
    rewrite computes_and_prints_plotted; [reflexivity|].
    replace log1 with (fst (sweep L grid (allocate grid)))
      by (rewrite Hsweep; reflexivity).
    apply sweep_quiet.
  - rewrite Hlog, files_app, Hfiles.
    rewrite computes_and_prints_files; [reflexivity|].
    replace log1 with (fst (sweep L grid (allocate grid)))
      by (rewrite Hsweep; reflexivity).
    apply sweep_quiet.
Qed.

Lemma swept_filled grid st name :
  swept L grid 3 0 st -> assigned name = true -> filled L grid name st.
Proof.
  intros (_ & _ & Hcells) Hname IC idx h HIC Hh.
  apply Hcells; auto.
Qed.

Lemma curves_consumed grid st name (log : list (event Ty)) :
  shape (length grid) st -> plotted log = curves grid st ->
  assigned name = true -> consumed name st log.
Proof.
  intros Hst Hlog Hname i row Hrow.
  destruct (rect_rows _ _ (Hst name)) as (r0 & r1 & r2 & Ha).
  rewrite Ha in Hrow. rewrite Hlog. unfold curves.
  assert (Hi : row = r0 \/ row = r1 \/ row = r2).
  { destruct i as [|[|[|]]]; simpl in Hrow; try discriminate;
      injection Hrow as <-; auto. }
  destruct name; try discriminate; simpl in Ha; rewrite Ha; simpl;
    destruct Hi as [-> | [-> | ->]];
    do 4 eexists;
    first
      [ solve [ split; [|left; reflexivity]; simpl;
                repeat (first [left; reflexivity | right]) ]
      | solve [ split; [|right; reflexivity]; simpl;
                repeat (first [left; reflexivity | right]) ] ].
Qed.

End DetPropertiesScript.

Lemma compositions_length : length DetProperties.compositions = 30%nat.
Proof. reflexivity. Qed.

(** ** What a pass that ends normally computed *)

Section Inversion.

Context {Ty : Types}.

Lemma lib_Ok_inv {A} c (r : result A) (log : list (event Ty)) a :
  lib c r = (log, Ok a) -> r = Ok a /\ log = [Called c None].
Proof.
  unfold lib. destruct r as [a'|e]; intros [= <- <-]; auto.
Qed.

Lemma lift_Ok_inv {A} (r : result A) (log : list (event Ty)) a :
  lift r = (log, Ok a) -> r = Ok a /\ log = [].
Proof. unfold lift. intros [= <- <-]. auto. Qed.

Lemma getitem_Ok_inv {A} (a : list A) i x :
  getitem a i = Ok x -> a !! i = Some x.
Proof. unfold getitem. destruct (a !! i); intros [= <-]; reflexivity. Qed.

End Inversion.

(** Takes a hypothesis [m = (log, Ok v)] apart along the binds of [m]. *)
Ltac invert_run H :=
  repeat
    (let l1 := fresh "l" in
     let a := fresh "a" in
     let l2 := fresh "l" in
     let H1 := fresh "Hcall" in
     let Hl := fresh "Hlog" in
     apply bind_Ok_inv in H as (l1 & a & l2 & H1 & H & Hl);
     first [ apply lib_Ok_inv in H1 as [H1 ->]
           | apply lift_Ok_inv in H1 as [H1 ->]
           | idtac ];
     repeat match goal with
            | x : (_ * _)%type |- _ => destruct x
            end;
     cbv beta iota in H; subst).

Section DetPropertiesLocals.

Import DetProperties.

Context {Ty : Types} (L : Library Ty).

(** The locals of a pass of DetProperties.py that reached line 92. *)
Lemma compute_Ok_inv IC h log (v : locals Ty) :
  compute L IC h = (log, Ok v) ->
  exists p g0 g1 g1' g2 g3,
    initpress !! IC = Some p
    /\ inittemp !! IC = Some (T1 v)
    /\ P1 v = int64_wrap (p * 1000)
    /\ q v = make_q 100 h
    /\ Solution L mech = Ok g0
    /\ set_TPX L g0 (Int (T1 v)) (Int (P1 v)) (q v) = Ok g1
    /\ rho_1 v = density L g1
    /\ soundspeed_eq L g1 = Ok (csound v, g1')
    /\ CJspeed_full L (Int (P1 v)) (Int (T1 v)) (q v) mech
       = Ok (cj_speed v, R2 v, cj_plot_data v)
    /\ PostShock_eq L (cj_speed v) (Int (P1 v)) (Int (T1 v)) (q v) mech = Ok g2
    /\ soundspeed_eq L g2 = Ok (ae v, g3)
    /\ soundspeed_fr L g3 = Ok (af v, state v)
    /\ rho_2 v = density L (state v)
    /\ gammae v = (float_pow L (ae v) 2 * rho_2 v / pressure L (state v))%float
    /\ gammaf v = (float_pow L (af v) 2 * rho_2 v / pressure L (state v))%float
    /\ w2 v = (cj_speed v * rho_1 v / rho_2 v)%float
    /\ u2 v = (cj_speed v - w2 v)%float
    /\ D v = cj_speed v
    /\ Dcalc v = Dcalc_expr L
    /\ mach v = (D v / csound v)%float
    /\ calls log
       = [Call_Solution mech;
          Call_set_TPX (Int (T1 v)) (Int (P1 v)) (q v);
          Call_soundspeed_eq;
          Call_CJspeed (Int (P1 v)) (Int (T1 v)) (q v) mech true;
          Call_PostShock_eq (cj_speed v) (Int (P1 v)) (Int (T1 v)) (q v) mech;
          Call_soundspeed_eq;
          Call_soundspeed_fr].
Proof.
  intros H. unfold compute in H. invert_run H.
  injection H as <- <-.
  apply getitem_Ok_inv in Hcall, Hcall0.
  do 6 eexists. simpl.
  repeat (split; [eassumption || reflexivity|]). reflexivity.
Qed.

End DetPropertiesLocals.

(** Two floats told apart by the bitwise comparison are different. *)
Lemma float_neq (x y : float) :
  PrimFloat.Leibniz.eqb x y = false -> PrimFloat.Leibniz.eqb y y = true ->
  x <> y.
Proof. intros Hxy Hyy ->. rewrite Hyy in Hxy. discriminate. Qed.

Lemma DetProperties_main_eq {Ty} (L : Library Ty) :
  DetProperties.main L = DetProperties.script L DetProperties.compositions.
Proof. reflexivity. Qed.

(** ** Runs of DetProperties.py, normal or not *)

Section OnlyCalls.

Context {Ty : Types}.
Implicit Type log : list (event Ty).

Lemma only_calls_nil : only_calls (@nil (event Ty)).
Proof. constructor. Qed.

Lemma only_calls_app log1 log2 :
  only_calls log1 -> only_calls log2 -> only_calls (log1 ++ log2).
Proof. intros H1 H2. apply Forall_app; auto. Qed.

Lemma only_calls_lib {A} c (r : result A) :
  solver_call c -> only_calls (fst (@lib Ty A c r)).
Proof. intros Hc. repeat constructor. exact Hc. Qed.

Lemma only_calls_printed t log : only_calls log -> printed t log = [].
Proof.
  induction 1 as [|ev log Hev _ IH]; [reflexivity|].
  destruct ev; simpl in *; try contradiction; exact IH.
Qed.

Lemma only_calls_quiet log : only_calls log -> computes_and_prints log.
Proof.
  intros H. eapply Forall_impl; [exact H|].
  intros ev. destruct ev; simpl; auto.
Qed.

(** A loop that ends normally logs as many items of a kind as its passes
    do together. *)
Lemma for_enumerate_count {St A B} (body : St -> nat -> A -> M Ty St)
  (f : list (event Ty) -> list B) (c : nat) :
  (forall l1 l2, f (l1 ++ l2) = f l1 ++ f l2) -> f [] = [] ->
  (forall s i x l s', body s i x = (l, Ok s') -> length (f l) = c) ->
  forall xs st i log st',
    for_enumerate body st i xs = (log, Ok st') ->
    length (f log) = (c * length xs)%nat.
Proof.
  intros Happ Hnil Hbody xs.
  induction xs as [|x xs IH]; intros st i log st' Hrun; simpl in *.
  - injection Hrun as <- <-. rewrite Hnil. simpl. lia.
  - apply bind_Ok_inv in Hrun as (l1 & s1 & l2 & Hb & Hrest & ->).
    rewrite Happ, length_app, (Hbody _ _ _ _ _ Hb), (IH _ _ _ _ Hrest). lia.
Qed.

End OnlyCalls.

(** Solves [only_calls (fst m)] for straight-line code. *)
Ltac calls_steps :=
  match goal with
  | |- @only_calls ?T _ =>
      along_binds (@only_calls T) (@only_calls_nil T) (@only_calls_app T)
  end;
  try (apply only_calls_lib; exact I).

Section DetPropertiesRuns.

Import DetProperties DetSpec.

Context {Ty : Types} (L : Library Ty).

Lemma compute_only_calls IC h : only_calls (fst (compute L IC h)).
Proof. unfold compute. calls_steps. Qed.

Lemma fst_lift_bind {A B} (r : result A) (k : A -> M Ty B) :
  fst (bind (lift r) k)
  = match r with
    | Ok a => fst (k a)
    | Raise _ => []
    end.
Proof. destruct r as [a|e]; simpl; [destruct (k a)|]; reflexivity. Qed.

Lemma store_log st IC idx (v : locals Ty) : fst (store L st IC idx v) = [].
Proof.
  unfold store.
  repeat (rewrite fst_lift_bind; destruct (setitem2 _ _ _ _); [|reflexivity]).
  reflexivity.
Qed.

(** The log of a pass: the solver calls, then the console lines if the
    solvers did not raise. *)
Lemma iteration_log IC st idx h :
  fst (iteration L IC st idx h)
  = fst (compute L IC h)
    ++ match snd (compute L IC h) with
       | Ok v => fst (report L v)
       | Raise _ => []
       end.
Proof.
  unfold iteration. rewrite fst_bind.
  destruct (snd (compute L IC h)) as [v|e]; [|rewrite app_nil_r; reflexivity].
  rewrite fst_bind. destruct (report_run L v) as [-> _].
  rewrite store_log, app_nil_r. reflexivity.
Qed.

(** Either the sweep raised, and the script ends there; or sweep and
    plotting both ran through; or the sweep ran through and the first
    [savefig] raised. *)
Lemma script_cases grid :
  (exists e, snd (sweep L grid (allocate grid)) = Raise e
             /\ script L grid = (fst (sweep L grid (allocate grid)), Raise e))
  \/ (exists log1 log2 st,
         sweep L grid (allocate grid) = (log1, Ok st)
         /\ plots L grid st = (log2, Ok tt)
         /\ script L grid = (log1 ++ log2, Ok st)
         /\ files log2 = fignames /\ raised log2 = []
         /\ calls log2 = map Call_savefig fignames)
  \/ (exists log1 log2 st e,
         sweep L grid (allocate grid) = (log1, Ok st)
         /\ script L grid
            = (log1 ++ log2
               ++ [Called (Call_savefig "Figures/DetSpeed.png") (Some e)],
               Raise e)
         /\ files log2 = [] /\ raised log2 = [] /\ calls log2 = []
         /\ (forall tmpl, printed tmpl log2 = []) /\ log2 <> []).
Proof.
  destruct (sweep L grid (allocate grid)) as [log1 [st|e]] eqn:Hsweep.
  - right.
    destruct (sweep_clean L grid (allocate grid) (shape_allocate grid))
      as [_ Hshape].
    specialize (Hshape st). rewrite Hsweep in Hshape.
    destruct (savefig_cases L) as [Hdir|[e Hdir]].
    + left.
      destruct (plots_Ok L (length grid) grid st (Hshape eq_refl) Hdir)
        as (log2 & Hplots & _ & Hfiles & Hraised & Hcalls).
      exists log1, log2, st. repeat split; auto.
      unfold script. rewrite Hsweep. simpl. rewrite Hplots. simpl.
      rewrite app_nil_r. reflexivity.
    + right.
      destruct (plots_Raise L (length grid) grid st e (Hshape eq_refl) Hdir)
        as (log2 & Hplots & Hfiles & Hraised & Hcalls & Hprinted & Hne).
      exists log1, log2, st, e. repeat split; auto.
      unfold script. rewrite Hsweep. simpl. rewrite Hplots. reflexivity.
  - left. exists e. split; [reflexivity|].
    unfold script. rewrite Hsweep. reflexivity.
Qed.

Lemma script_clean grid : clean (script L grid).
Proof.
  destruct (sweep_clean L grid (allocate grid) (shape_allocate grid))
    as [Hclean _].
  destruct (script_cases grid)
    as [(e & He & ->)
       |[(log1 & log2 & st & Hsweep & _ & -> & _ & Hr & _)
        |(log1 & log2 & st & e & Hsweep & -> & _ & Hr & _)]].
  - unfold clean in *. simpl. rewrite He in Hclean. exact Hclean.
  - unfold clean in *. rewrite Hsweep in Hclean. simpl in *.
    rewrite raised_app, Hclean, Hr. reflexivity.
  - unfold clean in *. rewrite Hsweep in Hclean. simpl in *.
    exists (log1 ++ log2), (Call_savefig "Figures/DetSpeed.png").
    rewrite app_assoc, raised_app, Hclean, Hr. auto.
Qed.


End DetPropertiesRuns.

(** ** Post-shock calls follow CJ-speed calls *)

Section Paired.

Context {Ty : Types} (L : Library Ty).

Lemma paired_app prev cs1 cs2 :
  paired L prev cs1 -> (forall prev', paired L prev' cs2) ->
  paired L prev (cs1 ++ cs2).
Proof.
  revert prev. induction cs1 as [|c cs1 IH]; intros prev H1 H2; simpl.
  - apply H2.
  - destruct H1 as [Hc H1]. split; [exact Hc|]. apply IH; auto.
Qed.


Lemma paired_log_app log1 log2 :
  paired_log L log1 -> paired_log L log2 -> paired_log L (log1 ++ log2).
Proof.
  intros H1 H2 prev. rewrite calls_app. apply paired_app; auto.
Qed.

Lemma paired_log_no_calls log : calls log = [] -> paired_log L log.
Proof. intros H prev. rewrite H. exact I. Qed.




End Paired.

(** Runs a straight-line script symbolically: every library answer is
    split into the normal and the raising case. *)
Ltac case_calls :=
  repeat (cbn [bind lib lift ret emit print fst snd app];
          match goal with
          | |- context [match ?r with Ok _ => _ | Raise _ => _ end] =>
              let E := fresh "Hcall" in
              destruct r as [?|?] eqn:E
          end;
          repeat match goal with
                 | x : (_ * _)%type |- _ => destruct x
                 end).

Section DetPropertiesPaired.

Import DetProperties.

Context {Ty : Types} (L : Library Ty).


End DetPropertiesPaired.

(** ** demo_CJstate.py *)

Section DemoRuns.

Import DemoCJstate.

Context {Ty : Types} (L : Library Ty).

Lemma demo_setitem_Ok (a : list float) i v :
  (i < length a)%nat -> setitem a i v = Ok (<[i := v]> a).
Proof.
  intros Hi. unfold setitem.
  destruct (Nat.ltb_spec i (length a)); [reflexivity|lia].
Qed.

Lemma demo_setitem_Ok_inv (a a' : list float) i v :
  setitem a i v = Ok a' -> (i < length a)%nat /\ a' = <[i := v]> a.
Proof.
  unfold setitem. destruct (Nat.ltb_spec i (length a)); intros [= <-]; auto.
Qed.

Lemma demo_compute_clean ds idx h :
  (idx < length ds)%nat -> clean (compute L ds idx h).
Proof.
  intros Hidx. unfold compute.
  clean_steps. rewrite demo_setitem_Ok by exact Hidx. clean_steps.
Qed.

Lemma demo_compute_quiet ds idx h :
  computes_and_prints (fst (compute L ds idx h)).
Proof. unfold compute. quiet_steps. Qed.


Lemma demo_report_run (v : locals Ty) :
  snd (report L v) = Ok tt /\ clean (report L v)
  /\ computes_and_prints (fst (report L v))
  /\ calls (fst (report L v)) = [].
Proof.
  split; [reflexivity|]. split; [|split; [|reflexivity]].
  - unfold report. clean_steps.
  - unfold report. quiet_steps.
Qed.

(** The locals of a pass of demo_CJstate.py that reached line 76. *)
Lemma demo_compute_Ok_inv ds idx h log ds' (v : locals Ty) :
  compute L ds idx h = (log, Ok (ds', v)) ->
  exists g0 g1 R2 d g2 g3,
    P1 v = 100000 /\ T1 v = 300 /\ q v = make_q 100 h
    /\ Solution L mech = Ok g0
    /\ set_TPX L g0 (Int (T1 v)) (Int (P1 v)) (q v) = Ok g1
    /\ rho_1 v = density L g1
    /\ CJspeed_full L (Int (P1 v)) (Int (T1 v)) (q v) mech
       = Ok (cj_speed v, R2, d)
    /\ (idx < length ds)%nat /\ ds' = <[idx := cj_speed v]> ds
    /\ PostShock_eq L (cj_speed v) (Int (P1 v)) (Int (T1 v)) (q v) mech = Ok g2
    /\ soundspeed_eq L g2 = Ok (ae v, g3)
    /\ soundspeed_fr L g3 = Ok (af v, state v)
    /\ rho_2 v = density L (state v)
    /\ gammae v = (float_pow L (ae v) 2 * rho_2 v / pressure L (state v))%float
    /\ gammaf v = (float_pow L (af v) 2 * rho_2 v / pressure L (state v))%float
    /\ w2 v = (cj_speed v * rho_1 v / rho_2 v)%float
    /\ u2 v = (cj_speed v - w2 v)%float.
Proof.
  intros H. unfold compute in H. invert_run H.
  injection H as <- <-. subst.
  match goal with
  | Hs : setitem _ _ _ = Ok _ |- _ =>
      apply demo_setitem_Ok_inv in Hs as [Hidx ->]
  end.
  do 6 eexists. simpl.
  repeat (split; [eassumption || reflexivity|]). reflexivity.
Qed.

Lemma demo_iteration_clean ds idx h :
  (idx < length ds)%nat ->
  clean (iteration L ds idx h)
  /\ forall ds', snd (iteration L ds idx h) = Ok ds' -> length ds' = length ds.
Proof.
  intros Hidx. split.
  - unfold iteration. apply clean_bind; [apply demo_compute_clean, Hidx|].
    intros [ds' v] _. apply clean_bind; [apply demo_report_run|].
    intros _ _. apply clean_ret.
  - intros ds' Hrun.
    assert (Hfull : iteration L ds idx h = (fst (iteration L ds idx h), Ok ds'))
      by (rewrite <- Hrun; apply surjective_run).
    unfold iteration in Hfull at 1.
    apply bind_Ok_inv in Hfull as (l1 & [ds1 v] & l2 & Hc & Hrest & _).
    apply bind_Ok_inv in Hrest as (l3 & [] & l4 & _ & Hret & _).
    injection Hret as _ <-.
    apply demo_compute_Ok_inv in Hc as (g0 & g1 & R2 & d & g2 & g3 & Hc).
    do 8 apply proj2 in Hc. apply proj1 in Hc. rewrite Hc.
    apply length_insert.
Qed.

Lemma demo_iteration_quiet ds idx h :
  computes_and_prints (fst (iteration L ds idx h)).
Proof. unfold iteration. quiet_steps. Qed.


Lemma demo_directory : directory figname = "Figures".
Proof. vm_compute. reflexivity. Qed.

(** The plotting part runs through when the directory Figures is there,
    and ends at [savefig] otherwise. *)
Lemma demo_plots_Ok grid ds :
  savefig_in L "Figures" = Ok tt ->
  snd (plots L grid ds) = Ok tt
  /\ files (fst (plots L grid ds)) = [figname]
  /\ raised (fst (plots L grid ds)) = []
  /\ calls (fst (plots L grid ds)) = [Call_savefig figname]
  /\ plotted (fst (plots L grid ds))
     = [(grid, ds, "k--", "Detonation Speed")%string].
Proof.
  intros Hdir. unfold plots, savefig. rewrite demo_directory, Hdir.
  repeat split; reflexivity.
Qed.

Lemma demo_plots_Raise grid ds e :
  savefig_in L "Figures" = Raise e ->
  exists log,
    plots L grid ds
    = (log ++ [Called (Call_savefig figname) (Some e)], Raise e)
    /\ files log = [] /\ raised log = [] /\ calls log = []
    /\ (forall tmpl, printed tmpl log = [])
    /\ log <> [].
Proof.
  intros Hdir. unfold plots, savefig. rewrite demo_directory, Hdir.
  cbn [bind emit lib fst snd app].
  match goal with
  | |- exists log, (?l, _) = _ /\ _ => exists (removelast l)
  end.
  cbn [removelast app]. split; [reflexivity|].
  repeat split; try reflexivity. discriminate.
Qed.

Lemma demo_plots_cases grid ds :
  (snd (plots L grid ds) = Ok tt /\ savefig_in L "Figures" = Ok tt)
  \/ exists e, snd (plots L grid ds) = Raise e
               /\ savefig_in L "Figures" = Raise e.
Proof.
  destruct (savefig_cases L) as [Hdir|[e Hdir]].
  - left. split; [apply demo_plots_Ok, Hdir|exact Hdir].
  - right. exists e. destruct (demo_plots_Raise grid ds e Hdir) as (l & -> & _).
    auto.
Qed.

Lemma demo_loop_clean grid :
  clean (for_enumerate (iteration L) (Np.zeros_like grid) 0%nat grid)
  /\ forall ds,
      snd (for_enumerate (iteration L) (Np.zeros_like grid) 0%nat grid) = Ok ds ->
      length ds = length grid.
Proof.
  apply (clean_for_enumerate (iteration L)
           (fun _ ds => length ds = length grid) grid 0%nat).
  - intros k x ds Hx Hlen. simpl.
    assert (Hk : (k < length ds)%nat)
      by (rewrite Hlen; eapply lookup_lt_Some; eauto).
    destruct (demo_iteration_clean ds k x Hk) as [Hc Hl].
    split; [exact Hc|]. intros ds' Hds'. rewrite (Hl ds' Hds'). exact Hlen.
  - apply repeat_length.
Qed.

Lemma demo_loop_quiet grid ds i :
  computes_and_prints (fst (for_enumerate (iteration L) ds i grid)).
Proof.
  apply (holds_for_enumerate (@computes_and_prints Ty)
           (@computes_and_prints_nil Ty) (@computes_and_prints_app Ty)).
  intros. apply demo_iteration_quiet.
Qed.

Lemma demo_script_log grid :
  fst (script L grid)
  = fst (for_enumerate (iteration L) (Np.zeros_like grid) 0%nat grid)
    ++ match snd (for_enumerate (iteration L) (Np.zeros_like grid) 0%nat grid)
       with
       | Ok ds => fst (plots L grid ds)
       | Raise _ => []
       end.
Proof.
  unfold script. rewrite fst_bind.
  destruct (snd (for_enumerate _ _ _ _)) as [ds|e];
    [|rewrite app_nil_r; reflexivity].
  rewrite fst_bind.
  destruct (snd (plots L grid ds)); [rewrite app_nil_r|]; reflexivity.
Qed.

Lemma demo_script_result grid :
  snd (script L grid)
  = match snd (for_enumerate (iteration L) (Np.zeros_like grid) 0%nat grid)
    with
    | Ok ds =>
        match snd (plots L grid ds) with
        | Ok _ => Ok ds
        | Raise e => Raise e
        end
    | Raise e => Raise e
    end.
Proof.
  unfold script. rewrite snd_bind.
  destruct (snd (for_enumerate _ _ _ _)) as [ds|e]; [|reflexivity].
  rewrite snd_bind. destruct (snd (plots L grid ds)); reflexivity.
Qed.

Lemma demo_script_clean grid : clean (script L grid).
Proof.
  destruct (demo_loop_clean grid) as [Hc _].
  unfold clean in *. rewrite demo_script_log, demo_script_result.
  destruct (snd (for_enumerate _ _ _ _)) as [ds|e].
  - destruct (savefig_cases L) as [Hdir|[e Hdir]].
    + destruct (demo_plots_Ok grid ds Hdir) as (-> & _ & Hr & _).
      rewrite raised_app, Hc, Hr. reflexivity.
    + destruct (demo_plots_Raise grid ds e Hdir) as (l & -> & _ & Hr & _).
      cbn [fst snd]. eexists (_ ++ l), _. rewrite app_assoc.
      split; [reflexivity|]. rewrite raised_app, Hc, Hr. reflexivity.
  - rewrite app_nil_r. exact Hc.
Qed.



End DemoRuns.

(** ** The ignition scan of ZNDDetPostShock.py *)

Section Scan.

Import ZND ZNDSpec.

Context {Ty : Types} (L : Library Ty).

Lemma scan_cons shockedtemp sim r d t ts :
  scan L shockedtemp sim r d (t :: ts)
  = match advance L sim r t with
    | Ok (sim', r') =>
        if gt (state_T0 L r') (shockedtemp + 150)%float
        then ([Called (Call_advance t) None], Ok (sim', r', Float t))
        else let '(log, res) := scan L shockedtemp sim' r' (Float t) ts in
             (Called (Call_advance t) None :: log, res)
    | Raise e => ([Called (Call_advance t) (Some e)], Raise e)
    end.
Proof.
  simpl. destruct (advance L sim r t) as [[sim' r']|e]; simpl; [|reflexivity].
  destruct (gt _ _); simpl; [reflexivity|].
  destruct (scan L shockedtemp sim' r' (Float t) ts). reflexivity.
Qed.

(** If the uncut integration first crosses the threshold at [t], the loop
    stops there: it has advanced to the time steps up to [t] and no
    further, and [det_time] is [t]. *)
Lemma scan_crossing shockedtemp ts :
  forall sim r d t r',
    find (ignited L shockedtemp) (trajectory L sim r ts) = Some (t, r') ->
    exists sim' before after,
      ts = before ++ t :: after
      /\ scan L shockedtemp sim r d ts
         = (advanced (before ++ [t]), Ok (sim', r', Float t))
      /\ find (ignited L shockedtemp) (trajectory L sim r before) = None.
Proof.
  induction ts as [|t0 ts IH]; intros sim r d t r' Hfind; [discriminate|].
  rewrite scan_cons. simpl in Hfind |- *.
  destruct (advance L sim r t0) as [[sim1 r1]|e] eqn:Hadv; [|discriminate].
  simpl in Hfind |- *. unfold ignited at 1 in Hfind.
  simpl in Hfind |- *.
  destruct (gt (state_T0 L r1) (shockedtemp + 150)%float) eqn:Hgt.
  - injection Hfind as <- <-. exists sim1, [], ts. simpl. auto.
  - destruct (IH sim1 r1 (Float t0) t r' Hfind)
      as (sim' & before & after & -> & Hscan & Hlen).
    exists sim', (t0 :: before), after. rewrite Hscan. simpl.
    rewrite Hadv. simpl. unfold ignited at 1. simpl. rewrite Hgt. auto.
Qed.

(** If every step integrates and none crosses, the loop runs through all
    time steps and [det_time] is the last of them. *)
Lemma scan_never shockedtemp ts :
  forall sim r d,
    length (trajectory L sim r ts) = length ts ->
    forallb (fun p => negb (ignited L shockedtemp p)) (trajectory L sim r ts)
    = true ->
    exists sim' r',
      scan L shockedtemp sim r d ts
      = (advanced ts,
         Ok (sim', r', match last ts with Some t => Float t | None => d end)).
Proof.
  induction ts as [|t0 ts IH]; intros sim r d Hlen Hall.
  - exists sim, r. reflexivity.
  - rewrite scan_cons. simpl in Hlen, Hall.
    destruct (advance L sim r t0) as [[sim1 r1]|e]; [|discriminate].
    simpl in Hlen, Hall. apply andb_true_iff in Hall as [Hno Hall].
    unfold ignited in Hno. simpl in Hno.
    apply negb_true_iff in Hno. rewrite Hno.
    injection Hlen as Hlen.
    destruct (IH sim1 r1 (Float t0) Hlen Hall) as (sim' & r' & ->).
    exists sim', r'. simpl. f_equal. f_equal. f_equal.
    destruct ts as [|t1 ts]; [reflexivity|].
    rewrite last_cons_cons. destruct (last (t1 :: ts)) eqn:E; [reflexivity|].
    apply last_None in E. discriminate.
Qed.

(** Whatever happens, [det_time] is the initial value or one of the time
    steps, and the loop only ever calls [advance], on a prefix of them. *)
Lemma scan_any shockedtemp ts :
  forall sim r d,
    let run := scan L shockedtemp sim r d ts in
    (forall sim' r' d', snd run = Ok (sim', r', d') ->
                        (d' = d /\ ts = [])
                        \/ exists t, In t ts /\ d' = Float t)
    /\ clean run
    /\ only_calls (fst run)
    /\ (exists n, advance_times (fst run) = take n ts)
    /\ calls (fst run) = map Call_advance (advance_times (fst run)).
Proof.
  induction ts as [|t0 ts IH]; intros sim r d run.
  - subst run. simpl. repeat split; auto.
    + intros ? ? ? [= _ _ <-]. auto.
    + constructor.
    + exists 0%nat. reflexivity.
  - subst run. rewrite scan_cons.
    destruct (advance L sim r t0) as [[sim1 r1]|e].
    + destruct (gt _ _).
      * repeat split; auto.
        -- intros ? ? ? [= _ _ <-]. right. exists t0. simpl. auto.
        -- repeat constructor.
        -- exists 1%nat. simpl. rewrite take_0. reflexivity.
      * destruct (IH sim1 r1 (Float t0)) as (Hd & Hc & Ho & [n Hn] & Hcalls).
        destruct (scan L shockedtemp sim1 r1 (Float t0) ts) as [log res].
        simpl in *. repeat split.
        -- intros sim' r' d' Hres. right.
           destruct (Hd sim' r' d' Hres) as [[-> ->]|(t & Ht & ->)];
             [exists t0|exists t]; simpl; auto.
        -- unfold clean in *. simpl in *. destruct res as [x|e]; [exact Hc|].
           destruct Hc as (l1 & c & -> & Hl1).
           exists (Called (Call_advance t0) None :: l1), c. auto.
        -- constructor; [exact I|exact Ho].
        -- exists (S n). simpl. rewrite Hn. reflexivity.
        -- rewrite Hcalls. reflexivity.
    + repeat split; auto.
      * intros ? ? ? [=].
      * unfold clean. simpl. exists [], (Call_advance t0). auto.
      * repeat constructor.
      * exists 1%nat. simpl. rewrite take_0. reflexivity.
Qed.

End Scan.

(** ** The time steps of ZNDDetPostShock.py *)

Section Timesteps.

Import ZND ZNDSpec.

Lemma arange_from_length start len : length (Np.arange_from start len) = len.
Proof.
  revert start. induction len as [|len IH]; intros start; simpl; auto.
Qed.

Lemma arange_from_seq start len :
  Np.arange_from start len
  = map (fun k => start + Z.of_nat k) (seq 0 len).
Proof.
  revert start. induction len as [|len IH]; intros start; [reflexivity|].
  simpl. rewrite Z.add_0_r. f_equal. rewrite IH, <- seq_shift, map_map.
  apply map_ext. intros k. lia.
Qed.

Lemma int64_wrap_small z :
  -9223372036854775808 <= z < 9223372036854775808 -> int64_wrap z = z.
Proof.
  intros [Hlo Hhi]. unfold int64_wrap.
  destruct (Z.leb_spec (-9223372036854775808) z); [|lia].
  destruct (Z.ltb_spec z 9223372036854775808); [reflexivity|lia].
Qed.

(** Line 52: the time steps are [1 * dt], [2 * dt], ..., [n_steps * dt]. *)
Lemma timesteps_seq :
  timesteps
  = map (fun k => step_time (Z.of_nat k + 1)) (seq 0 (Z.to_nat n_steps)).
Proof.
  unfold timesteps, Np.arange. rewrite arange_from_seq, !map_map.
  apply map_ext_in. intros k Hk. apply in_seq in Hk.
  unfold step_time. rewrite int64_wrap_small; [reflexivity|].
  unfold n_steps in Hk. lia.
Qed.

Lemma timesteps_length : length timesteps = Z.to_nat n_steps.
Proof. rewrite timesteps_seq, length_map, length_seq. reflexivity. Qed.

Lemma timesteps_window :
  forallb (fun t => PrimFloat.ltb 0 t && PrimFloat.leb t 0.25) timesteps = true.
Proof. vm_compute. reflexivity. Qed.

Lemma timesteps_last : last timesteps = Some 0.25%float.
Proof. vm_compute. reflexivity. Qed.

Lemma dt_value : dt = (0.25 / 300000)%float.
Proof. reflexivity. Qed.

(** A prefix of the time steps, cut after the one of index [i]. *)
Lemma timesteps_prefix before t after :
  timesteps = before ++ t :: after ->
  exists i : nat,
    (Z.of_nat i < n_steps)
    /\ t = step_time (Z.of_nat i + 1)
    /\ before ++ [t]
       = map (fun k => step_time (Z.of_nat k + 1)) (seq 0 (S i)).
Proof.
  intros Hts. exists (length before).
  assert (Hlen : (length before < Z.to_nat n_steps)%nat).
  { rewrite <- timesteps_length, Hts, length_app. simpl. lia. }
  assert (Htake : before ++ [t] = take (S (length before)) timesteps).
  { rewrite Hts.
    replace (before ++ t :: after) with ((before ++ [t]) ++ after)
      by (rewrite <- app_assoc; reflexivity).
    symmetry. apply take_app_length'.
    rewrite length_app. simpl. lia. }
  assert (Hpre : before ++ [t]
                 = map (fun k => step_time (Z.of_nat k + 1))
                     (seq 0 (S (length before)))).
  { rewrite Htake, timesteps_seq, firstn_map. f_equal.
    rewrite take_seq. f_equal. lia. }
  split; [lia|]. split; [|exact Hpre].
  rewrite seq_S, map_app in Hpre. simpl in Hpre.
  apply app_inj_tail in Hpre as [_ Ht]. exact Ht.
Qed.

End Timesteps.

(** ** ZNDDetPostShock.py as a whole *)

Section ZNDRuns.

Import ZND ZNDSpec.

Context {Ty : Types} (L : Library Ty).

Lemma setup_clean : clean (setup L).
Proof. unfold setup. clean_steps. Qed.

Lemma setup_quiet : computes_and_prints (fst (setup L)).
Proof. unfold setup. quiet_steps. Qed.

Lemma setup_paired : paired_log L (fst (setup L)).
Proof.
  intros prev. unfold setup. case_calls.
  all: cbn; repeat split; eauto.
Qed.

Lemma setup_no_advance : advance_times (fst (setup L)) = [].
Proof.
  unfold setup. case_calls; reflexivity.
Qed.

Lemma setup_no_delay : printed delay_template (fst (setup L)) = [].
Proof.
  unfold setup. case_calls; reflexivity.
Qed.

(** The three ways the script can end. *)
Lemma znd_script_run ts :
  match setup L with
  | (log0, Ok s) =>
      match scan L (shockedtemp s) (sim1 s) (r1 s) (Int 0) ts with
      | (log1, Ok (_, _, d)) =>
          script L ts
          = (log0 ++ log1 ++ [Print delay_template [VNum d]], Ok d)
      | (log1, Raise e) => script L ts = (log0 ++ log1, Raise e)
      end
  | (log0, Raise e) => script L ts = (log0, Raise e)
  end.
Proof.
  unfold script. destruct (setup L) as [log0 [s|e]]; simpl; [|reflexivity].
  destruct (scan L _ _ _ _ ts) as [log1 [[[sim' r'] d]|e]]; reflexivity.
Qed.

End ZNDRuns.

Section ZNDScript.

Import ZND ZNDSpec.

Context {Ty : Types} (L : Library Ty).

Lemma ZND_main_eq : main L = script L timesteps.
Proof. reflexivity. Qed.

Lemma advanced_times ts : advance_times (@advanced Ty ts) = ts.
Proof. induction ts as [|t ts IH]; simpl; [|rewrite IH]; reflexivity. Qed.

Lemma advanced_raised ts : raised (@advanced Ty ts) = [].
Proof. induction ts as [|t ts IH]; simpl; auto. Qed.

Lemma advanced_printed tmpl ts : printed tmpl (@advanced Ty ts) = [].
Proof. induction ts as [|t ts IH]; simpl; auto. Qed.

Lemma setup_Ok_raised log0 s : setup L = (log0, Ok s) -> raised log0 = [].
Proof.
  intros H. pose proof (setup_clean L) as Hc. unfold clean in Hc.
  rewrite H in Hc. exact Hc.
Qed.

Lemma znd_script_crossing ts log0 s t :
  setup L = (log0, Ok s) -> first_crossing L s ts = Some t ->
  exists before after,
    ts = before ++ t :: after
    /\ script L ts
       = (log0 ++ advanced (before ++ [t])
            ++ [Print delay_template [VNum (Float t)]],
          Ok (Float t)).
Proof.
  intros Hsetup Hfirst. unfold first_crossing in Hfirst.
  destruct (find _ _) as [[t' r']|] eqn:Hfind; [|discriminate].
  injection Hfirst as ->.
  destruct (scan_crossing L (shockedtemp s) ts (sim1 s) (r1 s) (Int 0) t r'
              Hfind) as (sim' & before & after & Hts & Hscan & _).
  exists before, after. split; [exact Hts|].
  pose proof (znd_script_run L ts) as Hrun.
  rewrite Hsetup, Hscan in Hrun. exact Hrun.
Qed.

Lemma znd_script_never ts log0 s :
  setup L = (log0, Ok s) -> never_crosses L s ts = true ->
  let d := match last ts with Some t => Float t | None => Int 0 end in
  script L ts
  = (log0 ++ advanced ts ++ [Print delay_template [VNum d]], Ok d).
Proof.
  intros Hsetup Hnever d. unfold never_crosses in Hnever.
  apply andb_true_iff in Hnever as [Hlen Hall].
  apply Nat.eqb_eq in Hlen.
  destruct (scan_never L (shockedtemp s) ts (sim1 s) (r1 s) (Int 0) Hlen Hall)
    as (sim' & r' & Hscan).
  pose proof (znd_script_run L ts) as Hrun.
  rewrite Hsetup, Hscan in Hrun. exact Hrun.
Qed.

(** Whenever the script prints a delay, it is one of the time steps. *)
Lemma znd_script_delay ts d :
  ts <> [] -> snd (script L ts) = Ok d -> exists t, In t ts /\ d = Float t.
Proof.
  intros Hts Hd. pose proof (znd_script_run L ts) as Hrun.
  destruct (setup L) as [log0 [s|e]];
    [|rewrite Hrun in Hd; discriminate].
  pose proof (scan_any L (shockedtemp s) ts (sim1 s) (r1 s) (Int 0))
    as (Hany & _).
  destruct (scan L _ _ _ _ ts) as [log1 [[[sim' r'] d']|e]];
    rewrite Hrun in Hd; [|discriminate].
  injection Hd as <-.
  destruct (Hany sim' r' d' eq_refl) as [[_ ?]|H]; [contradiction|exact H].
Qed.

(** In every run the times integrated to are a prefix of the time steps. *)
Lemma znd_script_steps ts :
  exists n, advance_times (fst (script L ts)) = take n ts.
Proof.
  pose proof (znd_script_run L ts) as Hrun.
  pose proof (setup_no_advance L) as H0.
  destruct (setup L) as [log0 [s|e]]; simpl in H0.
  - pose proof (scan_any L (shockedtemp s) ts (sim1 s) (r1 s) (Int 0))
      as (_ & _ & _ & [n Hn] & _).
    destruct (scan L _ _ _ _ ts) as [log1 [[[sim' r'] d']|e]];
      rewrite Hrun; simpl in *; exists n;
      rewrite !advance_times_app, H0, Hn; simpl;
      rewrite ?app_nil_r; reflexivity.
  - rewrite Hrun. exists 0%nat. simpl. rewrite H0, take_0. reflexivity.
Qed.

End ZNDScript.

(** ** The ignition-delay scan (claims C2 and C9) *)

(** C2.  The time steps of ZNDDetPostShock.py are t_i = i * dt for
    i = 1..300000 with dt = 0.25 / 300000, and every run integrates to a
    prefix of them, in order.  If the reactor temperature first exceeds
    the post-shock temperature plus 150 K at time step t, the loop exits
    there: the script has integrated to t_1, ..., t_i = t and no further,
    raises nothing, and the delay it prints is t. *)
Theorem ignition_delay_is_first_crossing (Ty : Types) (L : Library Ty) :
  ZND.dt = (0.25 / 300000)%float
  /\ ZND.timesteps
     = map (fun k => ZNDSpec.step_time (Z.of_nat k + 1))
         (seq 0 (Z.to_nat 300000))
  /\ (exists n, advance_times (fst (ZND.main L)) = take n ZND.timesteps)
  /\ forall t,
      ZNDSpec.ignition_time L = Some t ->
      snd (ZND.main L) = Ok (Float t)
      /\ printed ZNDSpec.delay_template (fst (ZND.main L)) = [[VNum (Float t)]]
      /\ raised (fst (ZND.main L)) = []
      /\ exists i : nat,
          Z.of_nat i < 300000
          /\ t = ZNDSpec.step_time (Z.of_nat i + 1)
          /\ advance_times (fst (ZND.main L))
             = map (fun k => ZNDSpec.step_time (Z.of_nat k + 1)) (seq 0 (S i)).
Proof.
  split; [exact dt_value|]. split; [exact timesteps_seq|].
  split; [rewrite ZND_main_eq; apply znd_script_steps|].
  intros t Hign. unfold ZNDSpec.ignition_time in Hign.
  rewrite ZND_main_eq.
  destruct (ZND.setup L) as [log0 [s|e]] eqn:Hsetup; [|discriminate].
  cbn [snd] in Hign.
  destruct (znd_script_crossing L _ log0 s t Hsetup Hign)
    as (before & after & Hts & Hrun).
  pose proof (setup_no_advance L) as Hadv0.
  pose proof (setup_no_delay L) as Hdel0.
  rewrite Hsetup in Hadv0, Hdel0. cbn [fst] in Hadv0, Hdel0.
  rewrite Hrun. cbn [fst snd].
  split; [reflexivity|]. split; [|split].
  - rewrite !printed_app, Hdel0, advanced_printed. reflexivity.
  - rewrite !raised_app, (setup_Ok_raised L _ _ Hsetup), advanced_raised.
    reflexivity.
  - destruct (timesteps_prefix before t after Hts) as (i & Hi & Ht & Hpre).
    exists i. split; [exact Hi|]. split; [exact Ht|].
    rewrite !advance_times_app, Hadv0, advanced_times. simpl.
    rewrite app_nil_r. exact Hpre.
Qed.

(** Against the stand-in library, whose reactor heats by 1 K per step from
    1500 K, the threshold of 1650 K is first exceeded at step 151. *)
Lemma ignition_delay_witness :
  ZNDSpec.ignition_time (Stub.library 1 false None)
  = Some (ZNDSpec.step_time 151)
  /\ snd (ZND.main (Stub.library 1 false None))
     = Ok (Float (ZNDSpec.step_time 151)).
Proof.
  assert (H : ZNDSpec.ignition_time (Stub.library 1 false None)
              = Some (ZNDSpec.step_time 151))
    by (vm_compute; reflexivity).
  split; [exact H|].
  apply (ignition_delay_is_first_crossing Stub.types
           (Stub.library 1 false None)). exact H.
Defined.

(** C9.  If every one of the 300000 steps integrates and none reaches the
    threshold, the script ends normally: after the lines of the set-up it
    has integrated to every time step and printed a single further line,
    the delay, which is 0.25.  Whenever the script ends normally the
    delay it printed lies in (0, 0.25]. *)
Theorem no_ignition_prints_full_window (Ty : Types) (L : Library Ty) :
  (ZNDSpec.no_ignition L = true ->
   snd (ZND.main L) = Ok (Float 0.25)
   /\ fst (ZND.main L)
      = fst (ZND.setup L) ++ ZNDSpec.advanced ZND.timesteps
        ++ [Print ZNDSpec.delay_template [VNum (Float 0.25)]]
   /\ raised (fst (ZND.main L)) = [])
  /\ (forall d, snd (ZND.main L) = Ok d -> ZNDSpec.in_window d = true).
Proof.
  split.
  - intros Hno. unfold ZNDSpec.no_ignition in Hno. rewrite ZND_main_eq.
    destruct (ZND.setup L) as [log0 [s|e]] eqn:Hsetup; [|discriminate].
    cbn [snd] in Hno.
    pose proof (znd_script_never L _ log0 s Hsetup Hno) as Hrun.
    cbv zeta in Hrun. rewrite timesteps_last in Hrun. rewrite Hrun.
    cbn [fst snd]. split; [reflexivity|]. split; [reflexivity|].
    rewrite !raised_app, (setup_Ok_raised L _ _ Hsetup), advanced_raised.
    reflexivity.
  - intros d Hd. rewrite ZND_main_eq in Hd.
    apply znd_script_delay in Hd as (t & Ht & ->).
    + pose proof timesteps_window as Hw.
      rewrite forallb_forall in Hw. apply (Hw t Ht).
    + intros Hnil. pose proof timesteps_length as Hlen.
      rewrite Hnil in Hlen. cbn [length] in Hlen.
      unfold ZND.n_steps in Hlen. lia.
Qed.

(** Against the stand-in library with a reactor that does not heat. *)
Lemma no_ignition_witness :
  ZNDSpec.no_ignition (Stub.library 0 false None) = true
  /\ snd (ZND.main (Stub.library 0 false None)) = Ok (Float 0.25).
Proof.
  assert (H : ZNDSpec.no_ignition (Stub.library 0 false None) = true)
    by (vm_compute; reflexivity).
  split; [exact H|].
  apply (no_ignition_prints_full_window Stub.types
           (Stub.library 0 false None)). exact H.
Defined.

(** ** The composition mapping (claim C3) *)

(** C3, as amended.  In each script the mapping built from a fuel
    percentage h assigns C3H8 = h, O2 = (total - h) * 0.21 and
    N2 = (total - h) * 0.79, each operation rounded to binary64
    (total = 100 in DetProperties.py and demo_CJstate.py, total = 1 in
    ZNDDetPostShock.py).  For every fuel percentage the scripts use, the
    three components sum to the total up to a relative error of at most
    2^-52, and O2 : N2 is 21 : 79 up to a relative error of at most
    2^-51; for the last but one composition of DetProperties.py the
    error of the ratio is above 2^-52. *)
Theorem composition_from_fuel_percentage :
  (forall total h,
      make_q total h
      = [("C3H8", h);
         ("O2", ((of_int total - h) * 0.21)%float);
         ("N2", ((of_int total - h) * 0.79)%float)]%string)
  /\ ZND.q = make_q 1 0.092
  /\ forallb (q_balanced 100) DetProperties.compositions = true
  /\ forallb (q_balanced 100) DemoCJstate.compositions = true
  /\ q_balanced 1 ZND.HC_comp = true
  /\ (exists h, DetProperties.compositions !! 28%nat = Some h
                /\ q_ratio_within_2_52 100 h = false).
Proof.
  split; [reflexivity|]. split; [reflexivity|].
  split; [vm_compute; reflexivity|]. split; [vm_compute; reflexivity|].
  split; [vm_compute; reflexivity|].
  eexists. split; vm_compute; reflexivity.
Qed.

(** C3 as stated fails on the fourth composition of DetProperties.py,
    2.924137931034483: the three components do not add up to 100, neither
    as exact numbers nor when added in binary64 (which gives
    100.00000000000001); and on the second one, 2.4413793103448276,
    O2 : N2 is not 21 : 79. *)
Lemma composition_sum_is_not_exact :
  DetProperties.compositions !! 3%nat = Some 2.924137931034483%float
  /\ q_sums_exactly 100 (make_q 100 2.924137931034483) = false
  /\ q_sums_in_binary64 100 (make_q 100 2.924137931034483) = false
  /\ DetProperties.compositions !! 1%nat = Some 2.4413793103448276%float
  /\ q_ratio_exact (make_q 100 2.4413793103448276) = false.
Proof. repeat split; vm_compute; reflexivity. Qed.

(** ** The constant of line 91 (claim C10) *)

Section DcalcRuns.

Import DetProperties DetSpec.

Context {Ty : Types} (L : Library Ty).

Lemma dcalc_lines_nil : dcalc_lines L [].
Proof. constructor. Qed.

Lemma dcalc_lines_app log1 log2 :
  dcalc_lines L log1 -> dcalc_lines L log2 -> dcalc_lines L (log1 ++ log2).
Proof.
  unfold dcalc_lines. intros H1 H2. rewrite printed_app.
  apply Forall_app; auto.
Qed.

Lemma iteration_dcalc IC st idx h :
  printed dcalc_template (fst (iteration L IC st idx h))
  = match snd (compute L IC h) with
    | Ok _ => [[VFloat (Dcalc_expr L)]]
    | Raise _ => []
    end.
Proof.
  rewrite iteration_log, printed_app.
  rewrite (only_calls_printed _ _ (compute_only_calls L IC h)).
  destruct (compute L IC h) as [log [v|e]] eqn:Hc; [|reflexivity].
  apply compute_Ok_inv in Hc as (p & g0 & g1 & g1' & g2 & g3 & Hc).
  do 18 apply proj2 in Hc. apply proj1 in Hc.
  cbn [snd]. change (printed dcalc_template (fst (report L v)))
    with [[@VFloat Ty (Dcalc v)]]. rewrite Hc. reflexivity.
Qed.

Lemma sweep_dcalc grid st : dcalc_lines L (fst (sweep L grid st)).
Proof.
  unfold sweep.
  apply (holds_for_enumerate (dcalc_lines L) dcalc_lines_nil dcalc_lines_app).
  intros s IC _.
  apply (holds_for_enumerate (dcalc_lines L) dcalc_lines_nil dcalc_lines_app).
  intros s' idx h. unfold dcalc_lines. rewrite iteration_dcalc.
  destruct (snd (compute L IC h)); repeat constructor.
Qed.

Lemma plots_printed tmpl grid st : printed tmpl (fst (plots L grid st)) = [].
Proof.
  set (P := fun l : list (event Ty) => printed tmpl l = []).
  assert (Hnil : P []) by reflexivity.
  assert (Happ : forall l1 l2, P l1 -> P l2 -> P (l1 ++ l2)).
  { unfold P. intros l1 l2 H1 H2. rewrite printed_app, H1, H2. reflexivity. }
  change (P (fst (plots L grid st))).
  unfold plots, plot_rows, finish, savefig.
  along_binds P Hnil Happ; reflexivity.
Qed.

Lemma sweep_dcalc_count grid log st st' :
  shape (length grid) st ->
  sweep L grid st = (log, Ok st') ->
  length (printed dcalc_template log) = (length grid * 3)%nat.
Proof.
  intros Hst Hrun. unfold sweep in Hrun.
  apply (for_enumerate_count _ (printed dcalc_template) (length grid)
           (printed_app dcalc_template) eq_refl) in Hrun; [exact Hrun|].
  intros s IC x l s' Hinner.
  apply (for_enumerate_count _ (printed dcalc_template) 1
           (printed_app dcalc_template) eq_refl) in Hinner;
    [rewrite Hinner; lia|].
  intros s1 idx h l1 s1' Hpass.
  replace l1 with (fst (iteration L IC s1 idx h)) by (rewrite Hpass; reflexivity).
  rewrite iteration_dcalc.
  unfold iteration in Hpass.
  apply bind_Ok_inv in Hpass as (l2 & v & l3 & Hc & _). rewrite Hc. reflexivity.
Qed.

End DcalcRuns.

(** C10.  Every 'Calc 2700K Det Speed' line of a run of DetProperties.py
    is given one and the same value,
    (1.29 + 1) / 1.29 * np.power(1.29 * 8314 * 2700 / 28, 0.5), that is
    1.7751937984496124 * np.power(1034202.2142857143, 0.5); it is the same
    for any two libraries whose [np.power] agrees, whatever the solvers
    return; a run that ends normally prints it 90 times. *)
Theorem Dcalc_is_one_constant (Ty : Types) (L : Library Ty) :
  Forall (fun args => args = [VFloat (DetProperties.Dcalc_expr L)])
    (printed DetSpec.dcalc_template (fst (DetProperties.main L)))
  /\ DetProperties.Dcalc_expr L
     = (1.7751937984496124 * np_power L 1034202.2142857143 0.5)%float
  /\ (forall Ty' (L' : Library Ty'),
         (forall x y, np_power L' x y = np_power L x y) ->
         DetProperties.Dcalc_expr L' = DetProperties.Dcalc_expr L)
  /\ (forall st,
         snd (DetProperties.main L) = Ok st ->
         printed DetSpec.dcalc_template (fst (DetProperties.main L))
         = repeat [VFloat (DetProperties.Dcalc_expr L)] 90).
Proof.
  rewrite DetProperties_main_eq.
  assert (Hall : DetSpec.dcalc_lines L
                   (fst (DetProperties.script L DetProperties.compositions))).
  { destruct (script_cases L DetProperties.compositions)
      as [(e & He & ->)
         |[(log1 & log2 & st & Hsweep & Hplots & -> & _)
          |(log1 & log2 & st & e & Hsweep & -> & _ & _ & _ & Hprinted & _)]];
      cbn [fst].
    - apply sweep_dcalc.
    - apply dcalc_lines_app.
      + replace log1
          with (fst (DetProperties.sweep L DetProperties.compositions
                       (DetProperties.allocate DetProperties.compositions)))
          by (rewrite Hsweep; reflexivity).
        apply sweep_dcalc.
      + unfold DetSpec.dcalc_lines.
        replace log2
          with (fst (DetProperties.plots L DetProperties.compositions st))
          by (rewrite Hplots; reflexivity).
        rewrite plots_printed. constructor.
    - apply dcalc_lines_app.
      + replace log1
          with (fst (DetProperties.sweep L DetProperties.compositions
                       (DetProperties.allocate DetProperties.compositions)))
          by (rewrite Hsweep; reflexivity).
        apply sweep_dcalc.
      + unfold DetSpec.dcalc_lines.
        rewrite printed_app, Hprinted. constructor. }
  split; [exact Hall|]. split; [reflexivity|]. split.
  - intros Ty' L' Hpow. unfold DetProperties.Dcalc_expr. rewrite Hpow.
    reflexivity.
  - intros st Hrun.
    destruct (script_Ok L _ st Hrun) as (log1 & log2 & Hsweep & Hplots & Hlog & _).
    assert (Hn : length (printed DetSpec.dcalc_template
                           (fst (DetProperties.script L
                                   DetProperties.compositions))) = 90%nat).
    { rewrite Hlog, printed_app, length_app.
      rewrite (sweep_dcalc_count L _ _ _ _ (shape_allocate _) Hsweep).
      replace log2
        with (fst (DetProperties.plots L DetProperties.compositions st))
        by (rewrite Hplots; reflexivity).
      rewrite plots_printed, compositions_length. reflexivity. }
    unfold DetSpec.dcalc_lines in Hall. revert Hn Hall.
    generalize (printed DetSpec.dcalc_template
                  (fst (DetProperties.script L DetProperties.compositions))).
    intros l Hn Hall. rewrite <- Hn. clear Hn.
    induction Hall as [|x l -> _ IH]; simpl; [reflexivity|].
    f_equal. exact IH.
Qed.

(** Against the stand-in library the run ends normally and prints the
    value 90 times. *)
Lemma Dcalc_witness :
  printed DetSpec.dcalc_template
    (fst (DetProperties.main (Stub.library 1 false None)))
  = repeat [VFloat (DetProperties.Dcalc_expr (Stub.library 1 false None))] 90.
Proof.
  assert (H : exists st,
             snd (DetProperties.main (Stub.library 1 false None)) = Ok st)
    by (eexists; vm_compute; reflexivity).
  destruct H as [st H].
  apply (Dcalc_is_one_constant Stub.types (Stub.library 1 false None)) in H.
  exact H.
Defined.

(** ** Binary64 subtraction within a factor of two

    The operations on [float] are specified by [SFadd] and [SFsub] on
    mantissas and exponents; for two positive numbers within a factor of
    two of each other the subtraction is exact. *)

Section Binary64.


















End Binary64.





(** ** The derived quantities (claim C4) *)




(** ** Whole-script facts used by the claims on calls, errors and files *)

Section WholeScripts.

Context {Ty : Types} (L : Library Ty).

Lemma paired_advances prev ts : paired L prev (map Call_advance ts).
Proof.
  revert prev. induction ts as [|t ts IH]; intros prev; simpl; auto.
Qed.



Lemma ZND_script_facts ts :
  clean (ZND.script L ts)
  /\ paired_log L (fst (ZND.script L ts))
  /\ computes_and_prints (fst (ZND.script L ts)).
Proof.
  pose proof (znd_script_run L ts) as Hrun.
  pose proof (setup_clean L) as Hc0.
  pose proof (setup_paired L) as Hp0.
  pose proof (setup_quiet L) as Hq0.
  destruct (ZND.setup L) as [log0 [s|e]]; cbn [fst snd] in *.
  - pose proof (scan_any L (ZND.shockedtemp s) ts (ZND.sim1 s) (ZND.r1 s)
                  (Int 0)) as (_ & Hc1 & Ho1 & _ & Hcalls).
    assert (Hp1 : paired_log L
                    (fst (ZND.scan L (ZND.shockedtemp s) (ZND.sim1 s)
                            (ZND.r1 s) (Int 0) ts))).
    { intros prev. cbv zeta in Hcalls. rewrite Hcalls.
      apply paired_advances. }
    cbv zeta in Hc1, Ho1.
    destruct (ZND.scan L _ _ _ _ ts) as [log1 [[[sim' r'] d]|e]];
      rewrite Hrun; unfold clean in *; cbn [fst snd] in *.
    + split; [|split].
      * rewrite !raised_app, Hc0, Hc1. reflexivity.
      * apply paired_log_app; [exact Hp0|].
        apply paired_log_app; [exact Hp1|].
        apply paired_log_no_calls. reflexivity.
      * apply computes_and_prints_app; [exact Hq0|].
        apply computes_and_prints_app; [apply only_calls_quiet, Ho1|].
        repeat constructor.
    + split; [|split].
      * destruct Hc1 as (l1 & c & -> & Hl1). exists (log0 ++ l1), c.
        rewrite raised_app, Hc0, Hl1, app_assoc. auto.
      * apply paired_log_app; assumption.
      * apply computes_and_prints_app; [exact Hq0|].
        apply only_calls_quiet, Ho1.
  - rewrite Hrun. cbn [fst snd]. auto.
Qed.

End WholeScripts.

Lemma DemoCJstate_main_eq {Ty} (L : Library Ty) :
  DemoCJstate.main L = DemoCJstate.script L DemoCJstate.compositions.
Proof. reflexivity. Qed.

(** ** Errors are not handled (claim C5) *)

(** C5.  No script handles an exception.  In every run of each script, a
    library call that raises is the last thing the script does and the
    script ends with that very exception, so nothing is retried and no
    recovery path runs; and a script that ends with an exception ends so
    at a library call, so the script itself rejects no value: what it is
    given goes to the library unchecked. *)
Theorem no_error_handling (Ty : Types) (L : Library Ty) :
  unhandled (DetProperties.main L)
  /\ unhandled (DemoCJstate.main L)
  /\ unhandled (ZND.main L).
Proof.
  rewrite DetProperties_main_eq, DemoCJstate_main_eq, ZND_main_eq.
  split; [|split]; apply clean_unhandled.
  - apply script_clean.
  - apply demo_script_clean.
  - apply ZND_script_facts.
Qed.

(** With a mechanism the library cannot load, each script ends at its
    first library call with the exception that call raised. *)
Lemma no_error_handling_witness :
  DetProperties.main (Stub.library 1 true None)
  = ([Called (Call_Solution "gri30.cti")
        (Some (LibraryError "no such mechanism"))],
     Raise (LibraryError "no such mechanism"))
  /\ snd (ZND.main (Stub.library 1 true None))
     = Raise (LibraryError "no such mechanism").
Proof.
  assert (H : DetProperties.main (Stub.library 1 true None)
              = ([Called (Call_Solution "gri30.cti")
                    (Some (LibraryError "no such mechanism"))],
                 Raise (LibraryError "no such mechanism")))
    by (vm_compute; reflexivity).
  split; [exact H|].
  assert (Hz : exists log1 c log2,
             fst (ZND.main (Stub.library 1 true None))
             = log1 ++ Called c (Some (LibraryError "no such mechanism"))
                 :: log2)
    by (exists (firstn 3 (fst (ZND.main (Stub.library 1 true None)))),
          (Call_Solution "gri30.cti"), []; vm_compute; reflexivity).
  destruct Hz as (log1 & c & log2 & Hz).
  destruct (no_error_handling Stub.types (Stub.library 1 true None))
    as (_ & _ & Hzn & _).
  exact (proj2 (Hzn log1 c _ log2 Hz)).
Defined.

(** ** Post-shock calls (claim C6) *)



(** ** Files and console (claim C7) *)



(** ** The passes of DetProperties.py run in loop order *)

Section LoopOrder.

Import DetProperties DetSpec.

Context {Ty : Types} (L : Library Ty).

(** A loop that ends normally logs what its passes log, in order. *)
Lemma for_enumerate_concat {St A B} (body : St -> nat -> A -> M Ty St)
  (f : list (event Ty) -> list B) (g : nat -> A -> list B) :
  (forall l1 l2, f (l1 ++ l2) = f l1 ++ f l2) -> f [] = [] ->
  (forall s i x l s', body s i x = (l, Ok s') -> f l = g i x) ->
  forall xs st i log st',
    for_enumerate body st i xs = (log, Ok st') ->
    f log = concat (imap (fun k x => g (i + k)%nat x) xs).
Proof.
  intros Happ Hnil Hbody xs.
  induction xs as [|x xs IH]; intros st i log st' Hrun; simpl in *.
  - injection Hrun as <- <-. exact Hnil.
  - apply bind_Ok_inv in Hrun as (l1 & s1 & l2 & Hb & Hrest & ->).
    rewrite Happ, (Hbody _ _ _ _ _ Hb), (IH _ _ _ _ Hrest), Nat.add_0_r.
    f_equal. f_equal. apply imap_ext. intros k y _. simpl. f_equal. lia.
Qed.

Lemma imap_unindexed {A B} (g : A -> B) (xs : list A) :
  imap (fun k x => g x) xs = map g xs.
Proof.
  induction xs as [|x xs IH]; [reflexivity|].
  simpl. f_equal. exact IH.
Qed.

Lemma cj_arguments_app cs1 cs2 :
  cj_arguments (cs1 ++ cs2) = cj_arguments cs1 ++ cj_arguments cs2.
Proof. apply flat_map_app. Qed.

Lemma iteration_cj_arguments IC st idx h l st' :
  iteration L IC st idx h = (l, Ok st') ->
  cj_arguments (calls l) = pass_arguments IC h.
Proof.
  intros Hrun.
  replace l with (fst (iteration L IC st idx h)) by (rewrite Hrun; reflexivity).
  rewrite iteration_log. unfold iteration in Hrun.
  apply bind_Ok_inv in Hrun as (l1 & v & l2 & Hc & _).
  rewrite Hc. cbn [fst snd]. rewrite calls_app, cj_arguments_app.
  apply compute_Ok_inv in Hc
    as (p & g0 & g1 & g1' & g2 & g3 & Hp & HT & HP1 & Hq & Hc).
  do 16 apply proj2 in Hc. rewrite Hc.
  unfold pass_arguments. rewrite Hp, HT, HP1, Hq. reflexivity.
Qed.

Lemma pass_arguments_row IC grid :
  flat_map (pass_arguments IC) grid
  = match initpress !! IC, inittemp !! IC with
    | Some p, Some T =>
        map (fun h => (Int (int64_wrap (p * 1000)), Int T, make_q 100 h)) grid
    | _, _ => []
    end.
Proof.
  unfold pass_arguments.
  destruct (initpress !! IC) as [p|], (inittemp !! IC) as [T|];
    induction grid as [|h hs IH]; simpl; try rewrite IH; reflexivity.
Qed.

Lemma sweep_in_loop_order grid log st st' :
  sweep L grid st = (log, Ok st') ->
  cj_arguments (calls log) = in_loop_order grid.
Proof.
  intros Hrun. unfold sweep in Hrun.
  apply (for_enumerate_concat _ (fun l => cj_arguments (calls l))
           (fun IC _ => flat_map (pass_arguments IC) grid)) in Hrun.
  - rewrite Hrun.
    change (concat (imap (fun k (_ : Z) =>
                            flat_map (pass_arguments (0 + k)) grid) inittemp))
      with (flat_map (pass_arguments 0) grid
            ++ flat_map (pass_arguments 1) grid
            ++ flat_map (pass_arguments 2) grid ++ []).
    rewrite !pass_arguments_row, app_nil_r. reflexivity.
  - intros l1 l2. rewrite calls_app. apply cj_arguments_app.
  - reflexivity.
  - intros s IC x l s' Hinner.
    apply (for_enumerate_concat _ (fun l => cj_arguments (calls l))
             (fun _ h => pass_arguments IC h)) in Hinner.
    + rewrite Hinner, flat_map_concat_map. f_equal. apply imap_unindexed.
    + intros l1 l2. rewrite calls_app. apply cj_arguments_app.
    + reflexivity.
    + intros s1 idx h l1 s1' Hpass. eapply iteration_cj_arguments; eauto.
Qed.

End LoopOrder.

(** ** The result arrays (claim C1) *)

(** C1, as amended.  In a run of DetProperties.py that ends normally, all
    seven arrays are 3 x 30, in parallel with the three initial states and
    the thirty compositions.  The five arrays the loop assigns to
    (detonation_speed, detonation_mach, product_temp, product_press,
    product_specificheat) hold in entry [IC, idx] the scalar derived for
    the IC-th initial state and the idx-th composition, and each of their
    rows is handed to a plotting call; the fifteen curves plotted are rows
    of these five arrays and of no other.  The passes run in loop order:
    the initial states in turn and, for each, the compositions in turn.
    The two other arrays (detionation_speed, calc_detspeed) are still all
    zeros. *)
Theorem result_arrays_filled_and_plotted
  (Ty : Types) (L : Library Ty) (st : DetProperties.arrays) :
  snd (DetProperties.main L) = Ok st ->
  DetSpec.shape 30 st
  /\ (forall name,
         DetSpec.assigned name = true ->
         DetSpec.filled L DetProperties.compositions name st
         /\ DetSpec.consumed name st (fst (DetProperties.main L)))
  /\ (forall name,
         DetSpec.assigned name = false ->
         DetSpec.select name st = repeat (repeat 0%float 30) 3)
  /\ DetSpec.cj_arguments (calls (fst (DetProperties.main L)))
     = DetSpec.in_loop_order DetProperties.compositions
  /\ plotted (fst (DetProperties.main L))
     = DetSpec.curves DetProperties.compositions st.
Proof.
  intros Hrun. rewrite DetProperties_main_eq in *.
  destruct (script_Ok L _ st Hrun)
    as (log1 & log2 & Hsweep & Hplots & Hlog & Hswept & Hcurves & _ & Hnone).
  pose proof Hswept as (Hshape & Hkeep & _).
  rewrite compositions_length in Hshape.
  split; [exact Hshape|].
  split; [|split; [|split; [|exact Hcurves]]]; cycle 2.
  { rewrite Hlog, calls_app, cj_arguments_app, Hnone.
    cbn [map DetSpec.fignames DetSpec.cj_arguments flat_map app].
    rewrite app_nil_r. eapply sweep_in_loop_order. exact Hsweep. }
  - intros name Hname. split.
    + apply swept_filled; assumption.
    + apply (curves_consumed DetProperties.compositions); auto.
  - intros name Hname. rewrite (Hkeep name Hname).
    destruct name; try discriminate; reflexivity.
Qed.

(** The theorem applies to the run against the stand-in library. *)
Lemma result_arrays_witness :
  exists st,
    snd (DetProperties.main (Stub.library 1 false None)) = Ok st
    /\ DetSpec.shape 30 st
    /\ plotted (fst (DetProperties.main (Stub.library 1 false None)))
       = DetSpec.curves DetProperties.compositions st.
Proof.
  eexists. split; [vm_compute; reflexivity|].
  split;
    eapply (result_arrays_filled_and_plotted Stub.types
              (Stub.library 1 false None));
    vm_compute; reflexivity.
Defined.

(** C1 as stated fails: against the stand-in library the run ends
    normally, yet entry [0, 0] of calc_detspeed is 0 and not the
    [Dcalc] of that pass. *)
Lemma not_every_array_is_filled :
  ~ (forall st,
        snd (DetProperties.main (Stub.library 1 false None)) = Ok st ->
        forall name,
          DetSpec.filled (Stub.library 1 false None)
            DetProperties.compositions name st
          /\ DetSpec.consumed name st
               (fst (DetProperties.main (Stub.library 1 false None)))).
Proof.
  intros H.
  assert (Hok : exists st,
             snd (DetProperties.main (Stub.library 1 false None)) = Ok st)
    by (eexists; vm_compute; reflexivity).
  destruct Hok as [st E]. rewrite DetProperties_main_eq in E, H.
  destruct (H st E DetSpec.calc_detspeed_) as [Hfilled _].
  destruct (script_Ok _ _ st E) as (_ & _ & _ & _ & _ & (_ & Hkeep & _) & _).
  specialize (Hkeep DetSpec.calc_detspeed_ eq_refl).
  destruct (Hfilled 0%nat 0%nat 2.2%float) as (log & v & Hc & Hget);
    [lia|reflexivity|].
  rewrite Hkeep in Hget.
  destruct (compute_Ok_inv _ _ _ _ v Hc) as (p & g0 & g1 & g1' & g2 & g3 & HD).
  do 18 apply proj2 in HD. apply proj1 in HD.
  change (DetSpec.quantity (Stub.library 1 false None) DetSpec.calc_detspeed_ v)
    with (DetProperties.Dcalc v) in Hget.
  rewrite HD in Hget.
  assert (Hne : 0%float
                <> DetProperties.Dcalc_expr (Stub.library 1 false None))
    by (apply float_neq; vm_compute; reflexivity).
  apply Hne. change (Some 0%float
                     = Some (DetProperties.Dcalc_expr
                               (Stub.library 1 false None))) in Hget.
  congruence.
Qed.


(** * Further properties *)

(** ** ZNDDetPostShock.py: integration *)

Section ZNDFurther.

Import ZND ZNDSpec Further.

Context {Ty : Types} (L : Library Ty).

Lemma increasing_cons2 t1 t2 ts :
  increasing (t1 :: t2 :: ts)
  = PrimFloat.ltb t1 t2 && increasing (t2 :: ts).
Proof. reflexivity. Qed.

Lemma increasing_take ts :
  increasing ts = true -> forall n, increasing (take n ts) = true.
Proof.
  induction ts as [|t1 ts IH]; intros Hinc n; [destruct n; reflexivity|].
  destruct n as [|n]; [reflexivity|].
  destruct ts as [|t2 ts]; [destruct n; reflexivity|].
  rewrite increasing_cons2 in Hinc.
  apply andb_true_iff in Hinc as [H12 Hrest].
  destruct n as [|n]; [reflexivity|].
  change (take (S (S n)) (t1 :: t2 :: ts))
    with (t1 :: t2 :: take n ts).
  rewrite increasing_cons2, H12.
  apply (IH Hrest (S n)).
Qed.

Lemma In_take {A} (x : A) n (l : list A) : In x (take n l) -> In x l.
Proof.
  revert n. induction l as [|y l IH]; intros [|n] H; simpl in *; try tauto.
  destruct H as [H|H]; eauto.
Qed.

Lemma timesteps_increasing : increasing timesteps = true.
Proof. vm_compute. reflexivity. Qed.

(** If [advance] raises before any crossing, the loop ends there. *)
Lemma scan_raise shockedtemp ts :
  forall sim r d t e,
    forallb (fun p => negb (ignited L shockedtemp p)) (trajectory L sim r ts)
    = true ->
    first_raise L sim r ts = Some (t, e) ->
    exists before after,
      ts = before ++ t :: after
      /\ scan L shockedtemp sim r d ts
         = (advanced before ++ [Called (Call_advance t) (Some e)], Raise e).
Proof.
  induction ts as [|t0 ts IH]; intros sim r d t e Hall Hraise; [discriminate|].
  rewrite scan_cons. simpl in Hall, Hraise.
  destruct (advance L sim r t0) as [[sim1 r1]|e0].
  - simpl in Hall. apply andb_true_iff in Hall as [Hno Hall].
    unfold ignited in Hno. simpl in Hno. apply negb_true_iff in Hno.
    rewrite Hno.
    destruct (IH sim1 r1 (Float t0) t e Hall Hraise)
      as (before & after & -> & ->).
    exists (t0 :: before), after. split; reflexivity.
  - injection Hraise as <- <-. exists [], ts. split; reflexivity.
Qed.

(** When the loop ends normally, [det_time] is the last time it advanced
    to, or the initial value if it advanced to none. *)
Lemma scan_last shockedtemp ts :
  forall sim r d sim' r' d',
    snd (scan L shockedtemp sim r d ts) = Ok (sim', r', d') ->
    d' = match last (advance_times (fst (scan L shockedtemp sim r d ts))) with
         | Some t => Float t
         | None => d
         end.
Proof.
  induction ts as [|t0 ts IH]; intros sim r d sim' r' d' Hres.
  - simpl in Hres. injection Hres as _ _ <-. reflexivity.
  - rewrite scan_cons in Hres |- *.
    destruct (advance L sim r t0) as [[sim1 r1]|e]; [|discriminate].
    destruct (gt _ _).
    + simpl in Hres. injection Hres as _ _ <-. reflexivity.
    + specialize (IH sim1 r1 (Float t0) sim' r' d').
      destruct (scan L shockedtemp sim1 r1 (Float t0) ts) as [log res].
      cbn [fst snd] in *. specialize (IH Hres). rewrite IH.
      change (advance_times (Called (Call_advance t0) None :: log))
        with (t0 :: advance_times log).
      destruct (advance_times log) as [|t1 rest]; [reflexivity|].
      rewrite last_cons_cons. destruct (last (t1 :: rest)) eqn:E;
        [reflexivity|]. apply last_None in E. discriminate.
Qed.

Lemma scan_no_print tmpl shockedtemp ts sim r d :
  printed tmpl (fst (scan L shockedtemp sim r d ts)) = [].
Proof.
  apply only_calls_printed.
  apply (scan_any L shockedtemp ts sim r d).
Qed.

End ZNDFurther.

(** X1.  In every run of ZNDDetPostShock.py the reactor network is
    advanced forward in time only: the times handed to [advance] are
    strictly increasing, each in (0, 0.25]. *)
Theorem integration_never_steps_back (Ty : Types) (L : Library Ty) :
  Further.increasing (advance_times (fst (ZND.main L))) = true
  /\ forallb (fun t => PrimFloat.ltb 0 t && PrimFloat.leb t 0.25)
       (advance_times (fst (ZND.main L))) = true.
Proof.
  rewrite ZND_main_eq.
  destruct (znd_script_steps L ZND.timesteps) as [n ->]. split.
  - apply increasing_take, timesteps_increasing.
  - apply forallb_forall. intros t Ht.
    pose proof timesteps_window as Hw. rewrite forallb_forall in Hw.
    apply Hw. eapply In_take. exact Ht.
Qed.

(** X2.  If [advance] raises at a time step t before the reactor
    temperature has crossed the threshold, ZNDDetPostShock.py ends with
    that exception: it has integrated to t_1, ..., t_i = t and no further,
    that call is the only one that raised, and no delay is printed. *)
Theorem integration_failure_ends_script (Ty : Types) (L : Library Ty)
  (t : float) (e : exn) :
  Further.integration_fails L = Some (t, e) ->
  snd (ZND.main L) = Raise e
  /\ raised (fst (ZND.main L)) = [e]
  /\ printed ZNDSpec.delay_template (fst (ZND.main L)) = []
  /\ exists i : nat,
      Z.of_nat i < 300000
      /\ t = ZNDSpec.step_time (Z.of_nat i + 1)
      /\ advance_times (fst (ZND.main L))
         = map (fun k => ZNDSpec.step_time (Z.of_nat k + 1)) (seq 0 (S i)).
Proof.
  intros Hfail. unfold Further.integration_fails in Hfail.
  rewrite ZND_main_eq.
  destruct (ZND.setup L) as [log0 [s|e0]] eqn:Hsetup; [|discriminate].
  cbn [snd] in Hfail.
  destruct (forallb _ _) eqn:Hall; [|discriminate].
  destruct (scan_raise L (ZND.shockedtemp s) ZND.timesteps (ZND.sim1 s)
              (ZND.r1 s) (Int 0) t e Hall Hfail)
    as (before & after & Hts & Hscan).
  pose proof (znd_script_run L ZND.timesteps) as Hrun.
  rewrite Hsetup, Hscan in Hrun. rewrite Hrun. cbn [fst snd].
  pose proof (setup_no_advance L) as Hadv0.
  pose proof (setup_no_delay L) as Hdel0.
  rewrite Hsetup in Hadv0, Hdel0. cbn [fst] in Hadv0, Hdel0.
  split; [reflexivity|]. split; [|split].
  - rewrite !raised_app, (setup_Ok_raised L _ _ Hsetup), advanced_raised.
    reflexivity.
  - rewrite !printed_app, Hdel0, advanced_printed. reflexivity.
  - destruct (timesteps_prefix before t after Hts) as (i & Hi & Ht & Hpre).
    exists i. split; [exact Hi|]. split; [exact Ht|].
    rewrite !advance_times_app, Hadv0, advanced_times. exact Hpre.
Qed.

(** Against the stand-in library with a reactor that does not heat and an
    integrator that fails from the fifth time step on. *)
Lemma integration_failure_witness :
  Further.integration_fails
    (Stub.library 0 false (Some (ZNDSpec.step_time 5)))
  = Some (ZNDSpec.step_time 5, LibraryError "CVODE failed")
  /\ snd (ZND.main (Stub.library 0 false (Some (ZNDSpec.step_time 5))))
     = Raise (LibraryError "CVODE failed").
Proof.
  assert (H : Further.integration_fails
                (Stub.library 0 false (Some (ZNDSpec.step_time 5)))
              = Some (ZNDSpec.step_time 5, LibraryError "CVODE failed"))
    by (vm_compute; reflexivity).
  split; [exact H|].
  apply (integration_failure_ends_script Stub.types
           (Stub.library 0 false (Some (ZNDSpec.step_time 5))) _ _ H).
Defined.

(** X3.  ZNDDetPostShock.py prints the autoignition delay exactly when it
    ends normally, once, as its last line; a run that ends with an
    exception prints no delay. *)
Theorem delay_printed_iff_normal_end (Ty : Types) (L : Library Ty) :
  printed ZNDSpec.delay_template (fst (ZND.main L))
  = match snd (ZND.main L) with
    | Ok d => [[VNum d]]
    | Raise _ => []
    end
  /\ forall d, snd (ZND.main L) = Ok d ->
               last (fst (ZND.main L))
               = Some (Print ZNDSpec.delay_template [VNum d]).
Proof.
  rewrite ZND_main_eq.
  pose proof (znd_script_run L ZND.timesteps) as Hrun.
  pose proof (setup_no_delay L) as Hdel0.
  destruct (ZND.setup L) as [log0 [s|e]]; cbn [fst] in Hdel0.
  - pose proof (scan_no_print L ZNDSpec.delay_template (ZND.shockedtemp s)
                  ZND.timesteps (ZND.sim1 s) (ZND.r1 s) (Int 0)) as Hdel1.
    destruct (ZND.scan L _ _ _ _ ZND.timesteps) as [log1 [[[sim' r'] d]|e]];
      rewrite Hrun; cbn [fst snd] in *.
    + split.
      * rewrite !printed_app, Hdel0, Hdel1. reflexivity.
      * intros d' [= <-]. rewrite app_assoc. apply last_snoc.
    + split; [|discriminate].
      rewrite !printed_app, Hdel0, Hdel1. reflexivity.
  - rewrite Hrun. cbn [fst snd]. split; [exact Hdel0|discriminate].
Qed.

(** X4.  Whenever ZNDDetPostShock.py prints a delay, it is the last time
    the reactor network was advanced to. *)
Theorem delay_is_last_time_advanced_to (Ty : Types) (L : Library Ty)
  (d : number) :
  snd (ZND.main L) = Ok d ->
  exists t, last (advance_times (fst (ZND.main L))) = Some t /\ d = Float t.
Proof.
  rewrite ZND_main_eq. intros Hd.
  assert (Hne : ZND.timesteps <> []).
  { intros Hnil. pose proof timesteps_length as Hlen.
    rewrite Hnil in Hlen. cbn [length] in Hlen.
    unfold ZND.n_steps in Hlen. lia. }
  destruct (znd_script_delay L ZND.timesteps d Hne Hd) as (t & _ & ->).
  pose proof (znd_script_run L ZND.timesteps) as Hrun.
  pose proof (setup_no_advance L) as Hadv0.
  destruct (ZND.setup L) as [log0 [s|e]]; cbn [fst] in Hadv0;
    [|rewrite Hrun in Hd; discriminate].
  pose proof (scan_last L (ZND.shockedtemp s) ZND.timesteps (ZND.sim1 s)
                (ZND.r1 s) (Int 0)) as Hlast.
  destruct (ZND.scan L _ _ _ _ ZND.timesteps) as [log1 [[[sim' r'] d']|e]];
    rewrite Hrun in Hd |- *; [|discriminate].
  cbn [fst snd] in *. injection Hd as ->.
  specialize (Hlast sim' r' (Float t) eq_refl).
  rewrite !advance_times_app, Hadv0.
  change (advance_times [Print ZNDSpec.delay_template [VNum (Float t)]])
    with (@nil float).
  rewrite app_nil_r. cbn [app].
  destruct (last (advance_times log1)) as [t'|]; [|discriminate].
  exists t'. split; [reflexivity|]. exact Hlast.
Qed.

(** Against the stand-in library, whose run ends at step 151. *)
Lemma delay_is_last_time_witness :
  exists t,
    last (advance_times (fst (ZND.main (Stub.library 1 false None)))) = Some t
    /\ Float (ZNDSpec.step_time 151) = Float t.
Proof.
  assert (H : snd (ZND.main (Stub.library 1 false None))
              = Ok (Float (ZNDSpec.step_time 151)))
    by (vm_compute; reflexivity).
  exact (delay_is_last_time_advanced_to Stub.types
           (Stub.library 1 false None) _ H).
Defined.

(** ** ZNDDetPostShock.py: the ignition criterion *)

Section ZNDCriterion.

Import ZND ZNDSpec Further.

Context {Ty : Types} (L : Library Ty).

(** What lines 21-45 leave behind when they do not raise. *)
Lemma setup_Ok_inv log0 (s : shocked Ty) :
  setup L = (log0, Ok s) ->
  exists cj g,
    CJspeed L (Float (P1 L)) (Int inittemp) q mech = Ok cj
    /\ PostShock_fr L cj (Float (P1 L)) (Int inittemp) q mech = Ok g
    /\ shockedtemp s = temperature L g
    /\ IdealGasConstPressureReactor L g = Ok (r1 s)
    /\ ReactorNet L [r1 s] = Ok (sim1 s)
    /\ printed temperature_template log0 = [[VFloat (temperature L g)]]
    /\ printed pressure_template log0
       = [[VFloat (pressure L g / 101325)%float]].
Proof.
  intros H. unfold setup in H. invert_run H.
  injection H as <- <-.
  repeat match goal with
         | Hp : print _ _ = _ |- _ =>
             unfold print, emit in Hp; injection Hp as <- <-
         end.
  do 2 eexists. repeat (split; [eassumption || reflexivity|]). reflexivity.
Qed.

End ZNDCriterion.

Section ZNDEarlyExit.

Import ZND ZNDSpec Further.

Context {Ty : Types} (L : Library Ty).

(** An integration that stops short of the last step raised there. *)
Lemma trajectory_short ts :
  forall sim r,
    length (trajectory L sim r ts) <> length ts ->
    exists t e, first_raise L sim r ts = Some (t, e).
Proof.
  induction ts as [|t0 ts IH]; intros sim r Hlen; simpl in *;
    [contradiction|].
  destruct (advance L sim r t0) as [[sim1 r1]|e]; [|eauto].
  apply IH. intros H. apply Hlen. simpl. rewrite H. reflexivity.
Qed.

(** A run over the time steps [ts] that ends normally before the last of
    them left the loop at the first crossing. *)
Lemma znd_script_early ts log0 s d :
  setup L = (log0, Ok s) ->
  snd (script L ts) = Ok d ->
  (length (advance_times (fst (script L ts))) < length ts)%nat ->
  exists t, first_crossing L s ts = Some t /\ d = Float t.
Proof.
  intros Hsetup Hd Hfew.
  pose proof (setup_no_advance L) as Hadv0. rewrite Hsetup in Hadv0.
  cbn [fst] in Hadv0.
  destruct (first_crossing L s ts) as [t|] eqn:Hfirst.
  - destruct (znd_script_crossing L ts log0 s t Hsetup Hfirst)
      as (before & after & _ & Hrun).
    rewrite Hrun in Hd. injection Hd as <-. eauto.
  - exfalso. unfold first_crossing in Hfirst.
    destruct (find _ _) as [p|] eqn:Hfind; [discriminate|].
    assert (Hall : forallb (fun p => negb (ignited L (shockedtemp s) p))
                     (trajectory L (sim1 s) (r1 s) ts) = true).
    { apply forallb_forall. intros p Hp.
      rewrite (find_none _ _ Hfind p Hp). reflexivity. }
    destruct (Nat.eq_dec (length (trajectory L (sim1 s) (r1 s) ts))
                (length ts)) as [Hlen|Hlen].
    + assert (Hnever : never_crosses L s ts = true).
      { unfold never_crosses. rewrite Hlen, Nat.eqb_refl, Hall. reflexivity. }
      pose proof (znd_script_never L ts log0 s Hsetup Hnever) as Hrun.
      cbn zeta in Hrun. rewrite Hrun in Hfew. cbn [fst] in Hfew.
      rewrite !advance_times_app, Hadv0, advanced_times in Hfew.
      cbn [advance_times flat_map app] in Hfew.
      rewrite app_nil_r in Hfew. lia.
    + destruct (trajectory_short ts _ _ Hlen) as (t & e & Hraise).
      destruct (scan_raise L (shockedtemp s) ts (sim1 s) (r1 s) (Int 0) t e
                  Hall Hraise) as (before & after & _ & Hscan).
      pose proof (znd_script_run L ts) as Hrun.
      rewrite Hsetup, Hscan in Hrun. rewrite Hrun in Hd. discriminate.
Qed.

End ZNDEarlyExit.

(** X5.  ZNDDetPostShock.py leaves its loop early only at ignition: if a
    run ends normally after fewer than 300000 calls of [advance], then
    the delay it prints is the first time step after which the reactor
    temperature exceeds, by more than 150 K, the temperature the script
    printed as the post-shock temperature. *)
Theorem early_exit_is_at_ignition
  (Ty : Types) (L : Library Ty) (d : number) :
  snd (ZND.main L) = Ok d ->
  Z.of_nat (length (advance_times (fst (ZND.main L)))) < 300000 ->
  exists s t r',
    snd (ZND.setup L) = Ok s
    /\ d = Float t
    /\ ZNDSpec.ignition_time L = Some t
    /\ printed Further.temperature_template (fst (ZND.main L))
       = [[VFloat (ZND.shockedtemp s)]]
    /\ In (t, r')
         (ZNDSpec.trajectory L (ZND.sim1 s) (ZND.r1 s) ZND.timesteps)
    /\ gt (state_T0 L r') (ZND.shockedtemp s + 150)%float = true.
Proof.
  rewrite ZND_main_eq. intros Hd Hfew.
  pose proof (znd_script_run L ZND.timesteps) as Hrun.
  destruct (ZND.setup L) as [log0 [s|e]] eqn:Hsetup;
    [clear Hrun|rewrite Hrun in Hd; discriminate].
  assert (Hfew' : (length (advance_times
                             (fst (ZND.script L ZND.timesteps)))
                   < length ZND.timesteps)%nat).
  { rewrite timesteps_length. unfold ZND.n_steps. lia. }
  destruct (znd_script_early L _ log0 s d Hsetup Hd Hfew')
    as (t & Hfirst & ->).
  destruct (znd_script_crossing L _ log0 s t Hsetup Hfirst)
    as (before & after & _ & Hrun).
  pose proof Hfirst as Hfind. unfold ZNDSpec.first_crossing in Hfind.
  destruct (find _ _) as [[t' r']|] eqn:Hf; [|discriminate].
  injection Hfind as ->. apply find_some in Hf as [Hin Hgt].
  destruct (setup_Ok_inv L log0 s Hsetup)
    as (cj & g & _ & _ & HT & _ & _ & Hprint & _).
  exists s, t, r'. split; [reflexivity|]. split; [reflexivity|].
  split; [unfold ZNDSpec.ignition_time; rewrite Hsetup; exact Hfirst|].
  split; [|split; assumption].
  rewrite Hrun. cbn [fst]. rewrite !printed_app, Hprint, advanced_printed, HT.
  reflexivity.
Qed.

(** Against the stand-in library, whose reactor heats by 1 K per step from
    1500 K: the run ends after 151 steps, at 1651 K. *)
Lemma early_exit_witness :
  exists s t r',
    snd (ZND.setup (Stub.library 1 false None)) = Ok s
    /\ Float (ZNDSpec.step_time 151) = Float t
    /\ ZNDSpec.ignition_time (Stub.library 1 false None) = Some t
    /\ printed Further.temperature_template
         (fst (ZND.main (Stub.library 1 false None)))
       = [[VFloat (ZND.shockedtemp s)]]
    /\ In (t, r')
         (ZNDSpec.trajectory (Stub.library 1 false None) (ZND.sim1 s)
            (ZND.r1 s) ZND.timesteps)
    /\ gt (state_T0 (Stub.library 1 false None) r')
         (ZND.shockedtemp s + 150)%float = true.
Proof.
  assert (H : snd (ZND.main (Stub.library 1 false None))
              = Ok (Float (ZNDSpec.step_time 151)))
    by (vm_compute; reflexivity).
  assert (Hn : Z.of_nat (length (advance_times
                                   (fst (ZND.main (Stub.library 1 false None)))))
               = 151)
    by (vm_compute; reflexivity).
  apply (early_exit_is_at_ignition Stub.types (Stub.library 1 false None)
           _ H).
  rewrite Hn. reflexivity.
Defined.

(** ** DetProperties.py: what is printed is what is stored *)

Section ReportAndStore.

Import DetProperties DetSpec Further.

Context {Ty : Types} (L : Library Ty).

Lemma report_printed name (v : locals Ty) :
  assigned name = true ->
  printed (report_template name) (fst (report L v))
  = [[VFloat (quantity L name v)]].
Proof. destruct name; intros H; try discriminate; reflexivity. Qed.

Lemma iteration_reported name IC st idx h :
  assigned name = true ->
  printed (report_template name) (fst (iteration L IC st idx h))
  = reported L name IC h.
Proof.
  intros Hname. rewrite iteration_log, printed_app.
  rewrite (only_calls_printed _ _ (compute_only_calls L IC h)).
  unfold reported. destruct (snd (compute L IC h)) as [v|e]; [|reflexivity].
  apply report_printed, Hname.
Qed.

Lemma sweep_reported name grid log st st' :
  assigned name = true ->
  sweep L grid st = (log, Ok st') ->
  printed (report_template name) log
  = flat_map (reported L name 0) grid ++ flat_map (reported L name 1) grid
    ++ flat_map (reported L name 2) grid.
Proof.
  intros Hname Hrun. unfold sweep in Hrun.
  apply (for_enumerate_concat _ (printed (report_template name))
           (fun IC _ => flat_map (reported L name IC) grid)) in Hrun.
  - rewrite Hrun.
    change (concat (imap (fun k (_ : Z) =>
                            flat_map (reported L name (0 + k)) grid) inittemp))
      with (flat_map (reported L name 0) grid
            ++ flat_map (reported L name 1) grid
            ++ flat_map (reported L name 2) grid ++ []).
    rewrite app_nil_r. reflexivity.
  - apply printed_app.
  - reflexivity.
  - intros s IC x l s' Hinner.
    apply (for_enumerate_concat _ (printed (report_template name))
             (fun _ h => reported L name IC h)) in Hinner.
    + rewrite Hinner, flat_map_concat_map. f_equal. apply imap_unindexed.
    + apply printed_app.
    + reflexivity.
    + intros s1 idx h l1 s1' Hpass.
      replace l1 with (fst (iteration L IC s1 idx h))
        by (rewrite Hpass; reflexivity).
      apply iteration_reported, Hname.
Qed.

(** A row whose cells hold what the passes reported. *)
Lemma row_reported (g : float -> list (list (value Ty))) grid :
  forall row : list float,
    length row = length grid ->
    (forall idx h, grid !! idx = Some h ->
                   exists y, row !! idx = Some y /\ g h = [[VFloat y]]) ->
    flat_map g grid = map (fun y => [VFloat y]) row.
Proof.
  induction grid as [|h grid IH]; intros row Hlen Hcells.
  - destruct row; [reflexivity|discriminate].
  - destruct row as [|y row]; [discriminate|]. injection Hlen as Hlen.
    destruct (Hcells 0%nat h eq_refl) as (y' & [= <-] & Hg).
    simpl. rewrite Hg. simpl. f_equal. apply IH; [exact Hlen|].
    intros idx h' Hh'. apply (Hcells (S idx) h' Hh').
Qed.

Lemma swept_reported name grid st :
  assigned name = true -> swept L grid 3 0 st ->
  flat_map (reported L name 0) grid ++ flat_map (reported L name 1) grid
  ++ flat_map (reported L name 2) grid
  = map (fun y => [VFloat y]) (concat (select name st)).
Proof.
  intros Hname (Hshape & _ & Hcells).
  destruct (rect_rows _ _ (Hshape name)) as (r0 & r1 & r2 & Ha).
  pose proof (Hshape name) as [_ Hrows]. rewrite Ha in Hrows.
  apply Forall_cons in Hrows as [H0 Hrows].
  apply Forall_cons in Hrows as [H1 Hrows].
  apply Forall_cons in Hrows as [H2 _].
  assert (Hrow : forall IC row,
             (IC < 3)%nat -> select name st !! IC = Some row ->
             length row = length grid ->
             flat_map (reported L name IC) grid = map (fun y => [VFloat y]) row).
  { intros IC row HIC Hlook Hlen. apply row_reported; [exact Hlen|].
    intros idx h Hh.
    destruct (Hcells name IC idx h Hname) as (log & v & Hc & Hget);
      [left; lia|exact HIC|exact Hh|].
    unfold get2 in Hget. rewrite Hlook in Hget.
    exists (quantity L name v). split; [exact Hget|].
    unfold reported. rewrite Hc. reflexivity. }
  rewrite Ha in Hrow.
  rewrite (Hrow 0%nat r0), (Hrow 1%nat r1), (Hrow 2%nat r2) by (auto; lia).
  rewrite Ha. simpl. rewrite app_nil_r, !map_app. reflexivity.
Qed.

End ReportAndStore.

(** X6.  In a run of DetProperties.py that ends normally, the values
    printed on the 'Det Speed', 'Mach Number', 'Temperature', 'Pressure'
    and 'gamma2 frozen' lines are, pass after pass, exactly the entries
    of detonation_speed, detonation_mach, product_temp, product_press and
    product_specificheat read row by row: every plotted scalar is one the
    console showed, and the specific heat ratio plotted is the frozen
    one. *)
Theorem printed_values_are_the_stored_ones
  (Ty : Types) (L : Library Ty) (st : DetProperties.arrays) :
  snd (DetProperties.main L) = Ok st ->
  forall name,
    DetSpec.assigned name = true ->
    printed (Further.report_template name) (fst (DetProperties.main L))
    = map (fun y => [VFloat y]) (concat (DetSpec.select name st)).
Proof.
  intros Hrun name Hname. rewrite DetProperties_main_eq in *.
  destruct (script_Ok L _ st Hrun)
    as (log1 & log2 & Hsweep & Hplots & Hlog & Hswept & _).
  rewrite Hlog, printed_app.
  replace log2
    with (fst (DetProperties.plots L DetProperties.compositions st))
    by (rewrite Hplots; reflexivity).
  rewrite plots_printed, app_nil_r.
  rewrite (sweep_reported L name _ _ _ _ Hname Hsweep).
  apply swept_reported; assumption.
Qed.

(** Against the stand-in library: 90 Mach numbers, all 1.8. *)
Lemma printed_values_witness :
  printed "   Mach Number %.3f "
    (fst (DetProperties.main (Stub.library 1 false None)))
  = repeat [VFloat 1.8] 90.
Proof.
  assert (H : exists st,
             snd (DetProperties.main (Stub.library 1 false None)) = Ok st
             /\ map (fun y => [@VFloat Stub.types y])
                  (concat (DetProperties.detonation_mach st))
                = repeat [VFloat 1.8] 90)
    by (eexists; split; vm_compute; reflexivity).
  destruct H as (st & H & Hvals). rewrite <- Hvals.
  exact (printed_values_are_the_stored_ones Stub.types
           (Stub.library 1 false None) st H DetSpec.detonation_mach_ eq_refl).
Defined.

(** X7.  In a run of DetProperties.py that ends normally, the legends of
    the fifteen curves are, figure after figure, those of the three
    initial states in the order of [inittemp] and [initpress]: curve
    number j (from 0) draws row j mod 3 of the array of figure j / 3 and
    is labelled with the temperature and the pressure (in kPa) of that
    row. *)
Theorem legends_name_the_initial_states
  (Ty : Types) (L : Library Ty) (st : DetProperties.arrays) :
  snd (DetProperties.main L) = Ok st ->
  map snd (plotted (fst (DetProperties.main L)))
  = concat (repeat (map Further.row_legend [0; 1; 2]%nat) 5)
  /\ forall j x y s l,
      plotted (fst (DetProperties.main L)) !! j = Some (x, y, s, l) ->
      nth (j / 3) [DetProperties.detonation_speed st;
                   DetProperties.product_temp st;
                   map (map (fun v => (v / 101325)%float))
                     (DetProperties.product_press st);
                   DetProperties.detonation_mach st;
                   DetProperties.product_specificheat st] []
        !! (j mod 3)%nat = Some y
      /\ l = Further.row_legend (j mod 3).
Proof.
  intros Hrun. rewrite DetProperties_main_eq in *.
  destruct (script_Ok L _ st Hrun)
    as (log1 & log2 & _ & _ & _ & (Hshape & _) & Hcurves & _).
  rewrite Hcurves. unfold DetSpec.curves.
  destruct (rect_rows _ _ (Hshape DetSpec.detonation_speed_))
    as (a0 & a1 & a2 & Ha).
  destruct (rect_rows _ _ (Hshape DetSpec.product_temp_))
    as (b0 & b1 & b2 & Hb).
  destruct (rect_rows _ _ (Hshape DetSpec.product_press_))
    as (c0 & c1 & c2 & Hc).
  destruct (rect_rows _ _ (Hshape DetSpec.detonation_mach_))
    as (d0 & d1 & d2 & Hd).
  destruct (rect_rows _ _ (Hshape DetSpec.product_specificheat_))
    as (e0 & e1 & e2 & He).
  cbn [DetSpec.select] in Ha, Hb, Hc, Hd, He.
  rewrite Ha, Hb, Hc, Hd, He. split; [reflexivity|].
  intros j x y s l Hj.
  do 15 (destruct j as [|j];
         [injection Hj as <- <- <- <-; split; reflexivity|]).
  discriminate.
Qed.

(** Against the stand-in library. *)
Lemma legends_witness :
  map snd (plotted (fst (DetProperties.main (Stub.library 1 false None))))
  = concat (repeat ["T$_0$=300 K, P$_0$=100 kPa";
                    "T$_0$=300 K, P$_0$=500 kPa";
                    "T$_0$=600 K, P$_0$=100 kPa"]%string 5).
Proof.
  assert (H : exists st,
             snd (DetProperties.main (Stub.library 1 false None)) = Ok st)
    by (eexists; vm_compute; reflexivity).
  destruct H as (st & H).
  exact (proj1 (legends_name_the_initial_states Stub.types
                  (Stub.library 1 false None) st H)).
Defined.

(** ** The plotting parts *)

Section Drawing.

Import Further.

Context {Ty : Types} (L : Library Ty).

Lemma saved_then_shown_quiet (log1 log2 : list (event Ty)) :
  computes_and_prints log1 ->
  saved_then_shown false (log1 ++ log2) = saved_then_shown false log2.
Proof.
  induction 1 as [|ev log1 Hev _ IH]; [reflexivity|].
  destruct ev; try contradiction; exact IH.
Qed.

Lemma det_plots_draw n grid st :
  DetSpec.shape n st ->
  forallb draws (fst (DetProperties.plots L grid st)) = true
  /\ saved_then_shown false (fst (DetProperties.plots L grid st)) = true
  /\ exists l ev, fst (DetProperties.plots L grid st) = l ++ [ev]
                  /\ plot_end ev.
Proof.
  intros Hst.
  destruct (rect_rows n _ (Hst DetSpec.detonation_speed_))
    as (a0 & a1 & a2 & Ha).
  destruct (rect_rows n _ (Hst DetSpec.product_temp_))
    as (b0 & b1 & b2 & Hb).
  destruct (rect_rows n _ (Hst DetSpec.product_press_))
    as (c0 & c1 & c2 & Hc).
  destruct (rect_rows n _ (Hst DetSpec.detonation_mach_))
    as (d0 & d1 & d2 & Hd).
  destruct (rect_rows n _ (Hst DetSpec.product_specificheat_))
    as (e0 & e1 & e2 & He).
  simpl in Ha, Hb, Hc, Hd, He.
  unfold DetProperties.plots, DetProperties.finish, savefig.
  rewrite Ha, Hb, Hc, Hd, He.
  cbn [directory has_slash Ascii.eqb Bool.eqb orb].
  destruct (savefig_in L "Figures") as [[]|e]; simpl.
  all: split; [reflexivity|]; split; [reflexivity|].
  all: match goal with
       | |- exists l ev, ?log = _ /\ _ =>
           exists (removelast log); eexists; split; [reflexivity|exact I]
       end.
Qed.

Lemma demo_plots_draw grid ds :
  forallb draws (fst (DemoCJstate.plots L grid ds)) = true
  /\ saved_then_shown false (fst (DemoCJstate.plots L grid ds)) = true
  /\ exists l ev, fst (DemoCJstate.plots L grid ds) = l ++ [ev]
                  /\ plot_end ev.
Proof.
  unfold DemoCJstate.plots, savefig. rewrite demo_directory.
  destruct (savefig_in L "Figures") as [[]|e];
    cbn [bind emit lib fst snd app].
  all: split; [reflexivity|]; split; [reflexivity|].
  all: match goal with
       | |- exists l ev, ?log = _ /\ _ =>
           exists (removelast log); eexists; split; [reflexivity|exact I]
       end.
Qed.

Lemma det_script_log grid :
  fst (DetProperties.script L grid)
  = fst (DetProperties.sweep L grid (DetProperties.allocate grid))
    ++ match snd (DetProperties.sweep L grid (DetProperties.allocate grid))
       with
       | Ok st => fst (DetProperties.plots L grid st)
       | Raise _ => []
       end.
Proof.
  unfold DetProperties.script. rewrite fst_bind.
  destruct (snd (DetProperties.sweep _ _ _)) as [st|e];
    [|rewrite app_nil_r; reflexivity].
  rewrite fst_bind.
  destruct (snd (DetProperties.plots L grid st));
    [rewrite app_nil_r|]; reflexivity.
Qed.

(** A run made of a computing part [m] and, when that ends normally, a
    plotting part: the plotting part is missing exactly when the run ends
    at a solver call that raised. *)
Lemma split_at_plots {A} (m : M Ty A) (plot : A -> list (event Ty)) :
  clean m -> computes_and_prints (fst m) ->
  (forall a, exists l ev, plot a = l ++ [ev] /\ plot_end ev) ->
  let log2 := match snd m with Ok a => plot a | Raise _ => [] end in
  log2 = [] <-> ends_at_solver (fst m ++ log2).
Proof.
  intros Hclean Hquiet Hend. unfold clean in Hclean.
  destruct (snd m) as [a|e]; cbn zeta.
  - destruct (Hend a) as (l & ev & -> & Hev). split.
    + intros H. destruct l; discriminate.
    + intros (log1 & c & e & Heq & Hc). exfalso.
      rewrite app_assoc in Heq. apply app_inj_tail in Heq as [_ Heq].
      rewrite Heq in Hev. destruct c; contradiction.
  - split; [intros _|reflexivity]. rewrite app_nil_r.
    destruct Hclean as (log1 & c & Heq & _). exists log1, c, e.
    split; [exact Heq|]. rewrite Heq in Hquiet.
    apply Forall_app in Hquiet as [_ Hc]. inversion Hc as [|? ? Hcall _].
    exact Hcall.
Qed.

Lemma det_script_split grid :
  exists log1 log2,
    fst (DetProperties.script L grid) = log1 ++ log2
    /\ computes_and_prints log1
    /\ forallb draws log2 = true
    /\ saved_then_shown false log2 = true
    /\ (log2 = [] <-> ends_at_solver (fst (DetProperties.script L grid))).
Proof.
  rewrite det_script_log.
  destruct (sweep_clean L grid (DetProperties.allocate grid)
              (shape_allocate grid)) as [Hclean Hshape].
  pose proof (sweep_quiet L grid (DetProperties.allocate grid)) as Hq.
  destruct (DetProperties.sweep L grid (DetProperties.allocate grid))
    as [log1 [st|e]] eqn:Hsweep; cbn [fst snd] in *.
  - destruct (det_plots_draw (length grid) grid st (Hshape st eq_refl))
      as (Hd & Hs & Hend).
    exists log1, (fst (DetProperties.plots L grid st)).
    split; [reflexivity|]. split; [exact Hq|].
    split; [exact Hd|]. split; [exact Hs|].
    apply (split_at_plots (log1, Ok st)
             (fun _ => fst (DetProperties.plots L grid st)) Hclean Hq).
    intros _. exact Hend.
  - exists log1, []. split; [reflexivity|]. split; [exact Hq|].
    split; [reflexivity|]. split; [reflexivity|].
    apply (split_at_plots (log1, @Raise DetProperties.arrays e)
             (fun _ => [Show]) Hclean Hq).
    intros _. exists [], Show. split; [reflexivity|exact I].
Qed.

Lemma demo_script_split grid :
  exists log1 log2,
    fst (DemoCJstate.script L grid) = log1 ++ log2
    /\ computes_and_prints log1
    /\ forallb draws log2 = true
    /\ saved_then_shown false log2 = true
    /\ (log2 = [] <-> ends_at_solver (fst (DemoCJstate.script L grid))).
Proof.
  rewrite demo_script_log. eexists; eexists. split; [reflexivity|].
  split; [apply demo_loop_quiet|].
  assert (Hiff := split_at_plots
            (for_enumerate (DemoCJstate.iteration L) (Np.zeros_like grid)
               0%nat grid)
            (fun ds => fst (DemoCJstate.plots L grid ds))
            (proj1 (demo_loop_clean L grid)) (demo_loop_quiet L grid _ _)
            (fun ds => proj2 (proj2 (demo_plots_draw grid ds)))).
  cbn zeta in Hiff.
  destruct (snd (for_enumerate _ _ _ _)) as [ds|e].
  - destruct (demo_plots_draw grid ds) as (Hd & Hs & _). auto.
  - auto.
Qed.

End Drawing.

(** X8.  DetProperties.py and demo_CJstate.py draw nothing until all
    computation is over: the log of every run is a part made of solver
    calls and console lines only, followed by a part that neither calls
    a solver nor prints; and that plotting part is missing exactly when
    the run ends with an exception a solver call raised.  A run that ends
    at a [savefig] that raised has drawn its first figure. *)
Theorem drawing_starts_after_the_last_computation
  (Ty : Types) (L : Library Ty) :
  (exists log1 log2,
      fst (DetProperties.main L) = log1 ++ log2
      /\ computes_and_prints log1
      /\ forallb Further.draws log2 = true
      /\ (log2 = [] <-> Further.ends_at_solver (fst (DetProperties.main L))))
  /\ (exists log1 log2,
         fst (DemoCJstate.main L) = log1 ++ log2
         /\ computes_and_prints log1
         /\ forallb Further.draws log2 = true
         /\ (log2 = [] <-> Further.ends_at_solver (fst (DemoCJstate.main L)))).
Proof.
  rewrite DetProperties_main_eq, DemoCJstate_main_eq. split.
  - destruct (det_script_split L DetProperties.compositions)
      as (log1 & log2 & H1 & H2 & H3 & _ & H4).
    exists log1, log2. auto.
  - destruct (demo_script_split L DemoCJstate.compositions)
      as (log1 & log2 & H1 & H2 & H3 & _ & H4).
    exists log1, log2. auto.
Qed.

(** X9.  In every run of every script, a figure is written to its file
    before its window is shown: each [savefig] that returns is followed
    at once by [show], and [show] is never called otherwise; a [savefig]
    that raises ends the run, so that [show] is not called then. *)
Theorem figures_are_saved_before_shown (Ty : Types) (L : Library Ty) :
  Further.saved_then_shown false (fst (DetProperties.main L)) = true
  /\ Further.saved_then_shown false (fst (DemoCJstate.main L)) = true
  /\ Further.saved_then_shown false (fst (ZND.main L)) = true.
Proof.
  rewrite DetProperties_main_eq, DemoCJstate_main_eq, ZND_main_eq.
  split; [|split].
  - destruct (det_script_split L DetProperties.compositions)
      as (log1 & log2 & -> & H2 & _ & H3 & _).
    rewrite saved_then_shown_quiet; assumption.
  - destruct (demo_script_split L DemoCJstate.compositions)
      as (log1 & log2 & -> & H2 & _ & H3 & _).
    rewrite saved_then_shown_quiet; assumption.
  - destruct (ZND_script_facts L ZND.timesteps) as (_ & _ & Hq).
    rewrite <- (app_nil_r (fst _)).
    rewrite saved_then_shown_quiet; [reflexivity|exact Hq].
Qed.

(** ** Without the directory Figures *)

Section MissingDirectory.

Import Further.

Context {Ty : Types} (L : Library Ty).

Lemma windows_app (log1 log2 : list (event Ty)) :
  windows (log1 ++ log2) = (windows log1 + windows log2)%nat.
Proof. unfold windows. rewrite List.filter_app, length_app. reflexivity. Qed.

Lemma computes_and_prints_windows (log : list (event Ty)) :
  computes_and_prints log -> windows log = 0%nat.
Proof.
  induction 1 as [|ev log Hev _ IH]; [reflexivity|].
  destruct ev; try contradiction; exact IH.
Qed.

(** A computing part that raised ended at a solver call. *)
Lemma quiet_raise_ends_at_solver {A} (m : M Ty A) e :
  clean m -> computes_and_prints (fst m) -> snd m = Raise e ->
  ends_at_solver (fst m).
Proof.
  unfold clean. intros Hclean Hquiet Hm. rewrite Hm in Hclean.
  destruct Hclean as (log1 & c & Heq & _). exists log1, c, e.
  split; [exact Heq|]. rewrite Heq in Hquiet.
  apply Forall_app in Hquiet as [_ Hc]. inversion Hc as [|? ? Hcall _].
  exact Hcall.
Qed.

Lemma det_script_result grid :
  snd (DetProperties.script L grid)
  = match snd (DetProperties.sweep L grid (DetProperties.allocate grid)) with
    | Ok st =>
        match snd (DetProperties.plots L grid st) with
        | Ok _ => Ok st
        | Raise e => Raise e
        end
    | Raise e => Raise e
    end.
Proof.
  unfold DetProperties.script. rewrite snd_bind.
  destruct (snd (DetProperties.sweep _ _ _)) as [st|e]; [|reflexivity].
  rewrite snd_bind. destruct (snd (DetProperties.plots L grid st)); reflexivity.
Qed.

(** The first figure block when [savefig] raises. *)
Lemma det_plots_missing n grid st e :
  DetSpec.shape n st ->
  savefig_in L "Figures" = Raise e ->
  exists log,
    DetProperties.plots L grid st
    = (log ++ [Called (Call_savefig "Figures/DetSpeed.png") (Some e)],
       Raise e)
    /\ files log = [] /\ windows log = 0%nat
    /\ plotted log = take 3 (DetSpec.curves grid st).
Proof.
  intros Hst Hdir.
  destruct (rect_rows n _ (Hst DetSpec.detonation_speed_))
    as (a0 & a1 & a2 & Ha).
  unfold DetProperties.plots, DetProperties.finish, savefig, DetSpec.curves.
  simpl in Ha. rewrite Ha.
  cbn [directory has_slash Ascii.eqb Bool.eqb orb]. rewrite Hdir.
  simpl.
  match goal with
  | |- exists log, (?l, _) = _ /\ _ => exists (removelast l)
  end.
  simpl. rewrite !map_id. repeat split; reflexivity.
Qed.

Lemma demo_plots_missing grid ds e :
  savefig_in L "Figures" = Raise e ->
  exists log,
    DemoCJstate.plots L grid ds
    = (log ++ [Called (Call_savefig DemoCJstate.figname) (Some e)], Raise e)
    /\ files log = [] /\ windows log = 0%nat
    /\ plotted log = [(grid, ds, "k--", "Detonation Speed")%string].
Proof.
  intros Hdir. unfold DemoCJstate.plots, savefig.
  rewrite demo_directory, Hdir. cbn [bind emit lib fst snd app].
  match goal with
  | |- exists log, (?l, _) = _ /\ _ => exists (removelast l)
  end.
  cbn [removelast app]. repeat split; reflexivity.
Qed.

(** A run made of a computing part and a plotting part that ends at a
    [savefig] that raises. *)
Lemma ends_at_savefig {A} (m : M Ty A) (plot : A -> M Ty unit)
  (figname : string) (n : nat) e :
  clean m -> computes_and_prints (fst m) ->
  (forall a, snd m = Ok a ->
             exists log,
               plot a
               = (log ++ [Called (Call_savefig figname) (Some e)], Raise e)
               /\ files log = [] /\ windows log = 0%nat
               /\ length (plotted log) = n) ->
  let log := fst m ++ match snd m with
                      | Ok a => fst (plot a)
                      | Raise _ => []
                      end in
  let r := match snd m with
           | Ok a => match snd (plot a) with
                     | Ok _ => Ok a
                     | Raise e => Raise e
                     end
           | Raise e => Raise e
           end in
  (exists e', r = Raise e')
  /\ files log = [] /\ windows log = 0%nat
  /\ (~ ends_at_solver log ->
      r = Raise e
      /\ last log = Some (Called (Call_savefig figname) (Some e))
      /\ length (plotted log) = n).
Proof.
  intros Hclean Hquiet Hplot log r. subst log r.
  destruct (snd m) as [a|e0] eqn:Hm.
  - destruct (Hplot a eq_refl) as (l & -> & Hf & Hw & Hn). cbn [fst snd].
    split; [eauto|].
    rewrite !files_app, !windows_app, Hf, Hw.
    rewrite (computes_and_prints_files _ Hquiet).
    rewrite (computes_and_prints_windows _ Hquiet).
    split; [reflexivity|]. split; [reflexivity|]. intros _.
    split; [reflexivity|]. split; [rewrite app_assoc; apply last_snoc|].
    rewrite !plotted_app, !length_app, Hn.
    rewrite (computes_and_prints_plotted _ Hquiet). simpl. lia.
  - rewrite app_nil_r. split; [eauto|].
    split; [apply computes_and_prints_files, Hquiet|].
    split; [apply computes_and_prints_windows, Hquiet|].
    intros Hno. exfalso. apply Hno.
    apply (quiet_raise_ends_at_solver m e0); assumption.
Qed.

End MissingDirectory.

(** X13.  Where the directory Figures is missing, so that [savefig]
    raises, no run of DetProperties.py or demo_CJstate.py ends normally,
    writes a file or shows a window, whatever the solvers answer.  Unless
    the run ends at a solver call that raised, it ends with the exception
    of the first [savefig], as the last thing it does, after drawing the
    curves of the first figure: three in DetProperties.py, one in
    demo_CJstate.py. *)
Theorem missing_directory_ends_the_run
  (Ty : Types) (L : Library Ty) (e : exn) :
  savefig_in L "Figures" = Raise e ->
  ((exists e', snd (DetProperties.main L) = Raise e')
   /\ files (fst (DetProperties.main L)) = []
   /\ Further.windows (fst (DetProperties.main L)) = 0%nat
   /\ (~ Further.ends_at_solver (fst (DetProperties.main L)) ->
       snd (DetProperties.main L) = Raise e
       /\ last (fst (DetProperties.main L))
          = Some (Called (Call_savefig "Figures/DetSpeed.png") (Some e))
       /\ length (plotted (fst (DetProperties.main L))) = 3%nat))
  /\ ((exists e', snd (DemoCJstate.main L) = Raise e')
      /\ files (fst (DemoCJstate.main L)) = []
      /\ Further.windows (fst (DemoCJstate.main L)) = 0%nat
      /\ (~ Further.ends_at_solver (fst (DemoCJstate.main L)) ->
          snd (DemoCJstate.main L) = Raise e
          /\ last (fst (DemoCJstate.main L))
             = Some (Called (Call_savefig "Figures/DetSpeedT300KP100kPa.png")
                       (Some e))
          /\ length (plotted (fst (DemoCJstate.main L))) = 1%nat)).
Proof.
  intros Hdir. rewrite DetProperties_main_eq, DemoCJstate_main_eq. split.
  - rewrite det_script_log, det_script_result.
    destruct (sweep_clean L DetProperties.compositions
                (DetProperties.allocate DetProperties.compositions)
                (shape_allocate _)) as [Hclean Hshape].
    pose proof (sweep_quiet L DetProperties.compositions
                  (DetProperties.allocate DetProperties.compositions)) as Hq.
    destruct (DetProperties.sweep L DetProperties.compositions
                (DetProperties.allocate DetProperties.compositions))
      as [log1 [st|e0]] eqn:Hsweep.
    + apply (ends_at_savefig (log1, Ok st)
               (DetProperties.plots L DetProperties.compositions)
               "Figures/DetSpeed.png" 3 e Hclean Hq).
      intros st' [= <-].
      destruct (det_plots_missing L _ DetProperties.compositions st e
                  (Hshape st eq_refl) Hdir) as (l & Hl & Hf & Hw & Hp).
      exists l. rewrite Hp. repeat split; assumption || reflexivity.
    + apply (ends_at_savefig (log1, @Raise DetProperties.arrays e0)
               (DetProperties.plots L DetProperties.compositions)
               "Figures/DetSpeed.png" 3 e Hclean Hq).
      intros st' [=].
  - rewrite demo_script_log, demo_script_result.
    apply (ends_at_savefig
             (for_enumerate (DemoCJstate.iteration L)
                (Np.zeros_like DemoCJstate.compositions) 0%nat
                DemoCJstate.compositions)
             (DemoCJstate.plots L DemoCJstate.compositions)
             DemoCJstate.figname 1 e
             (proj1 (demo_loop_clean L DemoCJstate.compositions))
             (demo_loop_quiet L _ _ _)).
    intros ds _.
    destruct (demo_plots_missing L DemoCJstate.compositions ds e Hdir)
      as (l & Hl & Hf & Hw & Hp).
    exists l. rewrite Hp. repeat split; assumption || reflexivity.
Qed.

(** Against the stand-in library without the directory: the sweep runs
    through and the script ends at the first [savefig]. *)
Lemma missing_directory_witness :
  snd (DetProperties.main (Stub.no_figures 1 false None))
  = Raise (OSError "No such file or directory")
  /\ files (fst (DetProperties.main (Stub.no_figures 1 false None))) = []
  /\ length (plotted (fst (DetProperties.main (Stub.no_figures 1 false None))))
     = 3%nat.
Proof.
  assert (Hdir : savefig_in (Stub.no_figures 1 false None) "Figures"
                 = Raise (OSError "No such file or directory"))
    by reflexivity.
  assert (Hrun : snd (DetProperties.main (Stub.no_figures 1 false None))
                 = Raise (OSError "No such file or directory"))
    by (vm_compute; reflexivity).
  destruct (missing_directory_ends_the_run Stub.types
              (Stub.no_figures 1 false None) _ Hdir)
    as [(_ & Hfiles & _ & Hlast) _].
  split; [exact Hrun|]. split; [exact Hfiles|].
  apply Hlast. intros (log1 & c & e' & Heq & Hc).
  assert (Hend : last (fst (DetProperties.main (Stub.no_figures 1 false None)))
                 = Some (Called (Call_savefig "Figures/DetSpeed.png")
                           (Some (OSError "No such file or directory"))))
    by (vm_compute; reflexivity).
  rewrite Heq, last_snoc in Hend. injection Hend as -> _. exact Hc.
Defined.

(** ** The states handed to the solvers *)

Section SolverStates.

Import Further.

Context {Ty : Types} (L : Library Ty).

Lemma calls_on_nil states : calls_on states (@nil (event Ty)).
Proof. constructor. Qed.

Lemma calls_on_app states (log1 log2 : list (event Ty)) :
  calls_on states log1 -> calls_on states log2 ->
  calls_on states (log1 ++ log2).
Proof.
  unfold calls_on. rewrite calls_app. intros H1 H2. apply Forall_app; auto.
Qed.

Lemma calls_on_no_calls states (log : list (event Ty)) :
  calls log = [] -> calls_on states log.
Proof. unfold calls_on. intros ->. constructor. Qed.

(** A property of logs kept by every pass over an item of the list is
    kept by the loop. *)
Lemma holds_for_items {St A} (P : list (event Ty) -> Prop)
  (body : St -> nat -> A -> M Ty St) :
  P [] -> (forall l1 l2, P l1 -> P l2 -> P (l1 ++ l2)) ->
  forall xs i,
    (forall st k x, xs !! k = Some x -> P (fst (body st (i + k)%nat x))) ->
    forall st, P (fst (for_enumerate body st i xs)).
Proof.
  intros Hnil Happ xs.
  induction xs as [|x xs IH]; intros i Hbody st; simpl; [exact Hnil|].
  apply (holds_bind P Happ).
  - specialize (Hbody st 0%nat x eq_refl).
    rewrite Nat.add_0_r in Hbody. exact Hbody.
  - intros st'. apply IH. intros s k y Hk.
    replace (S i + k)%nat with (i + S k)%nat by lia.
    apply Hbody. exact Hk.
Qed.

Lemma in_loop_order_In IC p T h grid :
  DetProperties.initpress !! IC = Some p ->
  DetProperties.inittemp !! IC = Some T ->
  In h grid ->
  In (Int (int64_wrap (p * 1000)), Int T, make_q 100 h)
    (DetSpec.in_loop_order grid).
Proof.
  intros Hp HT Hh. unfold DetSpec.in_loop_order.
  destruct IC as [|[|[|IC]]]; try discriminate;
    injection Hp as <-; injection HT as <-;
    rewrite !in_app_iff.
  - left. exact (in_map _ _ _ Hh).
  - right; left. exact (in_map _ _ _ Hh).
  - right; right. exact (in_map _ _ _ Hh).
Qed.

Lemma compute_calls_on IC h grid :
  In h grid ->
  calls_on (DetSpec.in_loop_order grid) (fst (DetProperties.compute L IC h)).
Proof.
  intros Hh. unfold DetProperties.compute, getitem.
  destruct (DetProperties.initpress !! IC) as [p|] eqn:Hp;
    [|apply calls_on_nil].
  destruct (DetProperties.inittemp !! IC) as [T|] eqn:HT;
    [|apply calls_on_nil].
  pose proof (in_loop_order_In IC p T h grid Hp HT Hh) as Hin.
  case_calls.
  all: unfold calls_on; cbn [calls flat_map app];
    repeat (apply List.Forall_cons; [cbn [call_on_states]; auto|]);
    apply List.Forall_nil.
Qed.

Lemma iteration_calls_on IC st idx h grid :
  In h grid ->
  calls_on (DetSpec.in_loop_order grid)
    (fst (DetProperties.iteration L IC st idx h)).
Proof.
  intros Hh. rewrite iteration_log.
  apply calls_on_app; [apply compute_calls_on, Hh|].
  destruct (snd (DetProperties.compute L IC h)) as [v|e];
    [|apply calls_on_nil].
  apply calls_on_no_calls. reflexivity.
Qed.

Lemma lookup_In {A} (xs : list A) k x : xs !! k = Some x -> In x xs.
Proof.
  revert k. induction xs as [|y ys IH]; intros [|k] Hk; try discriminate.
  - injection Hk as ->. left. reflexivity.
  - right. eapply IH. exact Hk.
Qed.

Lemma calls_on_savefigs states (log : list (event Ty)) fignames :
  calls log = map Call_savefig fignames ->
  forallb png_under_Figures fignames = true ->
  calls_on states log.
Proof.
  unfold calls_on. intros -> Hpng.
  induction fignames as [|f fs IH]; simpl in *; constructor.
  - apply andb_prop in Hpng as [Hf _]. exact Hf.
  - apply IH. apply andb_prop in Hpng as [_ Hfs]. exact Hfs.
Qed.

Lemma det_script_calls_on grid :
  calls_on (DetSpec.in_loop_order grid) (fst (DetProperties.script L grid)).
Proof.
  assert (Hsweep : forall st,
             calls_on (DetSpec.in_loop_order grid)
               (fst (DetProperties.sweep L grid st))).
  { intros st. unfold DetProperties.sweep.
    apply (holds_for_enumerate (calls_on (DetSpec.in_loop_order grid))
             (calls_on_nil _) (calls_on_app _)).
    intros s IC _.
    apply (holds_for_items (calls_on (DetSpec.in_loop_order grid)));
      [apply calls_on_nil|apply calls_on_app|].
    intros s' k h Hk. apply iteration_calls_on. eapply lookup_In, Hk. }
  destruct (script_cases L grid)
    as [(e & _ & Hrun)
       |[(log1 & log2 & st & Hs & _ & Hrun & _ & _ & Hcalls)
        |(log1 & log2 & st & e & Hs & Hrun & _ & _ & Hcalls & _)]].
  - rewrite Hrun. apply Hsweep.
  - rewrite Hrun. cbn [fst]. apply calls_on_app.
    + replace log1
        with (fst (DetProperties.sweep L grid (DetProperties.allocate grid)))
        by (rewrite Hs; reflexivity).
      apply Hsweep.
    + apply (calls_on_savefigs _ _ _ Hcalls). vm_compute. reflexivity.
  - rewrite Hrun. cbn [fst]. apply calls_on_app.
    + replace log1
        with (fst (DetProperties.sweep L grid (DetProperties.allocate grid)))
        by (rewrite Hs; reflexivity).
      apply Hsweep.
    + apply (calls_on_savefigs _ _ ["Figures/DetSpeed.png"]%string).
      * rewrite calls_app, Hcalls. reflexivity.
      * vm_compute. reflexivity.
Qed.

Lemma demo_compute_calls_on ds idx h grid :
  In h grid ->
  calls_on (demo_states grid) (fst (DemoCJstate.compute L ds idx h)).
Proof.
  intros Hh.
  assert (Hin : In (Int (DemoCJstate.initpress * 1000),
                    Int DemoCJstate.inittemp, make_q 100 h)
                  (demo_states grid))
    by exact (in_map _ _ _ Hh).
  unfold DemoCJstate.compute.
  case_calls.
  all: unfold calls_on; cbn [calls flat_map app];
    repeat (apply List.Forall_cons; [cbn [call_on_states]; auto|]);
    apply List.Forall_nil.
Qed.

Lemma demo_script_calls_on grid :
  calls_on (demo_states grid) (fst (DemoCJstate.script L grid)).
Proof.
  rewrite demo_script_log. apply calls_on_app.
  - apply (holds_for_items (calls_on (demo_states grid)));
      [apply calls_on_nil|apply calls_on_app|].
    intros ds k h Hk. unfold DemoCJstate.iteration.
    apply (holds_bind _ (calls_on_app _));
      [apply demo_compute_calls_on; eapply lookup_In, Hk|].
    intros [ds' v].
    apply (holds_bind _ (calls_on_app _));
      [apply calls_on_no_calls, demo_report_run|].
    intros _. apply calls_on_nil.
  - destruct (snd (for_enumerate _ _ _ _)) as [ds|e]; [|apply calls_on_nil].
    apply (calls_on_savefigs _ _ [DemoCJstate.figname]);
      [|vm_compute; reflexivity].
    destruct (savefig_cases L) as [Hdir|[e Hdir]].
    + apply demo_plots_Ok, Hdir.
    + destruct (demo_plots_Raise L grid ds e Hdir) as (l & -> & _ & _ & Hc & _).
      cbn [fst]. rewrite calls_app, Hc. reflexivity.
Qed.

End SolverStates.

(** X10.  In every run, also one that fails, DetProperties.py and
    demo_CJstate.py call the library on the mechanism gri30.cti only;
    every [TPX] assignment, CJ-speed call (always with full output) and
    equilibrium post-shock call is on a state of the sweep: one of the
    three initial states, respectively 100000 Pa and 300 K, with the
    mixture of a composition of the grid; every [savefig] names a PNG
    file under Figures; and neither script calls the frozen post-shock
    solver or builds or advances a reactor. *)
Theorem solvers_are_called_on_the_sweep_states
  (Ty : Types) (L : Library Ty) :
  Further.calls_on (DetSpec.in_loop_order DetProperties.compositions)
    (fst (DetProperties.main L))
  /\ Further.calls_on (Further.demo_states DemoCJstate.compositions)
       (fst (DemoCJstate.main L)).
Proof.
  rewrite DetProperties_main_eq, DemoCJstate_main_eq.
  split; [apply det_script_calls_on|apply demo_script_calls_on].
Qed.

(** ** demo_CJstate.py: the array of detonation speeds *)

Section DemoArray.

Import DemoCJstate Further.

Context {Ty : Types} (L : Library Ty).

Lemma demo_iteration_fills grid k h ds l ds' :
  grid !! k = Some h ->
  demo_filled_upto L grid k ds ->
  iteration L ds k h = (l, Ok ds') ->
  demo_filled_upto L grid (S k) ds'.
Proof.
  intros Hk [Hlen Hfilled] Hrun. unfold iteration in Hrun.
  apply bind_Ok_inv in Hrun as (l1 & [ds1 v] & l2 & Hc & Hrest & _).
  apply bind_Ok_inv in Hrest as (l3 & [] & l4 & _ & Hret & _).
  injection Hret as _ <-.
  apply demo_compute_Ok_inv in Hc
    as (g0 & g1 & R2 & d & g2 & g3 & HP & HT & Hq & _ & _ & _ & Hcj
        & Hidx & -> & _).
  rewrite HP, HT, Hq in Hcj.
  split; [rewrite length_insert; exact Hlen|].
  intros idx h' Hlt Hh'.
  destruct (Nat.eq_dec idx k) as [->|Hne].
  - rewrite Hk in Hh'. injection Hh' as <-.
    exists (cj_speed v), R2, d. split; [exact Hcj|].
    apply list_lookup_insert_eq. exact Hidx.
  - destruct (Hfilled idx h') as (c & R2' & d' & Hc' & Hds); [lia|exact Hh'|].
    exists c, R2', d'. split; [exact Hc'|].
    rewrite list_lookup_insert_ne by auto. exact Hds.
Qed.

Lemma demo_loop_fills grid log ds :
  for_enumerate (iteration L) (Np.zeros_like grid) 0%nat grid = (log, Ok ds) ->
  demo_filled L grid ds.
Proof.
  intros Hrun.
  apply (for_enumerate_invariant (iteration L) (demo_filled_upto L grid))
    in Hrun.
  - destruct Hrun as [Hlen Hfilled]. split; [exact Hlen|].
    intros idx h Hh. apply Hfilled; [|exact Hh].
    apply lookup_lt_Some in Hh. simpl. exact Hh.
  - intros k x s l s' Hk HI Hbody. simpl in *.
    eapply demo_iteration_fills; eauto.
  - split; [apply repeat_length|]. intros idx h Hlt. lia.
Qed.

End DemoArray.

(** X11.  In a run of demo_CJstate.py that ends normally, entry [idx] of
    [detonation_speed] is the speed the CJ-speed solver returned for the
    [idx]-th of the twelve compositions at 100000 Pa and 300 K, and the
    one curve of the figure plots this array against the compositions,
    dashed black, under the legend 'Detonation Speed'. *)
Theorem demo_detonation_speed_filled_and_plotted
  (Ty : Types) (L : Library Ty) (ds : list float) :
  snd (DemoCJstate.main L) = Ok ds ->
  Further.demo_filled L DemoCJstate.compositions ds
  /\ length ds = 12%nat
  /\ plotted (fst (DemoCJstate.main L))
     = [(DemoCJstate.compositions, ds, "k--", "Detonation Speed")%string].
Proof.
  intros Hrun. rewrite DemoCJstate_main_eq in *.
  rewrite demo_script_result in Hrun.
  destruct (snd (for_enumerate (DemoCJstate.iteration L)
                   (Np.zeros_like DemoCJstate.compositions) 0%nat
                   DemoCJstate.compositions)) as [ds'|e] eqn:Hres;
    [|discriminate].
  destruct (demo_plots_cases L DemoCJstate.compositions ds')
    as [[Hplots Hdir]|(e & Hplots & _)];
    rewrite Hplots in Hrun; [|discriminate].
  injection Hrun as ->.
  assert (Hloop : for_enumerate (DemoCJstate.iteration L)
                    (Np.zeros_like DemoCJstate.compositions) 0%nat
                    DemoCJstate.compositions
                  = (fst (for_enumerate (DemoCJstate.iteration L)
                            (Np.zeros_like DemoCJstate.compositions) 0%nat
                            DemoCJstate.compositions), Ok ds))
    by (rewrite <- Hres; apply surjective_run).
  pose proof (demo_loop_fills L _ _ _ Hloop) as Hfilled.
  split; [exact Hfilled|]. split; [exact (proj1 Hfilled)|].
  rewrite demo_script_log, Hres, plotted_app.
  rewrite (computes_and_prints_plotted _ (demo_loop_quiet L _ _ _)).
  apply demo_plots_Ok, Hdir.
Qed.

(** Against the stand-in library: twelve entries, all 1800 m/s. *)
Lemma demo_detonation_speed_witness :
  plotted (fst (DemoCJstate.main (Stub.library 1 false None)))
  = [(DemoCJstate.compositions, repeat 1800%float 12, "k--",
      "Detonation Speed")%string].
Proof.
  assert (H : snd (DemoCJstate.main (Stub.library 1 false None))
              = Ok (repeat 1800%float 12))
    by (vm_compute; reflexivity).
  exact (proj2 (proj2 (demo_detonation_speed_filled_and_plotted Stub.types
                         (Stub.library 1 false None) _ H))).
Defined.

(** ** ZNDDetPostShock.py: the library calls *)

Section ZNDCalls.

Import ZND Further.

Context {Ty : Types} (L : Library Ty).

Lemma setup_calls :
  match setup L with
  | (log0, Ok s) =>
      exists cj_speed,
        CJspeed L (Float (P1 L)) (Int inittemp) q mech = Ok cj_speed
        /\ calls log0
           = [Call_Solution mech;
              Call_set_TPX (Int inittemp) (Float (P1 L)) q;
              Call_CJspeed (Float (P1 L)) (Int inittemp) q mech false;
              Call_PostShock_fr cj_speed (Float (P1 L)) (Int inittemp) q mech;
              Call_Reactor; Call_ReactorNet]
  | (log0, Raise e) =>
      forall ts, exists n,
        (1 <= n <= 6)%nat /\ calls log0 = take n (znd_calls L ts)
  end.
Proof.
  unfold setup. case_calls.
  all: try (intros ts; unfold znd_calls);
    repeat match goal with
           | H : CJspeed _ _ _ _ _ = _ |- _ => rewrite H; clear H
           end.
  all: first [ eexists; split; reflexivity
             | exists 1%nat; split; [lia|reflexivity]
             | exists 2%nat; split; [lia|reflexivity]
             | exists 3%nat; split; [lia|reflexivity]
             | exists 4%nat; split; [lia|reflexivity]
             | exists 5%nat; split; [lia|reflexivity]
             | exists 6%nat; split; [lia|reflexivity] ].
Qed.

Lemma znd_script_calls ts :
  exists n,
    (1 <= n)%nat
    /\ calls (fst (script L ts)) = take n (znd_calls L ts)
    /\ (forall d, snd (script L ts) = Ok d -> (6 <= n)%nat).
Proof.
  pose proof (znd_script_run L ts) as Hrun.
  pose proof setup_calls as H0.
  destruct (setup L) as [log0 [s|e]].
  - destruct H0 as (cj & Hcj & H0).
    pose proof (scan_any L (shockedtemp s) ts (sim1 s) (r1 s) (Int 0))
      as (_ & _ & _ & [n Hn] & Hcalls).
    cbn zeta in Hcalls, Hn.
    assert (Hall : calls log0
                   ++ calls (fst (scan L (shockedtemp s) (sim1 s) (r1 s)
                                    (Int 0) ts))
                   = take (6 + n) (znd_calls L ts)).
    { rewrite Hcalls, Hn, H0. unfold znd_calls. rewrite Hcj.
      rewrite <- firstn_map. reflexivity. }
    exists (6 + n)%nat. split; [lia|]. rewrite <- Hall.
    destruct (scan L _ _ _ _ ts) as [log1 [[[sim' r'] d']|e]];
      rewrite Hrun; cbn [fst snd]; rewrite !calls_app;
      (split; [|intros; lia]).
    + simpl. rewrite app_nil_r. reflexivity.
    + reflexivity.
  - destruct (H0 ts) as (n & Hn & Hc). exists n.
    rewrite Hrun. cbn [fst snd]. split; [lia|]. split; [exact Hc|].
    intros d Hd. discriminate.
Qed.

End ZNDCalls.

(** X12.  In every run, the library calls of ZNDDetPostShock.py are an
    initial part of one fixed sequence: load gri30.cti, set the gas to
    300 K and one atmosphere, compute the CJ speed without full output,
    the frozen post-shock state for that speed, build the reactor and the
    network, then advance to the time steps in turn.  The script decides
    only where the sequence stops; it never calls the equilibrium
    post-shock solver or a sound-speed routine, and a run that ends
    normally made at least the six calls of the setup. *)
Theorem znd_calls_in_program_order (Ty : Types) (L : Library Ty) :
  exists n,
    (1 <= n)%nat
    /\ calls (fst (ZND.main L)) = take n (Further.znd_calls L ZND.timesteps)
    /\ (forall d, snd (ZND.main L) = Ok d -> (6 <= n)%nat).
Proof.
  rewrite ZND_main_eq. apply znd_script_calls.
Qed.
